(** * study-group-frontend: the browser client's fetch / normalize / render glue

    A shallow embedding of
    - [student/scripts/topicsClient.js]   ([getTopicPosts], [togglePostLike];
      then [postTopic], [getTopic], [postReply], [editPost], [deletePostApi],
      [getPostLikes]),
    - [student/scripts/study-group-inside/room-manager.js]
      (class [RoomManager]: [loadRoomData], [autoJoinRoom],
      [loadParticipantsInfo], [updateParticipantsList], [kickParticipant];
      then [updateParticipantCallStatus], [saveRoomSettings], [deleteRoom]),
    - [student/scripts/profile.js] ([validateEmail], [validateField],
      [validateAllFields]; then [uploadProfilePhoto], [saveProfile],
      [closeEditModal]),
    - [config/appConfig.js] ([apiUrl]),
    followed by the properties the specification states about them, and by
    further properties of the same code. *)

From Stdlib Require Import ZArith Ascii String List Bool Lia.
From stdpp Require Import base option gmap strings list.

Local Open Scope string_scope.
Local Open Scope Z_scope.
Local Open Scope list_scope.

(** ** JavaScript values as they reach this code *)

Module Js.

(** Values produced by [JSON.parse] and by property reads on them.  Numbers
    are IEEE doubles in the browser; the code modelled here only looks at their
    type tag and tests them against zero, and they are represented by
    integers.  Strings are sequences of code units below 256. *)
#[warnings="-register-all"]
Inductive JsVal : Type :=
  | JUndefined
  | JNull
  | JBool (b : bool)
  | JNum (n : Z)
  | JStr (s : string)
  | JArr (elems : list JsVal)
  | JObj (props : gmap string JsVal).

(** [typeof v] *)
Definition typeof (v : JsVal) : string :=
  match v with
  | JUndefined => "undefined"
  | JNull => "object"
  | JBool _ => "boolean"
  | JNum _ => "number"
  | JStr _ => "string"
  | JArr _ => "object"
  | JObj _ => "object"
  end.

(** [ToBoolean(v)], the test behind [!v], [a || b], [c ? x : y] and
    [filter(Boolean)] *)
Definition truthy (v : JsVal) : bool :=
  match v with
  | JUndefined | JNull => false
  | JBool b => b
  | JNum n => negb (n =? 0)
  | JStr s => negb (String.eqb s "")
  | JArr _ | JObj _ => true
  end.

(** [a || b] *)
Definition js_or (a b : JsVal) : JsVal := if truthy a then a else b.

(** [Array.isArray(v)] *)
Definition isArray (v : JsVal) : bool :=
  match v with JArr _ => true | _ => false end.

(** [a === b] for two values that are not the same reference: primitives
    compare by value, and two objects or arrays obtained from different places
    of a parsed payload are never identical.  On these values (no [NaN])
    SameValueZero, used by [includes] and [Set], agrees with it. *)
Definition strict_equals (a b : JsVal) : bool :=
  match a, b with
  | JUndefined, JUndefined => true
  | JNull, JNull => true
  | JBool x, JBool y => Bool.eqb x y
  | JNum x, JNum y => x =? y
  | JStr x, JStr y => String.eqb x y
  | _, _ => false
  end.

(** Thrown values: [Error] objects with their [message] and, for HTTP
    failures raised by the API client, a [status]. *)
Record JsError : Type := MkError {
  message : string;
  status : option Z
}.

Definition Error (msg : string) : JsError := MkError msg None.

(** The [TypeError] of reading property [k] of [undefined] or [null]
    (message as V8 words it). *)
Definition TypeError_read (v : JsVal) (k : string) : JsError :=
  Error ("Cannot read properties of "
         +:+ (match v with JNull => "null" | _ => "undefined" end)
         +:+ " (reading '" +:+ k +:+ "')").

Definition TypeError_not_a_function (what : string) : JsError :=
  Error (what +:+ " is not a function").

Inductive Result (A : Type) : Type :=
  | Ok (a : A)
  | Throw (e : JsError).
Arguments Ok {A} a.
Arguments Throw {A} e.

(** [v.k] for a data property name [k] that no built-in prototype defines
    (every name read by the modelled code is of that kind): a lookup on an
    object, [undefined] on arrays and primitives, a [TypeError] on
    [undefined] and [null]. *)
Definition get_prop (v : JsVal) (k : string) : Result JsVal :=
  match v with
  | JUndefined | JNull => Throw (TypeError_read v k)
  | JObj m => Ok (default JUndefined (m !! k))
  | _ => Ok JUndefined
  end.

(** [v?.k] *)
Definition get_prop_opt (v : JsVal) (k : string) : Result JsVal :=
  match v with
  | JUndefined | JNull => Ok JUndefined
  | _ => get_prop v k
  end.

(** [v.k] on a value already known not to be [undefined] or [null]. *)
Definition field (v : JsVal) (k : string) : JsVal :=
  match v with
  | JObj m => default JUndefined (m !! k)
  | _ => JUndefined
  end.

End Js.
Export Js.

(** ** Effects: an error monad that threads a state and logs what leaves the page *)

(** The requests the modelled code sends through [apiClient.js], by URL
    template; the interpolated values are kept as they are. *)
Inductive Request : Type :=
  | GetTopicPosts (topicId : JsVal)
      (* GET  ${API_BASE}/api/topics/${topicId}/posts *)
  | PostLike (postId : JsVal)
      (* POST ${API_BASE}/api/posts/${postId}/like, body {} *)
  | GetRoom (roomId : string)
      (* GET  ${apiBase}/${roomId} *)
  | PostJoin (roomId : JsVal)
      (* POST ${apiBase}/${roomId}/join, body {} *)
  | DeleteParticipant (roomId userId : JsVal)
      (* DELETE ${apiBase}/${roomId}/participants/${userId} *).

Module Eff.

Section WithEvent.
Context {Event St : Type}.

(** A computation runs from a state, logs events in order, and either
    returns or throws; the state reached is kept in both cases, as a
    [catch] block sees the assignments made before the throw. *)
Definition M (A : Type) : Type := St -> Result A * St * list Event.

Definition ret {A} (a : A) : M A := fun s => (Ok a, s, []).

Definition bind {A B} (m : M A) (k : A -> M B) : M B :=
  fun s =>
    match m s with
    | (Ok a, s1, t1) =>
        match k a s1 with (r, s2, t2) => (r, s2, t1 ++ t2) end
    | (Throw e, s1, t1) => (Throw e, s1, t1)
    end.

Definition throw {A} (e : JsError) : M A := fun s => (Throw e, s, []).

(** [try { body } catch (err) { handler }] *)
Definition try_catch {A} (body : M A) (handler : JsError -> M A) : M A :=
  fun s =>
    match body s with
    | (Ok a, s1, t1) => (Ok a, s1, t1)
    | (Throw e, s1, t1) =>
        match handler e s1 with (r, s2, t2) => (r, s2, t1 ++ t2) end
    end.

Definition lift {A} (r : Result A) : M A := fun s => (r, s, []).
Definition emit (ev : Event) : M unit := fun s => (Ok tt, s, [ev]).
Definition get : M St := fun s => (Ok s, s, []).
Definition gets {A} (f : St -> A) : M A := fun s => (Ok (f s), s, []).
Definition modify (f : St -> St) : M unit := fun s => (Ok tt, f s, []).

(** [await Promise.all(xs.map(f))]: the results in the order of [xs], or
    a rejection as soon as one of them rejects. *)
Fixpoint mapM {A B} (f : A -> M B) (xs : list A) : M (list B) :=
  match xs with
  | [] => ret []
  | x :: rest =>
      bind (f x) (fun y => bind (mapM f rest) (fun ys => ret (y :: ys)))
  end.
End WithEvent.

Arguments M : clear implicits.

End Eff.

Declare Scope eff_scope.
Delimit Scope eff_scope with eff.
Notation "x <- m ;; k" := (Eff.bind m (fun x => k))
  (at level 100, m at next level, right associativity) : eff_scope.
Notation "m ;;; k" := (Eff.bind m (fun _ => k))
  (at level 100, right associativity) : eff_scope.

(** ** topicsClient.js *)

Module TopicsClient.

Inductive Event : Type :=
  | Fetch (req : Request).

(** The collaborators of the module: the two helpers of [apiClient.js] as
    the answer each request gets, and the clock: [now_iso n] is what the
    evaluation number [n] (from 0) of [new Date().toISOString()] in a call
    gives. *)
Record Env : Type := {
  fetchJsonWithAuth : Request -> Result JsVal;
  postJsonWithAuth : Request -> Result JsVal;
  now_iso : nat -> string
}.

(** The module keeps no state of its own. *)
Definition M : Type -> Type := Eff.M Event unit.

(** The record [getTopicPosts] builds for one post. *)
Record Post : Type := {
  id : JsVal;
  title : JsVal;
  content : JsVal;
  author : JsVal;
  author_id : JsVal;
  userId : JsVal;
  authorId : JsVal;
  created_at : JsVal;
  created : JsVal;
  likes : JsVal;
  comments : JsVal;
  author_avatar : JsVal
}.

(** The record [togglePostLike] returns. *)
Record LikeState : Type := {
  liked : bool;
  like_count : JsVal;   (* the [likes] field *)
  post_id : JsVal
}.

Section WithEnv.
Context (env : Env).

Local Open Scope eff_scope.

(** The callback of [posts.map(...)], called when the clock has been read
    [k] times: [null] for a malformed entry.  The two dates are two
    expressions, each with its own [new Date()]. *)
Definition normalize_post_at (k : nat) (p : JsVal) : option Post :=
  if negb (truthy p) || negb (String.eqb (typeof p) "object") then None
  else Some {|
    id := field p "id";
    title := js_or (field p "title") (JStr "");
    content := js_or (field p "content") (JStr "");
    author := js_or (field p "author") (JStr "Anonymous");
    author_id := js_or (js_or (field p "author_id") (field p "authorId")) JNull;
    userId := js_or (js_or (field p "userId") (field p "author_id")) JNull;
    authorId := js_or (js_or (field p "author_id") (field p "authorId")) JNull;
    created_at :=
      js_or (js_or (field p "created_at") (field p "created"))
            (JStr (now_iso env k));
    created :=
      js_or (js_or (field p "created_at") (field p "created"))
            (JStr (now_iso env (S k)));
    likes :=
      if String.eqb (typeof (field p "likes")) "number"
      then field p "likes" else JNum 0;
    comments := js_or (field p "comments") (JNum 0);
    author_avatar := js_or (field p "author_avatar") JNull
  |}.

(** The callback on the first entry of a run, the clock not read yet. *)
Definition normalize_post (p : JsVal) : option Post := normalize_post_at 0 p.

(** How often the callback reads the clock for [p]: twice for an entry of
    type object that carries no date, not at all otherwise. *)
Definition clock_reads (p : JsVal) : nat :=
  if negb (truthy p) || negb (String.eqb (typeof p) "object") then 0%nat
  else if truthy (js_or (field p "created_at") (field p "created")) then 0%nat
  else 2%nat.

(** [let posts = Array.isArray(resp) ? resp : resp.posts || resp;] *)
Definition extract_posts (resp : JsVal) : Result JsVal :=
  if isArray resp then Ok resp
  else match get_prop resp "posts" with
       | Ok ps => Ok (js_or ps resp)
       | Throw e => Throw e
       end.

(** [if (!Array.isArray(posts)) posts = resp && typeof resp === "object" ? [resp] : [];] *)
Definition posts_array (resp posts : JsVal) : list JsVal :=
  match posts with
  | JArr l => l
  | _ =>
      if truthy resp && String.eqb (typeof resp) "object" then [resp] else []
  end.

(** [.map(normalize).filter((p) => p !== null)], the clock read [k] times
    before: the entries are normalized in order, each after the readings of
    the ones before it. *)
Fixpoint normalize_posts_from (k : nat) (posts : list JsVal) : list Post :=
  match posts with
  | [] => []
  | p :: rest =>
      match normalize_post_at k p with
      | Some r => r :: normalize_posts_from (k + clock_reads p) rest
      | None => normalize_posts_from (k + clock_reads p) rest
      end
  end.

Definition normalize_posts (posts : list JsVal) : list Post :=
  normalize_posts_from 0 posts.

(** The part of [getTopicPosts] after the response has arrived. *)
Definition normalize_response (resp : JsVal) : Result (list Post) :=
  match extract_posts resp with
  | Ok posts => Ok (normalize_posts (posts_array resp posts))
  | Throw e => Throw e
  end.

Definition getTopicPosts (topicId : JsVal) : M (list Post) :=
  if negb (truthy topicId) then Eff.throw (Error "topicId required")
  else
    Eff.try_catch
      (Eff.emit (Fetch (GetTopicPosts topicId)) ;;;
       resp <- Eff.lift (fetchJsonWithAuth env (GetTopicPosts topicId)) ;;
       Eff.lift (normalize_response resp))
      (fun err =>
         Eff.throw
           (Error ("GET /api/topics/:id/posts failed: " +:+ message err))).

Definition togglePostLike (postId : JsVal) : M LikeState :=
  if negb (truthy postId) then Eff.throw (Error "postId required")
  else
    Eff.try_catch
      (Eff.emit (Fetch (PostLike postId)) ;;;
       resp <- Eff.lift (postJsonWithAuth env (PostLike postId)) ;;
       if negb (truthy resp) || negb (String.eqb (typeof resp) "object")
       then Eff.throw (Error "Invalid response from server")
       else
         Eff.ret {|
           liked := strict_equals (field resp "liked") (JBool true);
           like_count :=
             if String.eqb (typeof (field resp "likes")) "number"
             then field resp "likes" else JNum 0;
           post_id := js_or (field resp "post_id") postId
         |})
      (fun err =>
         Eff.throw
           (MkError ("Toggle like failed: " +:+ message err)
                    (match status err with
                     | Some st => if st =? 0 then None else Some st
                     | None => None
                     end))).
End WithEnv.

End TopicsClient.

(** ** room-manager.js: class RoomManager *)

Module RoomManager.

(** [this.userAuth.currentUser] *)
Record User : Type := {
  uid : string;
  photoURL : JsVal;
  user_photo : JsVal   (* the [photo] field *)
}.

(** One entry of [this.participants]. *)
Record Participant : Type := {
  id : JsVal;
  name : JsVal;
  avatar : JsVal;
  photo : JsVal;
  status : string;
  isHost : bool;
  inCall : bool
}.

(** [this.currentRoomData]: the fetched record, and the value assigned to its
    [participants] property after a join, if any (the only property written
    by the methods modelled here). *)
Record RoomData : Type := {
  raw : JsVal;
  participants_written : option (list JsVal)
}.

Record State : Type := {
  currentRoomData : RoomData;
  isOwner : bool;
  participants : list Participant;
  isLoading : bool
}.

(** The state the constructor leaves. *)
Definition constructed : State := {|
  currentRoomData := {| raw := JNull; participants_written := None |};
  isOwner := false;
  participants := [];
  isLoading := true
|}.

Inductive TimerAction : Type :=
  | Redirect (href : string).   (* window.location.href = href *)

Inductive Event : Type :=
  | Fetch (req : Request)                   (* a call of apiClient.js *)
  | Toast (msg kind : string)               (* window.showToast(msg, kind) *)
  | SetTimeout (action : TimerAction) (ms : Z)
  | Confirm (question : string)             (* window.confirm(question) *)
  | RenderParticipants (ps : list Participant)
                                            (* participantsList.innerHTML = ... *)
  | RenderCount (n : nat).                  (* participantCount.textContent = ... *)

(** What [await this.userAuth.getUserDisplayInfos(uids)] resolves to; the
    class reads it through [Object.keys(infosMap)] and [infosMap[uid]] only. *)
Inductive InfosMap : Type :=
  | InfosNullish
  | Infos (lookup : JsVal -> JsVal).

(** The page and the collaborators around the class.  [window.__CONFIG__] is
    taken to be defined.  Calls of [console] are left out, the evaluation of
    their arguments is not. *)
Record Env : Type := {
  url_room : option string;
    (* new URLSearchParams(window.location.search).get("room") *)
  fetchJsonWithAuth : Request -> Result JsVal;
  postJsonWithAuth : Request -> Result JsVal;
  currentUser : option User;
  getUserDisplayInfo : JsVal -> Result JsVal;
  getUserDisplayInfos : list JsVal -> Result InfosMap;
  users_doc : JsVal -> Result (option JsVal);
    (* db.collection("users").doc(uid).get(): [None] when [!doc.exists],
       else [doc.data()] *)
  showToast_defined : bool;
  document_has : string -> bool;   (* document.getElementById(id) !== null *)
  confirm : string -> bool
}.

Definition M : Type -> Type := Eff.M Event State.

Definition set_currentRoomData (d : RoomData) (st : State) : State :=
  {| currentRoomData := d; isOwner := isOwner st;
     participants := participants st; isLoading := isLoading st |}.
Definition set_isOwner (b : bool) (st : State) : State :=
  {| currentRoomData := currentRoomData st; isOwner := b;
     participants := participants st; isLoading := isLoading st |}.
Definition set_participants (ps : list Participant) (st : State) : State :=
  {| currentRoomData := currentRoomData st; isOwner := isOwner st;
     participants := ps; isLoading := isLoading st |}.
Definition set_isLoading (b : bool) (st : State) : State :=
  {| currentRoomData := currentRoomData st; isOwner := isOwner st;
     participants := participants st; isLoading := b |}.

(** [this.currentRoomData?.participants] *)
Definition room_participants (d : RoomData) : JsVal :=
  match participants_written d with
  | Some l => JArr l
  | None =>
      match raw d with
      | JUndefined | JNull => JUndefined
      | v => field v "participants"
      end
  end.

(** [this.currentRoomData.participants = l], in strict mode: a [TypeError]
    when the record is a primitive. *)
Definition write_participants (l : list JsVal) (d : RoomData) : Result RoomData :=
  match raw d with
  | JObj _ | JArr _ => Ok {| raw := raw d; participants_written := Some l |}
  | JUndefined | JNull =>
      Throw (Error "Cannot set properties of null (setting 'participants')")
  | _ => Throw (Error "Cannot create property 'participants'")
  end.

(** [ToString] of the value of [currentUser?.uid] *)
Definition uid_to_string (v : JsVal) : string :=
  match v with JStr s => s | _ => "undefined" end.

Fixpoint is_prefix (p s : string) : bool :=
  match p, s with
  | EmptyString, _ => true
  | String a p', String b s' => Ascii.eqb a b && is_prefix p' s'
  | String _ _, EmptyString => false
  end.

(** [s.includes(p)] on strings *)
Fixpoint is_substring (p s : string) : bool :=
  is_prefix p s ||
  match s with
  | EmptyString => false
  | String _ s' => is_substring p s'
  end.

(** [v.includes(x)] where [x] is [currentUser?.uid] *)
Definition includes (v x : JsVal) : Result bool :=
  match v with
  | JArr l => Ok (existsb (strict_equals x) l)
  | JStr s => Ok (is_substring (uid_to_string x) s)
  | JUndefined | JNull => Throw (TypeError_read v "includes")
  | _ => Throw (TypeError_not_a_function "participants.includes")
  end.

Fixpoint chars (s : string) : list JsVal :=
  match s with
  | EmptyString => []
  | String c s' => JStr (String c EmptyString) :: chars s'
  end.

(** [[...v]] *)
Definition spread (v : JsVal) : Result (list JsVal) :=
  match v with
  | JArr l => Ok l
  | JStr s => Ok (chars s)
  | _ => Throw (Error "participants is not iterable")
  end.

(** [Array.from(new Set(l))]: each value once, in the order of first
    insertion. *)
Fixpoint set_from (acc l : list JsVal) : list JsVal :=
  match l with
  | [] => acc
  | x :: rest =>
      set_from (if existsb (strict_equals x) acc then acc else acc ++ [x]) rest
  end.

Fixpoint take_string (n : nat) (s : string) : string :=
  match n, s with
  | S n', String c s' => String c (take_string n' s')
  | _, _ => EmptyString
  end.

(** [uid.substring(0, 8)] *)
Definition substring_0_8 (v : JsVal) : Result JsVal :=
  match v with
  | JStr s => Ok (JStr (take_string 8 s))
  | JUndefined | JNull => Throw (TypeError_read v "substring")
  | _ => Throw (TypeError_not_a_function "uid.substring")
  end.

Definition object3 (k1 : string) (v1 : JsVal) (k2 : string) (v2 : JsVal)
    (k3 : string) (v3 : JsVal) : JsVal :=
  JObj (<[k1 := v1]> (<[k2 := v2]> (<[k3 := v3]> ∅))).

Definition owner_only_kick : string :=
  "Only the room owner can remove participants.".
Definition confirm_kick : string :=
  "Are you sure you want to remove this participant from the room?".

Section WithEnv.
Context (env : Env).

Local Open Scope eff_scope.

(** [this.userAuth.currentUser?.uid] *)
Definition currentUid : JsVal :=
  match currentUser env with
  | Some u => JStr (uid u)
  | None => JUndefined
  end.

(** [this.userAuth.currentUser.k], for the reads that fail without a user *)
Definition user_field {A} (k : string) (f : User -> A) : M A :=
  match currentUser env with
  | Some u => Eff.ret (f u)
  | None => Eff.throw (TypeError_read JNull k)
  end.

(** [window.showToast?.(msg, kind)], and the same call under the guard
    [typeof window.showToast === "function"] *)
Definition showToast (msg kind : string) : M unit :=
  if showToast_defined env then Eff.emit (Toast msg kind) else Eff.ret tt.

Definition updateParticipantsList : M unit :=
  if negb (document_has env "participantsList") then Eff.ret tt
  else
    ps <- Eff.gets participants ;;
    (* [p.id === this.userAuth.currentUser.uid], once per participant *)
    (Eff.mapM (fun _ : Participant => user_field "uid" uid) ps) ;;;
    Eff.emit (RenderParticipants ps) ;;;
    if document_has env "participantCount"
    then Eff.emit (RenderCount (length ps))
    else Eff.ret tt.

Definition autoJoinRoom : M unit :=
  Eff.try_catch
    (d <- Eff.gets currentRoomData ;;
     let ps := js_or (room_participants d) (JArr []) in
     already <- Eff.lift (includes ps currentUid) ;;
     if already : bool then Eff.ret tt
     else
       _id <- Eff.lift (get_prop (raw d) "_id") ;;
       let roomId := js_or _id (field (raw d) "id") in
       Eff.emit (Fetch (PostJoin roomId)) ;;;
       joinResponse <- Eff.lift (postJsonWithAuth env (PostJoin roomId)) ;;
       (Eff.lift (get_prop joinResponse "participantCount")) ;;;
       l <- Eff.lift (spread ps) ;;
       d' <- Eff.lift (write_participants (l ++ [currentUid]) d) ;;
       Eff.modify (set_currentRoomData d'))
    (fun _ => Eff.ret tt).

(** The [photo] of the entry built for [uid] from [info]. *)
Definition participant_photo (uid_ info : JsVal) : M JsVal :=
  if strict_equals uid_ currentUid then
    purl <- user_field "photoURL" photoURL ;;
    ph <- user_field "photo" user_photo ;;
    Eff.ret (js_or (js_or (js_or purl ph) (field info "photo")) JNull)
  else
    let photo0 := js_or (field info "photo") JNull in
    if truthy photo0 then Eff.ret photo0
    else
      Eff.try_catch
        (doc <- Eff.lift (users_doc env uid_) ;;
         match doc with
         | None => Eff.ret photo0
         | Some data =>
             ph <- Eff.lift (get_prop data "photo") ;;
             Eff.ret (if truthy ph then ph else photo0)
         end)
        (fun _ => Eff.ret photo0).

(** The callback of [uids.map(async (uid) => ...)]. *)
Definition participant_of (infosMap : JsVal -> JsVal) (creator uid_ : JsVal)
    : M Participant :=
  Eff.try_catch
    (info <-
       (if truthy (infosMap uid_) then Eff.ret (infosMap uid_)
        else
          u <- Eff.lift (getUserDisplayInfo env uid_) ;;
          dn <- Eff.lift (get_prop u "displayName") ;;
          Eff.ret (object3 "displayName" dn "avatar" (JStr "U") "photo" JNull)) ;;
     ph <- participant_photo uid_ info ;;
     nm <- (if truthy (field info "displayName")
            then Eff.ret (field info "displayName")
            else Eff.lift (substring_0_8 uid_)) ;;
     Eff.ret {| id := uid_; name := nm;
                avatar := js_or (field info "avatar") (JStr "U");
                photo := ph; status := "online";
                isHost := strict_equals creator uid_; inCall := false |})
    (fun _ =>
       nm <- Eff.lift (substring_0_8 uid_) ;;
       Eff.ret {| id := uid_; name := nm; avatar := JStr "U"; photo := JNull;
                  status := "online";
                  isHost := strict_equals creator uid_; inCall := false |}).

Definition loadParticipantsInfo : M unit :=
  Eff.try_catch
    (Eff.modify (set_participants []) ;;;
     d <- Eff.gets currentRoomData ;;
     match room_participants d with
     | JArr (x :: l) =>
         let uids := set_from [] (List.filter truthy (x :: l)) in
         infos <- Eff.lift (getUserDisplayInfos env uids) ;;
         match infos with
         | InfosNullish =>
             Eff.throw (Error "Cannot convert undefined or null to object")
         | Infos infosMap =>
             ps <- Eff.mapM (participant_of infosMap (field (raw d) "creator")) uids ;;
             Eff.modify (set_participants ps) ;;;
             updateParticipantsList
         end
     | _ =>
         selfInfo <- Eff.lift (getUserDisplayInfo env currentUid) ;;
         dn <- Eff.lift (get_prop selfInfo "displayName") ;;
         av <- Eff.lift (get_prop selfInfo "avatar") ;;
         purl <- user_field "photoURL" photoURL ;;
         ph <- user_field "photo" user_photo ;;
         owner <- Eff.gets isOwner ;;
         Eff.modify (set_participants
           [ {| id := currentUid; name := dn; avatar := av;
                photo := js_or (js_or purl ph) JNull; status := "online";
                isHost := owner; inCall := false |} ]) ;;;
         updateParticipantsList
     end)
    (fun _ => Eff.ret tt).

Definition loadRoomData : M RoomData :=
  Eff.modify (set_isLoading true) ;;;
  Eff.try_catch
    (roomId <-
       match url_room env with
       | None => Eff.throw (Error "Room ID not found in URL")
       | Some r =>
           if String.eqb r "" then Eff.throw (Error "Room ID not found in URL")
           else Eff.ret r
       end ;;
     Eff.emit (Fetch (GetRoom roomId)) ;;;
     data <- Eff.lift (fetchJsonWithAuth env (GetRoom roomId)) ;;
     if negb (truthy data) then Eff.throw (Error "No room data returned")
     else
       Eff.modify
         (set_currentRoomData {| raw := data; participants_written := None |}) ;;;
       me <- user_field "uid" uid ;;
       Eff.modify (set_isOwner (strict_equals (field data "creator") (JStr me))) ;;;
       autoJoinRoom ;;;
       loadParticipantsInfo ;;;
       Eff.modify (set_isLoading false) ;;;
       Eff.gets currentRoomData)
    (fun err =>
       Eff.modify (set_isLoading false) ;;;
       showToast ("Failed to load room: " +:+ message err) "error" ;;;
       Eff.emit (SetTimeout (Redirect "study-rooms.html") 2000) ;;;
       Eff.throw err).

Definition kickParticipant (userId : JsVal) : M unit :=
  owner <- Eff.gets isOwner ;;
  if negb owner then showToast owner_only_kick "error"
  else
    Eff.emit (Confirm confirm_kick) ;;;
    if negb (confirm env confirm_kick) then Eff.ret tt
    else
      Eff.try_catch
        (d <- Eff.gets currentRoomData ;;
         _id <- Eff.lift (get_prop (raw d) "_id") ;;
         let roomId := js_or _id (field (raw d) "id") in
         Eff.emit (Fetch (DeleteParticipant roomId userId)) ;;;
         (Eff.lift (fetchJsonWithAuth env (DeleteParticipant roomId userId))) ;;;
         ps <- Eff.gets participants ;;
         Eff.modify (set_participants
           (List.filter (fun p => negb (strict_equals (id p) userId)) ps)) ;;;
         updateParticipantsList ;;;
         showToast "Participant removed successfully" "success")
        (fun err =>
           showToast
             ("Could not remove participant: "
              +:+ (if String.eqb (message err) "" then "unknown error"
                   else message err))
             "error").
End WithEnv.

End RoomManager.

(** ** profile.js: form validation *)

Module Profile.

(** *** Regular expressions, as far as the literal in [validateEmail] needs them *)

Inductive ClassItem : Type :=
  | Chr (c : ascii)      (* a literal character *)
  | Space.               (* \s *)

Inductive Regex : Type :=
  | Empty                                       (* matches nothing *)
  | Eps                                         (* matches the empty string *)
  | Lit (c : ascii)
  | NotIn (items : list ClassItem)              (* [^...] *)
  | Alt (r1 r2 : Regex)
  | Seq (r1 r2 : Regex)
  | Star (r : Regex).

(** [r+] *)
Definition Plus (r : Regex) : Regex := Seq r (Star r).

(** The characters [\s] matches, among the code units below 256: tab, line
    feed, vertical tab, form feed, carriage return, space and no-break
    space. *)
Definition is_space (c : ascii) : bool :=
  let n := nat_of_ascii c in
  ((9 <=? n) && (n <=? 13) || (n =? 32) || (n =? 160))%nat.

Definition item_matches (c : ascii) (i : ClassItem) : bool :=
  match i with
  | Chr d => Ascii.eqb c d
  | Space => is_space c
  end.

Definition not_in (items : list ClassItem) (c : ascii) : bool :=
  negb (existsb (item_matches c) items).

Fixpoint nullable (r : Regex) : bool :=
  match r with
  | Empty => false
  | Eps => true
  | Lit _ => false
  | NotIn _ => false
  | Alt r1 r2 => nullable r1 || nullable r2
  | Seq r1 r2 => nullable r1 && nullable r2
  | Star _ => true
  end.

(** Brzozowski derivative: what is left of [r] after reading [c]. *)
Fixpoint deriv (c : ascii) (r : Regex) : Regex :=
  match r with
  | Empty => Empty
  | Eps => Empty
  | Lit d => if Ascii.eqb c d then Eps else Empty
  | NotIn items => if not_in items c then Eps else Empty
  | Alt r1 r2 => Alt (deriv c r1) (deriv c r2)
  | Seq r1 r2 =>
      if nullable r1 then Alt (Seq (deriv c r1) r2) (deriv c r2)
      else Seq (deriv c r1) r2
  | Star r1 => Seq (deriv c r1) (Star r1)
  end.

(** [/^r$/.test(s)]: the whole of [s] matches [r]. *)
Fixpoint test (r : Regex) (s : string) : bool :=
  match s with
  | EmptyString => nullable r
  | String c s' => test (deriv c r) s'
  end.

(** What it means for a string to match, by the structure of the
    expression. *)
Inductive Matches : Regex -> string -> Prop :=
  | MEps : Matches Eps ""
  | MLit c : Matches (Lit c) (String c "")
  | MNotIn items c : not_in items c = true -> Matches (NotIn items) (String c "")
  | MAltL r1 r2 s : Matches r1 s -> Matches (Alt r1 r2) s
  | MAltR r1 r2 s : Matches r2 s -> Matches (Alt r1 r2) s
  | MSeq r1 r2 s1 s2 :
      Matches r1 s1 -> Matches r2 s2 -> Matches (Seq r1 r2) (s1 +:+ s2)
  | MStar0 r : Matches (Star r) ""
  | MStarS r s1 s2 :
      Matches r s1 -> Matches (Star r) s2 -> Matches (Star r) (s1 +:+ s2).

(** *** Strings *)

(** [String.prototype.toLowerCase] on code units below 256: the letters
    A-Z and the Latin-1 capitals U+00C0-U+00DE other than U+00D7. *)
Definition lower_char (c : ascii) : ascii :=
  let n := nat_of_ascii c in
  if ((65 <=? n) && (n <=? 90)
      || (192 <=? n) && (n <=? 222) && negb (n =? 215))%nat
  then ascii_of_nat (n + 32) else c.

Fixpoint toLowerCase (s : string) : string :=
  match s with
  | EmptyString => EmptyString
  | String c s' => String (lower_char c) (toLowerCase s')
  end.

(** [s.endsWith(suffix)] *)
Fixpoint endsWith (s suffix : string) : bool :=
  String.eqb s suffix ||
  match s with
  | EmptyString => false
  | String _ s' => endsWith s' suffix
  end.

Fixpoint trimStart (s : string) : string :=
  match s with
  | String c s' => if is_space c then trimStart s' else s
  | EmptyString => EmptyString
  end.

Fixpoint trimEnd (s : string) : string :=
  match s with
  | EmptyString => EmptyString
  | String c s' =>
      let t := trimEnd s' in
      if is_space c && String.eqb t "" then EmptyString else String c t
  end.

(** [s.trim()] *)
Definition trim (s : string) : string := trimEnd (trimStart s).

(** *** validateEmail *)

Definition not_space_or_at : Regex := NotIn [Space; Chr "@"%char].

(** [/^[^\s@]+@[^\s@]+\.[^\s@]+$/] *)
Definition email_regex : Regex :=
  Seq (Plus not_space_or_at)
      (Seq (Lit "@"%char)
           (Seq (Plus not_space_or_at)
                (Seq (Lit "."%char) (Plus not_space_or_at)))).

Definition college_domain : string := "@paterostechnologicalcollege.edu.ph".

Record Validation : Type := {
  valid : bool;
  message : string
}.

Definition validateEmail (email : string) : Validation :=
  if negb (test email_regex email) then
    {| valid := false;
       message := "Please enter a valid email address format!" |}
  else if negb (endsWith (toLowerCase email) college_domain) then
    {| valid := false;
       message := "Email must be from Pateros Technological College domain (@paterostechnologicalcollege.edu.ph)" |}
  else {| valid := true; message := "" |}.

(** *** validateField and validateAllFields *)

(** An input element of the edit form. *)
Record Field : Type := {
  field_id : string;
  required : bool;
  value : string
}.

(** What a validation does to the page. *)
Inductive DomEffect : Type :=
  | RemoveErrorNode (node_id : string)             (* existing.remove() *)
  | AddErrorClass (fid : string)                   (* field.classList.add("error") *)
  | RemoveErrorClass (fid : string)                (* field.classList.remove("error") *)
  | AppendError (node_id msg : string).            (* parentNode.appendChild(msg) *)

(** The page, as far as validation looks at it: the inputs by id, and the
    ids of the error nodes currently shown. *)
Record Document : Type := {
  inputs : gmap string (bool * string);   (* id -> (required, value) *)
  error_nodes : gset string
}.

Definition getElementById (doc : Document) (i : string) : option Field :=
  (fun rv : bool * string =>
     {| field_id := i; required := fst rv; value := snd rv |})
  <$> inputs doc !! i.

Definition fail_field (f : Field) (msg : string) : list DomEffect :=
  [AddErrorClass (field_id f); AppendError (field_id f +:+ "Error") msg].

(** Returns whether the field is valid, with the changes made to the page. *)
Definition validateField (doc : Document) (f : Field) : bool * list DomEffect :=
  let cleared :=
    if decide (field_id f +:+ "Error" ∈ error_nodes doc)
    then [RemoveErrorNode (field_id f +:+ "Error")] else [] in
  if required f && String.eqb (trim (value f)) "" then
    (false, cleared ++ fail_field f "This field is required")
  else if String.eqb (field_id f) "editEmail"
          && negb (String.eqb (trim (value f)) "")
          && negb (valid (validateEmail (trim (value f)))) then
    (false, cleared ++ fail_field f (message (validateEmail (trim (value f)))))
  else (true, cleared ++ [RemoveErrorClass (field_id f)]).

Definition requiredFields : list string :=
  ["editName"; "editEmail"; "editStudentNumber"; "editProgram"].

(** [requiredFields.forEach(...)], threading [valid] and the page. *)
Fixpoint validate_each (doc : Document) (ids : list string) (ok : bool)
    : bool * list DomEffect :=
  match ids with
  | [] => (ok, [])
  | i :: rest =>
      match getElementById doc i with
      | None => validate_each doc rest ok
      | Some f =>
          let '(v, eff) := validateField doc f in
          let doc' := {|
            inputs := inputs doc;
            error_nodes :=
              if v then error_nodes doc ∖ {[ field_id f +:+ "Error" ]}
              else error_nodes doc ∪ {[ field_id f +:+ "Error" ]} |} in
          let '(v', eff') := validate_each doc' rest (v && ok) in
          (v', eff ++ eff')
      end
  end.

Definition validateAllFields (doc : Document) : bool * list DomEffect :=
  validate_each doc requiredFields true.

End Profile.

(** ** room-manager.js: the other methods of RoomManager *)

Module RoomManagerMore.

Import RoomManager.

(** [this.participants.find((x) => x.id === userId)] followed by
    [p.inCall = inCall]: the sequence with the first entry of that id
    updated, or nothing when there is none. *)
Fixpoint mark_first (userId : JsVal) (b : bool) (ps : list Participant)
    : option (list Participant) :=
  match ps with
  | [] => None
  | p :: rest =>
      if strict_equals (id p) userId then
        Some ({| id := id p; name := name p; avatar := avatar p;
                 photo := photo p; status := status p; isHost := isHost p;
                 inCall := b |} :: rest)
      else option_map (cons p) (mark_first userId b rest)
  end.

Section WithEnv.
Context (env : Env).

Local Open Scope eff_scope.

Definition updateParticipantCallStatus (userId : JsVal) (b : bool) : M unit :=
  ps <- Eff.gets participants ;;
  match mark_first userId b ps with
  | None => Eff.ret tt
  | Some ps' =>
      Eff.modify (set_participants ps') ;;;
      updateParticipantsList env
  end.
End WithEnv.

End RoomManagerMore.

(** ** room-manager.js: saveRoomSettings and deleteRoom *)

Module RoomSettings.

(** The two requests of these methods. *)
Inductive Call : Type :=
  | PutRoom (roomId : JsVal) (name description : string)
      (* PUT ${apiBase}/${roomId}, body {name, description} *)
  | DeleteRoom (roomId : JsVal).
      (* DELETE ${apiBase}/${roomId} *)

(** A failed call as the [catch] blocks read it: the error, and the parsed
    error payload [err.body]. *)
Record Failure : Type := {
  error : JsError;
  body : JsVal
}.

Inductive Answer : Type :=
  | Done (v : JsVal)
  | Failed (f : Failure).

(** [document.getElementById("settingsModal")] and, when it is there,
    [bootstrap.Modal.getInstance(modalEl)]. *)
Inductive Modal : Type :=
  | NoModalElement
  | NoModalInstance
  | ModalInstance.

Inductive Event : Type :=
  | Page (ev : RoomManager.Event)          (* toast, confirm, timer *)
  | Api (call : Call)                      (* fetchJsonWithAuth(url, ...) *)
  | ToastDetail (prefix : string) (detail : JsVal) (kind : string)
      (* window.showToast(prefix + detail, kind), for a [detail] taken from
         [err.body] that is not a string *)
  | UpdateRoomDisplay
      (* this.updateRoomDisplay(): started, not awaited; it catches its own
         errors *)
  | HideSettingsModal.                     (* modal.hide() *)

(** The page around the two methods; [bootstrap] is taken to be loaded. *)
Record Env : Type := {
  page : RoomManager.Env;
  api : Call -> Answer;
  roomNameInput : option string;   (* the value of #roomNameInput, if present *)
  roomDescInput : option string;   (* the value of #roomDescInput, if present *)
  settingsModal : Modal
}.

(** The view-model, with the values assigned to the [name] and
    [description] properties of [this.currentRoomData], if any. *)
Record State : Type := {
  view : RoomManager.State;
  name_written : option string;
  description_written : option string
}.

Definition M : Type -> Type := Eff.M Event State.

Definition confirm_delete : string :=
  "Are you sure you want to delete this room? This action cannot be undone and all messages will be lost.".

(** [(err && err.body && (err.body.error || err.body.message)) || err.message || "unknown error"] *)
Definition failure_detail (e : JsError) (b : JsVal) : JsVal :=
  let from_body :=
    if truthy b then js_or (field b "error") (field b "message") else b in
  if truthy from_body then from_body
  else if String.eqb (Js.message e) "" then JStr "unknown error"
  else JStr (Js.message e).

(** [this.currentRoomData.name = n; this.currentRoomData.description = d],
    in strict mode: a [TypeError] when the record is a primitive. *)
Definition write_settings (n d : string) : M unit :=
  fun st =>
    match RoomManager.raw (RoomManager.currentRoomData (view st)) with
    | JObj _ | JArr _ =>
        (Ok tt,
         {| view := view st; name_written := Some n; description_written := Some d |},
         [])
    | JUndefined | JNull =>
        (Throw (Error "Cannot set properties of null (setting 'name')"), st, [])
    | _ => (Throw (Error "Cannot create property 'name'"), st, [])
    end.

Section WithEnv.
Context (env : Env).

Local Open Scope eff_scope.

(** [window.showToast?.(msg, kind)] *)
Definition showToast (msg kind : string) : M unit :=
  if RoomManager.showToast_defined (page env)
  then Eff.emit (Page (RoomManager.Toast msg kind)) else Eff.ret tt.

(** [window.showToast?.(prefix + detail, kind)] *)
Definition showToast_detail (prefix : string) (detail : JsVal) (kind : string)
    : M unit :=
  if RoomManager.showToast_defined (page env) then
    match detail with
    | JStr s => Eff.emit (Page (RoomManager.Toast (prefix +:+ s) kind))
    | _ => Eff.emit (ToastDetail prefix detail kind)
    end
  else Eff.ret tt.

(** [if (modalEl) { const modal = ...getInstance(modalEl); if (modal) modal.hide(); }] *)
Definition hide_settings_modal : M unit :=
  match settingsModal env with
  | ModalInstance => Eff.emit HideSettingsModal
  | _ => Eff.ret tt
  end.

(** The [catch] block of saveRoomSettings. *)
Definition save_failed (e : JsError) (b : JsVal) : M unit :=
  showToast_detail "Failed to save settings: " (failure_detail e b) "error".

Definition saveRoomSettings : M unit :=
  d <- Eff.gets (fun st => RoomManager.currentRoomData (view st)) ;;
  if negb (truthy (RoomManager.raw d)) then showToast "Room data not loaded" "error"
  else
    Eff.try_catch
      (match roomNameInput env with
       | None => Eff.throw (Error "Room name input not found")
       | Some v =>
           let newName := Profile.trim v in
           let newDesc :=
             match roomDescInput env with
             | Some w => Profile.trim w
             | None => ""
             end in
           if String.eqb newName "" then
             showToast "Room name cannot be empty" "error"
           else
             let roomId :=
               js_or (field (RoomManager.raw d) "_id")
                     (field (RoomManager.raw d) "id") in
             Eff.emit (Api (PutRoom roomId newName newDesc)) ;;;
             match api env (PutRoom roomId newName newDesc) with
             | Failed f => save_failed (error f) (body f)
             | Done _ =>
                 write_settings newName newDesc ;;;
                 Eff.emit UpdateRoomDisplay ;;;
                 hide_settings_modal ;;;
                 showToast "Room settings updated successfully" "success"
             end
       end)
      (fun err => save_failed err JUndefined).

Definition deleteRoom : M unit :=
  owner <- Eff.gets (fun st => RoomManager.isOwner (view st)) ;;
  if negb owner then
    showToast "Only the room owner can delete this room." "error"
  else
    Eff.emit (Page (RoomManager.Confirm confirm_delete)) ;;;
    if negb (RoomManager.confirm (page env) confirm_delete) then Eff.ret tt
    else
      Eff.try_catch
        (d <- Eff.gets (fun st => RoomManager.currentRoomData (view st)) ;;
         _id <- Eff.lift (get_prop (RoomManager.raw d) "_id") ;;
         let roomId := js_or _id (field (RoomManager.raw d) "id") in
         Eff.emit (Api (DeleteRoom roomId)) ;;;
         match api env (DeleteRoom roomId) with
         | Failed f => Eff.throw (error f)
         | Done _ =>
             showToast "Room deleted successfully! Redirecting..." "success" ;;;
             hide_settings_modal ;;;
             Eff.emit (Page (RoomManager.SetTimeout
                               (RoomManager.Redirect "study-rooms.html") 1200))
         end)
        (fun err =>
           showToast
             ("Could not delete room: "
              +:+ (if String.eqb (Js.message err) "" then "unknown error"
                   else Js.message err))
             "error").
End WithEnv.

End RoomSettings.

(** ** topicsClient.js: the other exports *)

Module TopicsClientMore.

Inductive Call : Type :=
  | PostTopic (title : string) (content metadata : JsVal)
      (* POST ${API_BASE}/api/topics, body {title, content, metadata} *)
  | GetTopic (topicId : JsVal)
      (* GET ${API_BASE}/api/topics/${id} *)
  | PostReply (topicId payload : JsVal)
      (* POST ${API_BASE}/api/topics/${topicId}/posts, body payload *)
  | EditPost (topicId postId payload : JsVal)
      (* PUT ${API_BASE}/api/topics/${topicId}/posts/${postId}, body payload *)
  | DeletePost (topicId postId : JsVal)
      (* DELETE ${API_BASE}/api/topics/${topicId}/posts/${postId} *)
  | GetPostLikes (postId : JsVal).
      (* GET ${API_BASE}/api/posts/${postId}/likes *)

Inductive Event : Type :=
  | Sent (call : Call).

(** The two helpers of [apiClient.js] as the answer each call gets, and the
    clock: [now_iso n] is what the evaluation number [n] (from 0) of
    [new Date().toISOString()] in a call gives. *)
Record Env : Type := {
  fetchJsonWithAuth : Call -> Result JsVal;
  postJsonWithAuth : Call -> Result JsVal;
  now_iso : nat -> string
}.

Definition M : Type -> Type := Eff.M Event unit.

(** The record [postTopic] returns. *)
Record Topic : Type := {
  id : JsVal;
  title : JsVal;
  description : JsVal;
  category : JsVal;
  tags : JsVal;
  author : JsVal;
  authorId : JsVal;
  userId : JsVal;
  created : JsVal;
  updated : JsVal;
  postCount : JsVal;
  viewCount : JsVal;
  pinned : bool;
  latestActivity : JsVal
}.

(** The record [getPostLikes] returns. *)
Record Likes : Type := {
  likes : JsVal;
  userLiked : bool;
  post_id : JsVal
}.

(** [a && b], for a [b] that is a property read on [a] *)
Definition js_and (a b : JsVal) : JsVal := if truthy a then b else a.

(** [title.trim()] *)
Definition trim_title (title : JsVal) : Result string :=
  match title with
  | JStr s => Ok (Profile.trim s)
  | JUndefined | JNull => Throw (TypeError_read title "trim")
  | _ => Throw (TypeError_not_a_function "title.trim")
  end.

(** A parameter declared [payload = {}]: the default replaces [undefined]
    and nothing else. *)
Definition default_object (payload : JsVal) : JsVal :=
  match payload with
  | JUndefined => JObj ∅
  | _ => payload
  end.

(** A parameter declared [metadata = null]: the default replaces
    [undefined] and nothing else. *)
Definition default_null (v : JsVal) : JsVal :=
  match v with
  | JUndefined => JNull
  | _ => v
  end.

(** The error the [catch] blocks of editPost and deletePostApi throw. *)
Definition with_status (prefix : string) (err : JsError) : JsError :=
  MkError (prefix +:+ Js.message err)
          (match status err with
           | Some st => if st =? 0 then None else Some st
           | None => None
           end).

Section WithEnv.
Context (env : Env).

Local Open Scope eff_scope.

(** The object literal [normalized] of postTopic. *)
Definition normalize_topic (topicData : JsVal) : Topic := {|
  id := field topicData "id";
  title := js_or (field topicData "title") (JStr "");
  description :=
    js_or (js_or (field topicData "content") (field topicData "description"))
          (JStr "");
  category :=
    js_or (js_or (js_and (field topicData "metadata")
                         (field (field topicData "metadata") "category"))
                 (field topicData "category"))
          (JStr "discussion");
  tags :=
    js_or (js_or (js_and (field topicData "metadata")
                         (field (field topicData "metadata") "tags"))
                 (field topicData "tags"))
          (JArr []);
  author := js_or (field topicData "author") (JStr "system");
  authorId :=
    js_or (js_or (field topicData "author_id") (field topicData "authorId")) JNull;
  userId :=
    js_or (js_or (field topicData "author_id") (field topicData "userId")) JNull;
  created := js_or (field topicData "created") (JStr (now_iso env 0));
  updated := js_or (field topicData "updated") JNull;
  postCount :=
    js_or (js_or (field topicData "post_count") (field topicData "postCount"))
          (JNum 0);
  viewCount :=
    js_or (js_or (js_or (field topicData "views") (field topicData "viewCount"))
                 (field topicData "view_count"))
          (JNum 0);
  pinned := truthy (field topicData "pinned");
  latestActivity :=
    (* read only when [created] is missing too, hence after the reading
       made for [created] *)
    js_or (js_or (field topicData "latestActivity") (field topicData "created"))
          (JStr (now_iso env 1))
|}.

(** [postTopic(title, content, metadata = null)]; the fourth parameter, an
    options object the body never reads, is taken to be left out. *)
Definition postTopic (title_ content_ metadata_ : JsVal) : M Topic :=
  let metadata := default_null metadata_ in
  if negb (truthy title_) then Eff.throw (Error "Title is required")
  else
    t <- Eff.lift (trim_title title_) ;;
    if String.eqb t "" then Eff.throw (Error "Title is required")
    else
      Eff.try_catch
        (Eff.emit (Sent (PostTopic t content_ metadata)) ;;;
         response <- Eff.lift (postJsonWithAuth env (PostTopic t content_ metadata)) ;;
         wrapped <- Eff.lift (get_prop response "topic") ;;
         Eff.ret (normalize_topic (js_or wrapped response)))
        (fun err =>
           Eff.throw (Error ("POST /api/topics failed: " +:+ Js.message err))).

Definition getTopic (id_ : JsVal) : M JsVal :=
  if negb (truthy id_) then Eff.throw (Error "topic id required")
  else
    Eff.try_catch
      (Eff.emit (Sent (GetTopic id_)) ;;;
       Eff.lift (fetchJsonWithAuth env (GetTopic id_)))
      (fun err =>
         Eff.throw (Error ("GET /api/topics/:id failed: " +:+ Js.message err))).

Definition postReply (topicId payload : JsVal) : M JsVal :=
  if negb (truthy topicId) then Eff.throw (Error "topicId required")
  else
    Eff.try_catch
      (Eff.emit (Sent (PostReply topicId (default_object payload))) ;;;
       Eff.lift (postJsonWithAuth env (PostReply topicId (default_object payload))))
      (fun err =>
         Eff.throw
           (Error ("POST /api/topics/:id/posts failed: " +:+ Js.message err))).

Definition editPost (topicId postId payload : JsVal) : M JsVal :=
  if negb (truthy topicId) || negb (truthy postId)
  then Eff.throw (Error "topicId and postId required")
  else
    Eff.try_catch
      (Eff.emit (Sent (EditPost topicId postId payload)) ;;;
       Eff.lift (fetchJsonWithAuth env (EditPost topicId postId payload)))
      (fun err => Eff.throw (with_status "Edit post failed: " err)).

Definition deletePostApi (topicId postId : JsVal) : M JsVal :=
  if negb (truthy topicId) || negb (truthy postId)
  then Eff.throw (Error "topicId and postId required")
  else
    Eff.try_catch
      (Eff.emit (Sent (DeletePost topicId postId)) ;;;
       Eff.lift (fetchJsonWithAuth env (DeletePost topicId postId)))
      (fun err => Eff.throw (with_status "Delete post failed: " err)).

Definition getPostLikes (postId : JsVal) : M Likes :=
  if negb (truthy postId) then Eff.throw (Error "postId required")
  else
    Eff.try_catch
      (Eff.emit (Sent (GetPostLikes postId)) ;;;
       resp <- Eff.lift (fetchJsonWithAuth env (GetPostLikes postId)) ;;
       count <- Eff.lift (get_prop resp "likes") ;;
       Eff.ret {|
         likes := if String.eqb (typeof count) "number" then count else JNum 0;
         userLiked := strict_equals (field resp "userLiked") (JBool true);
         post_id := js_or (field resp "post_id") postId
       |})
      (fun _ =>
         Eff.ret {| likes := JNum 0; userLiked := false; post_id := postId |}).
End WithEnv.

End TopicsClientMore.

(** ** config/appConfig.js *)

Module AppConfig.

Definition DEFAULT_API_BASE : string :=
  "https://study-group-backend-d8fc93ae1b7a.herokuapp.com".

(** [(typeof window !== "undefined" && window.API_BASE) || DEFAULT_API_BASE],
    for an override that is a string when it is set. *)
Definition API_BASE (window_API_BASE : option string) : string :=
  match window_API_BASE with
  | Some s => if String.eqb s "" then DEFAULT_API_BASE else s
  | None => DEFAULT_API_BASE
  end.

(** [s.replace(/\/+$/, "")] *)
Fixpoint strip_trailing_slashes (s : string) : string :=
  match s with
  | EmptyString => EmptyString
  | String c s' =>
      let t := strip_trailing_slashes s' in
      if Ascii.eqb c "/" && String.eqb t "" then EmptyString else String c t
  end.

(** [path.startsWith("/")] *)
Definition starts_with_slash (path : string) : bool :=
  match path with
  | String c _ => Ascii.eqb c "/"
  | EmptyString => false
  end.

Definition apiUrl (base path : string) : string :=
  if String.eqb path "" then base
  else
    let normalized := if starts_with_slash path then path else "/" +:+ path in
    strip_trailing_slashes base +:+ normalized.

End AppConfig.

(** ** profile.js: uploading a photo and saving the profile *)

Module ProfilePage.

Import Profile.

(** A [File] of the photo input. *)
Record File : Type := {
  size : Z;
  type : string;
  name : string
}.

(** The body of the PUT to /api/users/profile. *)
Record ProfileData : Type := {
  p_name : string;
  p_email : string;
  p_studentNumber : string;
  p_program : string;
  p_institution : string;
  p_yearLevel : string;
  p_specialization : string;
  p_graduation : string;
  p_bio : string;
  p_photo : JsVal;
  p_photoFilename : JsVal
}.

Inductive Event : Type :=
  | Upload (url : string) (file : File) (timeoutMs : Z)
      (* postFormWithAuth(url, form, {timeoutMs}) with form.photo = file *)
  | PutProfile (data : ProfileData)
      (* fetchJsonWithAuth("/api/users/profile", {method: "PUT", body}) *)
  | Validation (effects : list DomEffect)   (* what validateAllFields wrote *)
  | Notification (msg kind : string)        (* showNotification(msg, kind) *)
  | LoadingUI (loading : bool)              (* the save button, by setLoading *)
  | UpdateProfileUI (profile : JsVal)
  | Broadcast (profile : JsVal)             (* broadcastProfileUpdated(profile) *)
  | UpdateLastUpdatedTime
  | CloseEditModal.                         (* the modal hidden, errors cleared *)

(** The module variables the two functions use. *)
Record State : Type := {
  currentPhotoURL : JsVal;
  currentPhotoFilename : JsVal;
  isLoading : bool
}.

(** The page around them. *)
Record Env : Type := {
  api_base : string;                        (* API_BASE of appConfig.js *)
  postFormWithAuth : string -> File -> Z -> Result JsVal;
  putProfile : ProfileData -> Result JsVal;
  document : Document;
  signed_in : bool;                         (* auth.currentUser !== null *)
  has_saveBtn : bool;                       (* #saveProfileBtn is on the page *)
  has_editModal : bool                      (* #editModal is on the page *)
}.

Definition M : Type -> Type := Eff.M Event State.

(** The expression that matches exactly the text [s]. *)
Fixpoint literal (s : string) : Regex :=
  match s with
  | EmptyString => Eps
  | String c s' => Seq (Lit c) (literal s')
  end.

(** [/^image\/(jpeg|jpg|png|gif)$/] *)
Definition image_type_regex : Regex :=
  Seq (literal "image/")
      (Alt (literal "jpeg") (Alt (literal "jpg") (Alt (literal "png") (literal "gif")))).

(** [10 * 1024 * 1024] *)
Definition max_photo_bytes : Z := 10 * 1024 * 1024.

Definition set_loading (b : bool) (st : State) : State :=
  {| currentPhotoURL := currentPhotoURL st;
     currentPhotoFilename := currentPhotoFilename st; isLoading := b |}.

Definition set_photo (url filename : JsVal) (st : State) : State :=
  {| currentPhotoURL := url; currentPhotoFilename := filename;
     isLoading := isLoading st |}.

Section WithEnv.
Context (env : Env).

Local Open Scope eff_scope.

Definition uploadProfilePhoto (file : option File) : M JsVal :=
  match file with
  | None => Eff.throw (Error "No file provided")
  | Some f =>
      if max_photo_bytes <? size f then
        Eff.throw (Error "File size must be less than 10MB")
      else if negb (test image_type_regex (type f)) then
        Eff.throw (Error "Please select a valid image file (JPG, PNG, or GIF)")
      else
        let url := AppConfig.apiUrl (api_base env) "/api/uploads/profile-photo" in
        Eff.emit (Upload url f 60000) ;;;
        Eff.lift (postFormWithAuth env url f 60000)
  end.

(** [setLoading(loading)] *)
Definition setLoading (b : bool) : M unit :=
  Eff.modify (set_loading b) ;;;
  if has_saveBtn env then Eff.emit (LoadingUI b) else Eff.ret tt.

(** [closeEditModal()] *)
Definition closeEditModal : M unit :=
  loading <- Eff.gets isLoading ;;
  if loading : bool then Eff.ret tt
  else if has_editModal env then Eff.emit CloseEditModal
  else Eff.ret tt.

(** [getVal(id)]: the trimmed value of the input, or "" when it is absent. *)
Definition getVal (i : string) : string :=
  match getElementById (document env) i with
  | Some f => trim (value f)
  | None => ""
  end.

(** [updateProfileUI(profile)]: the page is redrawn from [profile], and the
    photo variables follow it where it carries them. *)
Definition updateProfileUI (profile : JsVal) : M unit :=
  Eff.emit (UpdateProfileUI profile) ;;;
  Eff.modify (fun st =>
    set_photo
      (if truthy (field profile "photo") then field profile "photo"
       else currentPhotoURL st)
      (if truthy (field profile "photoFilename") then field profile "photoFilename"
       else currentPhotoFilename st)
      st).

Definition saveProfile : M unit :=
  loading <- Eff.gets isLoading ;;
  if loading : bool then Eff.ret tt
  else
    let '(ok, effects) := validateAllFields (document env) in
    Eff.emit (Validation effects) ;;;
    if negb ok then
      Eff.emit (Notification "Please correct the errors in the form" "error")
    else
      setLoading true ;;;
      if negb (signed_in env) then
        Eff.emit (Notification "You need to be logged in to update your profile"
                               "error") ;;;
        setLoading false
      else
        (* try { ... } catch (err) { ... } finally { setLoading(false); } *)
        Eff.try_catch
          (st <- Eff.get ;;
           let profileData := {|
             p_name := getVal "editName";
             p_email := getVal "editEmail";
             p_studentNumber := getVal "editStudentNumber";
             p_program := getVal "editProgram";
             p_institution := getVal "editInstitution";
             p_yearLevel := getVal "editYearLevel";
             p_specialization := getVal "editSpecialization";
             p_graduation := getVal "editGraduation";
             p_bio := getVal "editBio";
             p_photo := js_or (currentPhotoURL st) JNull;
             p_photoFilename := js_or (currentPhotoFilename st) JNull
           |} in
           Eff.emit (PutProfile profileData) ;;;
           updatedProfile <- Eff.lift (putProfile env profileData) ;;
           ph <- Eff.lift (get_prop updatedProfile "photo") ;;
           Eff.modify (fun s =>
             set_photo (js_or ph (currentPhotoURL s))
                       (js_or (field updatedProfile "photoFilename")
                              (currentPhotoFilename s)) s) ;;;
           updateProfileUI updatedProfile ;;;
           Eff.emit (Broadcast updatedProfile) ;;;
           Eff.emit UpdateLastUpdatedTime ;;;
           closeEditModal ;;;
           Eff.emit (Notification "Profile updated successfully!" "success"))
          (fun _ =>
             Eff.emit (Notification
                         "Failed to save profile changes. Please try again."
                         "error")) ;;;
        setLoading false.
End WithEnv.

End ProfilePage.

(** * Properties *)

(** ** Sample payloads and pages used by the concrete checks below *)

Module Samples.

Definition obj (kvs : list (string * JsVal)) : JsVal := JObj (list_to_map kvs).

(** {posts: [{id:"p1"}, "bad", {id:"p2", likes:"3"}]} *)
Definition posts_payload : JsVal :=
  obj [("posts",
        JArr [ obj [("id", JStr "p1")];
               JStr "bad";
               obj [("id", JStr "p2"); ("likes", JStr "3")] ])].

(** A clock that moves on by a millisecond between two readings. *)
Definition ticking (n : nat) : string :=
  nth n ["2025-01-01T00:00:00.000Z"; "2025-01-01T00:00:00.001Z";
         "2025-01-01T00:00:00.002Z"; "2025-01-01T00:00:00.003Z"]
        "2025-01-01T00:00:00.004Z".

(** A topics client whose server answers every request with [answer]. *)
Definition topics_env (answer : Result JsVal) : TopicsClient.Env := {|
  TopicsClient.fetchJsonWithAuth := fun _ => answer;
  TopicsClient.postJsonWithAuth := fun _ => answer;
  TopicsClient.now_iso := ticking
|}.


(** {_id:"r1", creator:"u1", participants:["u1","u2"]} *)
Definition room_u1_u2 : JsVal :=
  obj [("_id", JStr "r1"); ("creator", JStr "u1");
       ("participants", JArr [JStr "u1"; JStr "u2"])].

Definition user (me : string) : RoomManager.User := {|
  RoomManager.uid := me;
  RoomManager.photoURL := JNull;
  RoomManager.user_photo := JNull
|}.

Definition http_error (code : Z) (msg : string) : JsError := MkError msg (Some code).

(** A room page opened at [?room=...] by user [me]: the server answers every
    GET with [room] and every POST with [join]; the user directory knows
    nobody by name, and the toast and the participant list are on the
    page. *)
Definition room_env (url : option string) (room join : Result JsVal) (me : string)
    : RoomManager.Env := {|
  RoomManager.url_room := url;
  RoomManager.fetchJsonWithAuth := fun _ => room;
  RoomManager.postJsonWithAuth := fun _ => join;
  RoomManager.currentUser := Some (user me);
  RoomManager.getUserDisplayInfo :=
    fun v => Ok (obj [("displayName", v); ("avatar", JStr "U")]);
  RoomManager.getUserDisplayInfos := fun _ => Ok (RoomManager.Infos (fun _ => JUndefined));
  RoomManager.users_doc := fun _ => Ok None;
  RoomManager.showToast_defined := true;
  RoomManager.document_has := fun _ => true;
  RoomManager.confirm := fun _ => true
|}.

(** An edit form whose e-mail field holds [v]. *)
Definition form_with_email (v : string) : Profile.Document := {|
  Profile.inputs := {[ "editEmail" := (true, v) ]};
  Profile.error_nodes := ∅
|}.

End Samples.

(** ** Words of the specification, spelled out *)

(** A post record that holds nothing but the defaults next to its id, the
    two dates being the readings [k] and [k + 1] of the clock. *)
Definition defaults_only (env : TopicsClient.Env) (k : nat) (i : JsVal)
    : TopicsClient.Post := {|
  TopicsClient.id := i;
  TopicsClient.title := JStr "";
  TopicsClient.content := JStr "";
  TopicsClient.author := JStr "Anonymous";
  TopicsClient.author_id := JNull;
  TopicsClient.userId := JNull;
  TopicsClient.authorId := JNull;
  TopicsClient.created_at := JStr (TopicsClient.now_iso env k);
  TopicsClient.created := JStr (TopicsClient.now_iso env (S k));
  TopicsClient.likes := JNum 0;
  TopicsClient.comments := JNum 0;
  TopicsClient.author_avatar := JNull
|}.

(** The rule of the specification for the likes of a record: the [likes]
    field of the entry as it is when it is of numeric type, 0 otherwise. *)
Definition likes_by_rule (v : JsVal) : JsVal :=
  match v with
  | JNum n => JNum n
  | _ => JNum 0
  end.

(** A JSON object in the sense of the JSON grammar: [{...}], as opposed to
    an array, a string, a number, a boolean or [null]. *)
Definition is_json_object (v : JsVal) : bool :=
  match v with JObj _ => true | _ => false end.

(** A value of JavaScript type object: a JSON object or a JSON array. *)
Definition is_js_object (v : JsVal) : bool :=
  match v with JObj _ | JArr _ => true | _ => false end.

(** The failure [togglePostLike] reports for a response it refuses. *)
Definition InvalidResponse : JsError :=
  Error "Toggle like failed: Invalid response from server".

(** The failure of the argument check of [togglePostLike]. *)
Definition InvalidArgument_postId : JsError := Error "postId required".

Definition is_fetch (ev : RoomManager.Event) : bool :=
  match ev with RoomManager.Fetch _ => true | _ => false end.

Definition is_join (ev : RoomManager.Event) : bool :=
  match ev with RoomManager.Fetch (PostJoin _) => true | _ => false end.

(** No two values of the list are [===]. *)
Fixpoint distinct (l : list JsVal) : Prop :=
  match l with
  | [] => True
  | x :: rest => Forall (fun y => strict_equals x y = false) rest /\ distinct rest
  end.

(** The participant sequence is deduplicated by id: two different entries
    never carry the same id. *)
Definition deduplicated (ps : list RoomManager.Participant) : Prop :=
  forall (i j : nat) (p q : RoomManager.Participant),
    i <> j -> ps !! i = Some p -> ps !! j = Some q ->
    strict_equals (RoomManager.id p) (RoomManager.id q) = false.

(** The unrecoverable failures of a load (steps 1 and 2), with the error each
    one raises and the requests sent before it. *)
Inductive LoadFailure (env : RoomManager.Env)
    : JsError -> list RoomManager.Event -> Prop :=
  | NoRoomParam :
      RoomManager.url_room env = None ->
      LoadFailure env (Error "Room ID not found in URL") []
  | EmptyRoomParam :
      RoomManager.url_room env = Some "" ->
      LoadFailure env (Error "Room ID not found in URL") []
  | FetchFailed roomId e :
      RoomManager.url_room env = Some roomId -> roomId <> "" ->
      RoomManager.fetchJsonWithAuth env (GetRoom roomId) = Throw e ->
      LoadFailure env e [RoomManager.Fetch (GetRoom roomId)]
  | FetchEmpty roomId data :
      RoomManager.url_room env = Some roomId -> roomId <> "" ->
      RoomManager.fetchJsonWithAuth env (GetRoom roomId) = Ok data ->
      truthy data = false ->
      LoadFailure env (Error "No room data returned")
        [RoomManager.Fetch (GetRoom roomId)].

(** The notification, as [window.showToast] receives it when the page
    defines it. *)
Definition notification (env : RoomManager.Env) (msg kind : string)
    : list RoomManager.Event :=
  if RoomManager.showToast_defined env then [RoomManager.Toast msg kind] else [].

(** What the enrichment step of a load leaves from state [st]: only
    [this.participants] is assigned, nothing is sent, the sequence is
    deduplicated by id, and the host marks follow the creator id. *)
Definition enriched (env : RoomManager.Env) (st st' : RoomManager.State)
    (t : list RoomManager.Event) : Prop :=
  exists ps,
    st' = RoomManager.set_participants ps st
    /\ Forall (fun ev => is_fetch ev = false) t
    /\ distinct (map RoomManager.id ps)
    /\ (RoomManager.isOwner st
        = strict_equals
            (field (RoomManager.raw (RoomManager.currentRoomData st)) "creator")
            (RoomManager.currentUid env) ->
        Forall (fun p =>
                  RoomManager.isHost p
                  = strict_equals
                      (field (RoomManager.raw (RoomManager.currentRoomData st)) "creator")
                      (RoomManager.id p))
               ps).

(** The join request of a load, for the room id the record carries. *)
Definition join_request (data : JsVal) : Request :=
  PostJoin (js_or (field data "_id") (field data "id")).

(** The state once the room record has arrived and the ownership flag is
    derived: where the auto-join step starts. *)
Definition fetched (data : JsVal) (u : RoomManager.User) (st : RoomManager.State)
    : RoomManager.State :=
  RoomManager.set_isOwner
    (strict_equals (field data "creator") (JStr (RoomManager.uid u)))
    (RoomManager.set_currentRoomData
       {| RoomManager.raw := data; RoomManager.participants_written := None |}
       (RoomManager.set_isLoading true st)).

(** A part of an address: not empty, without white space and without "@". *)
Definition plain_part (s : string) : Prop :=
  s <> "" /\
  forall ch, In ch (list_ascii_of_string s) ->
             Profile.is_space ch = false /\ ch <> "@"%char.

(** The basic pattern: one "@", and a dot inside what follows it. *)
Definition one_at_dotted_domain (email : string) : Prop :=
  exists local host tld,
    email = local +:+ "@" +:+ host +:+ "." +:+ tld
    /\ plain_part local /\ plain_part host /\ plain_part tld.

(** ** Words for the properties of the other functions *)

(** The entry built for user [s] when nothing is known about them: the
    first eight characters of the id as name, "U" as avatar, no photo. *)
Definition fallback_entry (creator : JsVal) (s : string) : RoomManager.Participant := {|
  RoomManager.id := JStr s;
  RoomManager.name := JStr (RoomManager.take_string 8 s);
  RoomManager.avatar := JStr "U";
  RoomManager.photo := JNull;
  RoomManager.status := "online";
  RoomManager.isHost := strict_equals creator (JStr s);
  RoomManager.inCall := false
|}.

(** The room record lists nobody: no [participants], or not an array, or an
    empty one. *)
Definition no_members (d : RoomManager.RoomData) : Prop :=
  match RoomManager.room_participants d with
  | JArr (_ :: _) => False
  | _ => True
  end.

(** The entry [p] with its call status set to [b]. *)
Definition with_inCall (b : bool) (p : RoomManager.Participant)
    : RoomManager.Participant := {|
  RoomManager.id := RoomManager.id p;
  RoomManager.name := RoomManager.name p;
  RoomManager.avatar := RoomManager.avatar p;
  RoomManager.photo := RoomManager.photo p;
  RoomManager.status := RoomManager.status p;
  RoomManager.isHost := RoomManager.isHost p;
  RoomManager.inCall := b
|}.

(** The participants left once [userId] is removed. *)
Definition without (userId : JsVal) (ps : list RoomManager.Participant)
    : list RoomManager.Participant :=
  List.filter (fun p => negb (strict_equals (RoomManager.id p) userId)) ps.

(** The membership list of a fetched room record: its [participants] when
    that is a list, and the empty list when the record carries none. *)
Definition membership (data : JsVal) (l : list JsVal) : Prop :=
  truthy data = true
  /\ (field data "participants" = JArr l
      \/ (truthy (field data "participants") = false /\ l = [])).

(** The user ids the enrichment step works on: the truthy entries of the
    membership list, each once, in the order of first occurrence. *)
Definition member_ids (l : list JsVal) : list JsVal :=
  RoomManager.set_from [] (List.filter truthy l).

Definition is_string (v : JsVal) : Prop := exists s, v = JStr s.

(** The single entry shown for the current user [u] in a room that lists
    nobody, from the display record [info] of that user. *)
Definition self_entry (u : RoomManager.User) (info : JsVal) (owner : bool)
    : RoomManager.Participant := {|
  RoomManager.id := JStr (RoomManager.uid u);
  RoomManager.name := field info "displayName";
  RoomManager.avatar := field info "avatar";
  RoomManager.photo :=
    js_or (js_or (RoomManager.photoURL u) (RoomManager.user_photo u)) JNull;
  RoomManager.status := "online";
  RoomManager.isHost := owner;
  RoomManager.inCall := false
|}.

(** [undefined] or [null]. *)
Definition nullish (v : JsVal) : Prop := v = JNull \/ v = JUndefined.

(** The room record once the current user has been appended to its
    membership list. *)
Definition joined (data : JsVal) (l : list JsVal) (u : RoomManager.User)
    : RoomManager.RoomData := {|
  RoomManager.raw := data;
  RoomManager.participants_written := Some (l ++ [JStr (RoomManager.uid u)])
|}.

(** The same settings state with the ownership flag set to [b]. *)
Definition with_owner (b : bool) (st : RoomSettings.State) : RoomSettings.State := {|
  RoomSettings.view := RoomManager.set_isOwner b (RoomSettings.view st);
  RoomSettings.name_written := RoomSettings.name_written st;
  RoomSettings.description_written := RoomSettings.description_written st
|}.

(** The description saveRoomSettings sends: the trimmed value of the
    description input, or "" without that input. *)
Definition description_sent (env : RoomSettings.Env) : string :=
  match RoomSettings.roomDescInput env with
  | Some w => Profile.trim w
  | None => ""
  end.

Definition redirect_after_delete : RoomSettings.Event :=
  RoomSettings.Page
    (RoomManager.SetTimeout (RoomManager.Redirect "study-rooms.html") 1200).

(** A computation that does not depend on the ownership flag: started from
    the same state with another flag, it returns, logs and writes the
    same. *)
Definition ownership_blind {A} (m : RoomSettings.M A) : Prop :=
  forall (b : bool) (st : RoomSettings.State),
    m (with_owner b st)
    = (fst (fst (m st)), with_owner b (snd (fst (m st))), snd (m st)).

(** What getPostLikes answers when it cannot tell. *)
Definition no_likes (postId : JsVal) : TopicsClientMore.Likes := {|
  TopicsClientMore.likes := JNum 0;
  TopicsClientMore.userLiked := false;
  TopicsClientMore.post_id := postId
|}.

(** Neither [undefined] nor [null]. *)
Definition defined (v : JsVal) : Prop := v <> JUndefined /\ v <> JNull.

(** The fields of a topic record that always hold a value. *)
Definition topic_filled (r : TopicsClientMore.Topic) : Prop :=
  defined (TopicsClientMore.title r)
  /\ defined (TopicsClientMore.description r)
  /\ defined (TopicsClientMore.category r)
  /\ defined (TopicsClientMore.tags r)
  /\ defined (TopicsClientMore.author r)
  /\ defined (TopicsClientMore.created r)
  /\ defined (TopicsClientMore.postCount r)
  /\ defined (TopicsClientMore.viewCount r)
  /\ defined (TopicsClientMore.latestActivity r)
  /\ TopicsClientMore.authorId r <> JUndefined
  /\ TopicsClientMore.userId r <> JUndefined
  /\ TopicsClientMore.updated r <> JUndefined.

(** What validateField asks of a field: a required field is not blank, and
    the e-mail field, unless blank, holds an address validateEmail
    accepts. *)
Definition field_accepted (f : Profile.Field) : Prop :=
  (Profile.required f = true -> Profile.trim (Profile.value f) <> "")
  /\ (Profile.field_id f = "editEmail" ->
      Profile.trim (Profile.value f) <> "" ->
      Profile.valid (Profile.validateEmail (Profile.trim (Profile.value f))) = true).

(** The MIME types uploadProfilePhoto lets through. *)
Definition photo_types : list string :=
  ["image/jpeg"; "image/jpg"; "image/png"; "image/gif"].

(** [s] ends with a slash. *)
Definition ends_with_slash (s : string) : Prop := exists s', s = s' +:+ "/".

(** [path] without its leading slash, if it has one. *)
Definition without_leading_slash (path : string) : string :=
  match path with
  | String c rest => if Ascii.eqb c "/" then rest else path
  | EmptyString => EmptyString
  end.

Definition is_put (ev : ProfilePage.Event) : bool :=
  match ev with ProfilePage.PutProfile _ => true | _ => false end.

(** ** Sample pages for the properties of the other functions *)

Module MoreSamples.

(** A participant entry as the enrichment step builds it. *)
Definition entry (i : string) (host call : bool) : RoomManager.Participant := {|
  RoomManager.id := JStr i;
  RoomManager.name := JStr i;
  RoomManager.avatar := JStr "U";
  RoomManager.photo := JNull;
  RoomManager.status := "online";
  RoomManager.isHost := host;
  RoomManager.inCall := call
|}.

(** The view-model once [room] is loaded, with the ownership flag [owner]
    and the participant sequence [ps]. *)
Definition loaded (room : JsVal) (owner : bool) (ps : list RoomManager.Participant)
    : RoomManager.State := {|
  RoomManager.currentRoomData :=
    {| RoomManager.raw := room; RoomManager.participants_written := None |};
  RoomManager.isOwner := owner;
  RoomManager.participants := ps;
  RoomManager.isLoading := false
|}.

Definition u1_u2 : list RoomManager.Participant :=
  [entry "u1" true false; entry "u2" false false].

(** {_id:"r0", creator:"u1", participants:[]} *)
Definition room_nobody : JsVal :=
  Samples.obj [("_id", JStr "r0"); ("creator", JStr "u1");
               ("participants", JArr [])].

(** {_id:"r2", creator:"u9"}: a room record without a membership list. *)
Definition room_no_list : JsVal :=
  Samples.obj [("_id", JStr "r2"); ("creator", JStr "u9")].

(** The page of [Samples.room_env] with a user directory whose batch
    lookup resolves to [batch]. *)
Definition directory_env (batch : Result RoomManager.InfosMap) (me : string)
    : RoomManager.Env := {|
  RoomManager.url_room := Some "r1";
  RoomManager.fetchJsonWithAuth := fun _ => Ok Samples.room_u1_u2;
  RoomManager.postJsonWithAuth := fun _ => Ok JNull;
  RoomManager.currentUser := Some (Samples.user me);
  RoomManager.getUserDisplayInfo :=
    fun v => Ok (Samples.obj [("displayName", v); ("avatar", JStr "U")]);
  RoomManager.getUserDisplayInfos := fun _ => batch;
  RoomManager.users_doc := fun _ => Ok None;
  RoomManager.showToast_defined := true;
  RoomManager.document_has := fun _ => true;
  RoomManager.confirm := fun _ => true
|}.

(** The room page of user [me] on which [window.showToast] is not
    defined. *)
Definition bare_page (me : string) : RoomManager.Env := {|
  RoomManager.url_room := Some "r1";
  RoomManager.fetchJsonWithAuth := fun _ => Ok Samples.room_u1_u2;
  RoomManager.postJsonWithAuth := fun _ => Ok JNull;
  RoomManager.currentUser := Some (Samples.user me);
  RoomManager.getUserDisplayInfo :=
    fun v => Ok (Samples.obj [("displayName", v); ("avatar", JStr "U")]);
  RoomManager.getUserDisplayInfos :=
    fun _ => Ok (RoomManager.Infos (fun _ => JUndefined));
  RoomManager.users_doc := fun _ => Ok None;
  RoomManager.showToast_defined := false;
  RoomManager.document_has := fun _ => true;
  RoomManager.confirm := fun _ => true
|}.

(** A topics client whose server answers every GET, PUT and DELETE with
    [fetched] and every POST with [posted]. *)
Definition topics_env (fetched posted : Result JsVal) : TopicsClientMore.Env := {|
  TopicsClientMore.fetchJsonWithAuth := fun _ => fetched;
  TopicsClientMore.postJsonWithAuth := fun _ => posted;
  TopicsClientMore.now_iso := Samples.ticking
|}.

(** {id:"t1", title:"Exam", created:"2024-12-24T08:00:00.000Z"} *)
Definition topic_t1 : JsVal :=
  Samples.obj [("id", JStr "t1"); ("title", JStr "Exam");
               ("created", JStr "2024-12-24T08:00:00.000Z")].

(** The edit form of the profile page, filled in, with [email] in its
    e-mail field. *)
Definition form (email : string) : Profile.Document := {|
  Profile.inputs :=
    {[ "editName" := (true, "Juan dela Cruz");
       "editEmail" := (true, email);
       "editStudentNumber" := (true, "2021-0001");
       "editProgram" := (true, "BSIT") ]};
  Profile.error_nodes := ∅
|}.

(** The profile page of a signed-in user whose server answers the PUT and
    the upload with [answer]. *)
Definition profile_env (email : string) (answer : Result JsVal) : ProfilePage.Env := {|
  ProfilePage.api_base := "http://localhost:5000/";
  ProfilePage.postFormWithAuth := fun _ _ _ => answer;
  ProfilePage.putProfile := fun _ => answer;
  ProfilePage.document := form email;
  ProfilePage.signed_in := true;
  ProfilePage.has_saveBtn := true;
  ProfilePage.has_editModal := true
|}.

Definition idle : ProfilePage.State := {|
  ProfilePage.currentPhotoURL := JNull;
  ProfilePage.currentPhotoFilename := JNull;
  ProfilePage.isLoading := false
|}.

Definition photo (bytes : Z) (mime : string) : ProfilePage.File := {|
  ProfilePage.size := bytes;
  ProfilePage.type := mime;
  ProfilePage.name := "me.png"
|}.

End MoreSamples.

(** *** Computations *)

Section EffWords.
Context {Event St : Type}.

(** A computation that only computes: no event, no assignment. *)
Definition silent {A} (m : Eff.M Event St A) : Prop :=
  forall st, exists r, m st = (r, st, []).

(** What a computation returns when it returns. *)
Definition returns {A} (m : Eff.M Event St A) (P : A -> Prop) : Prop :=
  forall st a st' t, m st = (Ok a, st', t) -> P a.

(** A computation that cannot throw. *)
Definition total {A} (m : Eff.M Event St A) : Prop :=
  forall st, exists a st' t, m st = (Ok a, st', t).
End EffWords.

(** ** The effect monad *)

Section EffFacts.
Context {Event St : Type}.
Implicit Types st : St.

Lemma silent_ret {A} (a : A) : silent (Eff.ret a : Eff.M Event St A).
Proof. intros st. eexists; reflexivity. Qed.

Lemma silent_throw {A} (e : JsError) : silent (Eff.throw e : Eff.M Event St A).
Proof. intros st. eexists; reflexivity. Qed.

Lemma silent_lift {A} (r : Result A) : silent (Eff.lift r : Eff.M Event St A).
Proof. intros st. eexists; reflexivity. Qed.

Lemma silent_bind {A B} (m : Eff.M Event St A) (k : A -> Eff.M Event St B) :
  silent m -> (forall a, silent (k a)) -> silent (Eff.bind m k).
Proof.
  intros Hm Hk st. unfold Eff.bind.
  destruct (Hm st) as [[a|e] ->]; [|eexists; reflexivity].
  destruct (Hk a st) as [r ->]. eexists; reflexivity.
Qed.

Lemma silent_try_catch {A} (m : Eff.M Event St A) (h : JsError -> Eff.M Event St A) :
  silent m -> (forall e, silent (h e)) -> silent (Eff.try_catch m h).
Proof.
  intros Hm Hh st. unfold Eff.try_catch.
  destruct (Hm st) as [[a|e] ->]; [eexists; reflexivity|].
  destruct (Hh e st) as [r ->]. eexists; reflexivity.
Qed.

Lemma silent_mapM {A B} (f : A -> Eff.M Event St B) (xs : list A) :
  (forall x, silent (f x)) -> silent (Eff.mapM f xs).
Proof.
  intros Hf. induction xs as [|x xs IH]; simpl.
  - apply silent_ret.
  - apply silent_bind; [apply Hf|]. intros y.
    apply silent_bind; [apply IH|]. intros ys. apply silent_ret.
Qed.

(** A [try] whose [catch] block is empty always completes, with the state
    and the events its body reached. *)
Lemma try_swallow (m : Eff.M Event St unit) st :
  Eff.try_catch m (fun _ => Eff.ret tt) st
  = (Ok tt, snd (fst (m st)), snd (m st)).
Proof.
  unfold Eff.try_catch, Eff.ret.
  destruct (m st) as [[[[]|e] s1] t1]; simpl; [reflexivity|].
  by rewrite app_nil_r.
Qed.

(** The results of a successful [mapM] are those of the calls, in order. *)
Lemma mapM_ok {A B} (f : A -> Eff.M Event St B) (P : A -> B -> Prop) :
  (forall x st y st' t, f x st = (Ok y, st', t) -> P x y) ->
  forall xs st ys st' t,
    Eff.mapM f xs st = (Ok ys, st', t) -> Forall2 P xs ys.
Proof.
  intros Hf. induction xs as [|x xs IH]; simpl; intros st ys st' t H.
  - injection H as <- _ _. constructor.
  - unfold Eff.bind in H.
    destruct (f x st) as [[[y|e] s1] t1] eqn:Ef; [|discriminate].
    destruct (Eff.mapM f xs s1) as [[[zs|e] s2] t2] eqn:Em; [|discriminate].
    simpl in H. injection H as <- _ _.
    constructor; eauto.
Qed.

Lemma returns_ret {A} (a : A) (P : A -> Prop) :
  P a -> returns (Eff.ret a : Eff.M Event St A) P.
Proof. intros H st b st' t [= <- _ _]. exact H. Qed.

Lemma returns_bind {A B} (m : Eff.M Event St A) (k : A -> Eff.M Event St B)
    (P : B -> Prop) :
  (forall a, returns (k a) P) -> returns (Eff.bind m k) P.
Proof.
  intros Hk st b st' t. unfold Eff.bind.
  destruct (m st) as [[[a|e] s1] t1]; [|discriminate].
  destruct (k a s1) as [[r s2] t2] eqn:Ek. intros [= -> _ _].
  eapply Hk, Ek.
Qed.

Lemma returns_try_catch {A} (m : Eff.M Event St A)
    (h : JsError -> Eff.M Event St A) (P : A -> Prop) :
  returns m P -> (forall e, returns (h e) P) -> returns (Eff.try_catch m h) P.
Proof.
  intros Hm Hh st b st' t. unfold Eff.try_catch.
  destruct (m st) as [[[a|e] s1] t1] eqn:Em.
  - intros [= <- _ _]. eapply Hm, Em.
  - destruct (h e s1) as [[r s2] t2] eqn:Eh. intros [= -> _ _].
    eapply Hh, Eh.
Qed.

Lemma total_ret {A} (a : A) : total (Eff.ret a : Eff.M Event St A).
Proof. intros st. eexists _, _, _; reflexivity. Qed.

Lemma total_bind {A B} (m : Eff.M Event St A) (k : A -> Eff.M Event St B) :
  total m -> (forall a, total (k a)) -> total (Eff.bind m k).
Proof.
  intros Hm Hk st. unfold Eff.bind.
  destruct (Hm st) as (a & s1 & t1 & ->).
  destruct (Hk a s1) as (b & s2 & t2 & ->). eexists _, _, _; reflexivity.
Qed.

Lemma total_try_catch {A} (m : Eff.M Event St A)
    (h : JsError -> Eff.M Event St A) :
  (forall e, total (h e)) -> total (Eff.try_catch m h).
Proof.
  intros Hh st. unfold Eff.try_catch.
  destruct (m st) as [[[a|e] s1] t1].
  - eexists _, _, _; reflexivity.
  - destruct (Hh e s1) as (b & s2 & t2 & ->). eexists _, _, _; reflexivity.
Qed.
End EffFacts.

(** ** Values and strings *)

Lemma strict_equals_sym (a b : JsVal) : strict_equals a b = strict_equals b a.
Proof.
  destruct a, b; simpl; try reflexivity.
  - by destruct b, b0.
  - apply Z.eqb_sym.
  - apply String.eqb_sym.
Qed.

Lemma strict_equals_string (c : string) (v : JsVal) :
  strict_equals (JStr c) v = true <-> v = JStr c.
Proof.
  destruct v; simpl; split; try congruence.
  - intros H. apply String.eqb_eq in H. by subst.
  - intros [= ->]. apply String.eqb_refl.
Qed.

Lemma existsb_strict_equals (x : JsVal) (l : list JsVal) :
  existsb (strict_equals x) l = false <->
  Forall (fun y => strict_equals y x = false) l.
Proof.
  induction l as [|y l IH]; simpl.
  - split; [constructor|done].
  - rewrite orb_false_iff, IH, Forall_cons, (strict_equals_sym x y). tauto.
Qed.

Lemma in_strict_equals (s : string) (l : list JsVal) :
  existsb (strict_equals (JStr s)) l = true <-> In (JStr s) l.
Proof.
  rewrite existsb_exists. split.
  - intros (y & Hy & E). apply strict_equals_string in E. by subst.
  - intros H. exists (JStr s). split; [done|]. by apply strict_equals_string.
Qed.

Lemma distinct_snoc (l : list JsVal) (x : JsVal) :
  distinct l -> Forall (fun y => strict_equals y x = false) l ->
  distinct (l ++ [x]).
Proof.
  induction l as [|y l IH]; simpl.
  - intros _ _. split; [constructor|done].
  - intros [Hy Hl] Hx. apply Forall_cons in Hx as [Hyx Hx]. split.
    + apply Forall_app. split; [done|]. by constructor.
    + by apply IH.
Qed.

Lemma set_from_distinct (l acc : list JsVal) :
  distinct acc -> distinct (RoomManager.set_from acc l).
Proof.
  revert acc. induction l as [|x l IH]; simpl; intros acc Hacc; [done|].
  apply IH. destruct (existsb (strict_equals x) acc) eqn:E; [done|].
  apply distinct_snoc; [done|]. by apply existsb_strict_equals.
Qed.

Lemma distinct_lookup (l : list JsVal) (i j : nat) (a b : JsVal) :
  distinct l -> i <> j -> l !! i = Some a -> l !! j = Some b ->
  strict_equals a b = false.
Proof.
  revert i j. induction l as [|x l IH]; intros i j Hd Hij Hi Hj; [done|].
  destruct Hd as [Hx Hd].
  destruct i as [|i], j as [|j]; simpl in *; try done.
  - injection Hi as ->.
    rewrite Forall_forall in Hx. apply Hx.
    by eapply list_elem_of_lookup_2.
  - injection Hj as ->. rewrite strict_equals_sym.
    rewrite Forall_forall in Hx. apply Hx.
    by eapply list_elem_of_lookup_2.
  - eapply (IH i j); eauto.
Qed.

Lemma distinct_deduplicated (ps : list RoomManager.Participant) :
  distinct (map RoomManager.id ps) -> deduplicated ps.
Proof.
  intros Hd i j p q Hij Hp Hq.
  eapply (distinct_lookup _ i j); eauto.
  - change (map RoomManager.id ps) with (RoomManager.id <$> ps).
    by rewrite list_lookup_fmap, Hp.
  - change (map RoomManager.id ps) with (RoomManager.id <$> ps).
    by rewrite list_lookup_fmap, Hq.
Qed.


Section StringFacts.
Lemma append_cons (c : ascii) (s1 s2 : string) :
  String c s1 +:+ s2 = String c (s1 +:+ s2).
Proof. reflexivity. Qed.

Lemma append_nil_r (s : string) : s +:+ "" = s.
Proof.
  induction s as [|c s IH]; [reflexivity|]. by rewrite append_cons, IH.
Qed.

Lemma append_assoc (s1 s2 s3 : string) :
  (s1 +:+ s2) +:+ s3 = s1 +:+ (s2 +:+ s3).
Proof.
  induction s1 as [|c s1 IH]; [reflexivity|]. by rewrite !append_cons, IH.
Qed.

Lemma append_eq_nil (s1 s2 : string) : s1 +:+ s2 = "" -> s1 = "" /\ s2 = "".
Proof. destruct s1; [done|]. rewrite append_cons. discriminate. Qed.

Lemma append_eq_cons (s1 s2 s : string) (c : ascii) :
  s1 +:+ s2 = String c s ->
  (s1 = "" /\ s2 = String c s)
  \/ exists s1', s1 = String c s1' /\ s = s1' +:+ s2.
Proof.
  destruct s1 as [|a s1]; [by left|]. rewrite append_cons.
  intros [= -> <-]. right. eauto.
Qed.
End StringFacts.

(** ** topicsClient.js *)

Section TopicsClientFacts.
Import TopicsClient.
Context (env : Env).

Lemma typeof_number (v : JsVal) :
  String.eqb (typeof v) "number" = true <-> exists n, v = JNum n.
Proof.
  split.
  - destruct v; simpl; try discriminate. eauto.
  - intros [n ->]. reflexivity.
Qed.

Lemma js_object_spec (v : JsVal) :
  negb (truthy v) || negb (String.eqb (typeof v) "object") = negb (is_js_object v).
Proof.
  destruct v as [| |b|n|s|l|m]; simpl; try reflexivity.
  - destruct b; reflexivity.
  - destruct (n =? 0); reflexivity.
  - destruct (String.eqb s ""); reflexivity.
Qed.

(** An entry is kept exactly when it is of type object. *)
Lemma normalize_post_kept (k : nat) (p : JsVal) :
  is_Some (normalize_post_at env k p) <-> is_js_object p = true.
Proof.
  unfold normalize_post_at. rewrite js_object_spec.
  destruct (is_js_object p); simpl; split; intros H; done.
Qed.

(** The likes of a normalized record are a number: those of the entry when
    they are one, zero otherwise. *)
Lemma normalize_post_likes (k : nat) (p : JsVal) (r : Post) :
  normalize_post_at env k p = Some r ->
  (exists n, likes r = JNum n) /\
  (forall n, field p "likes" = JNum n -> likes r = JNum n) /\
  ((forall n, field p "likes" <> JNum n) -> likes r = JNum 0).
Proof.
  unfold normalize_post_at. rewrite js_object_spec.
  destruct (is_js_object p); simpl; [|discriminate].
  intros [= <-]; simpl.
  destruct (String.eqb (typeof (field p "likes")) "number") eqn:E.
  - apply typeof_number in E as [n E]. rewrite E.
    repeat split; eauto. intros H; by destruct (H n).
  - repeat split; eauto.
    intros n Hn. rewrite Hn in E. discriminate.
Qed.

(** Fields the entry does not carry take their defaults. *)
Lemma normalize_post_defaults (k : nat) (p : JsVal) (r : Post) :
  normalize_post_at env k p = Some r ->
  (field p "title" = JUndefined -> title r = JStr "") /\
  (field p "content" = JUndefined -> content r = JStr "") /\
  (field p "author" = JUndefined -> author r = JStr "Anonymous") /\
  (field p "author_id" = JUndefined -> field p "authorId" = JUndefined ->
     authorId r = JNull) /\
  (field p "created_at" = JUndefined -> field p "created" = JUndefined ->
     created_at r = JStr (now_iso env k) /\ created r = JStr (now_iso env (S k))).
Proof.
  unfold normalize_post_at. rewrite js_object_spec.
  destruct (is_js_object p); simpl; [|discriminate].
  intros [= <-]; simpl.
  repeat split; intros; repeat match goal with H : field _ _ = _ |- _ => rewrite H end;
    reflexivity.
Qed.

(** Whatever the server sent, other than [null] or nothing at all, the
    normalization returns, and returns only records built from the entries
    of type object. *)
Lemma normalize_response_returns (resp : JsVal) :
  resp <> JNull -> resp <> JUndefined ->
  exists posts,
    normalize_response env resp = Ok (normalize_posts env posts).
Proof.
  intros Hn Hu. unfold normalize_response, extract_posts.
  destruct resp; simpl; try congruence; eauto.
Qed.

Lemma normalize_posts_from_sound (k : nat) (posts : list JsVal) (r : Post) :
  In r (normalize_posts_from env k posts) ->
  exists p k',
    In p posts /\ is_js_object p = true /\ normalize_post_at env k' p = Some r.
Proof.
  revert k. induction posts as [|p posts IH]; simpl; intros k H; [done|].
  destruct (normalize_post_at env k p) as [r'|] eqn:Hp.
  - destruct H as [<-|H].
    + exists p, k. split; [by left|]. split; [|done].
      apply (normalize_post_kept k). by rewrite Hp.
    + destruct (IH _ H) as (q & k' & Hq & Hrest). exists q, k'. split; [by right|done].
  - destruct (IH _ H) as (q & k' & Hq & Hrest). exists q, k'. split; [by right|done].
Qed.

Lemma normalize_posts_sound (posts : list JsVal) (r : Post) :
  In r (normalize_posts env posts) ->
  exists p k',
    In p posts /\ is_js_object p = true /\ normalize_post_at env k' p = Some r.
Proof. apply normalize_posts_from_sound. Qed.

(** The records built from a list carry, entry by entry, the ids of its
    entries of type object, and their likes by the rule. *)
Lemma normalize_posts_from_fields (k : nat) (l : list JsVal) :
  map id (normalize_posts_from env k l)
  = map (fun p => field p "id") (List.filter is_js_object l)
  /\ map likes (normalize_posts_from env k l)
     = map (fun p => likes_by_rule (field p "likes")) (List.filter is_js_object l).
Proof.
  revert k. induction l as [|p l IH]; intros k; simpl; [done|].
  destruct (IH (k + clock_reads p)%nat) as [IHid IHlikes].
  unfold normalize_post_at. rewrite js_object_spec.
  destruct (is_js_object p); simpl; [|done].
  rewrite IHid, IHlikes. split; [done|]. f_equal.
  destruct (field p "likes"); reflexivity.
Qed.

(** What getTopicPosts returns for an answer that is a list, or wraps one
    as {posts: [...]}. *)
Lemma getTopicPosts_list (topicId resp : JsVal) (l : list JsVal) :
  truthy topicId = true ->
  fetchJsonWithAuth env (GetTopicPosts topicId) = Ok resp ->
  resp = JArr l \/ (isArray resp = false /\ field resp "posts" = JArr l) ->
  getTopicPosts env topicId tt
  = (Ok (normalize_posts env l), tt, [Fetch (GetTopicPosts topicId)]).
Proof.
  intros Ht Hf Hshape.
  unfold getTopicPosts, Eff.try_catch, Eff.bind, Eff.emit, Eff.lift.
  rewrite Ht, Hf. simpl. unfold normalize_response, extract_posts.
  destruct Hshape as [-> | [Harr Hposts]]; [reflexivity|].
  rewrite Harr. destruct resp; simpl in *; try discriminate.
  rewrite Hposts. reflexivity.
Qed.

(** C1: called with a non-empty topic id, getTopicPosts returns, for a
    list of posts (bare, or wrapped as {posts: [...]}), one record for each
    entry of type object, in order, with the id of the entry and with its
    likes by the rule: the [likes] field as it is when it is of numeric
    type, 0 otherwise.  So for the payload
    {posts: [{id:"p1"}, "bad", {id:"p2", likes:"3"}]} it returns exactly
    two records, for "p1" and for "p2", both with [likes = 0] (the string
    "3" is not coerced), the other fields at their defaults. *)
Theorem getTopicPosts_sample (topicId : JsVal) :
  truthy topicId = true ->
  (forall (resp : JsVal) (l : list JsVal),
      fetchJsonWithAuth env (GetTopicPosts topicId) = Ok resp ->
      resp = JArr l \/ (isArray resp = false /\ field resp "posts" = JArr l) ->
      exists ps,
        getTopicPosts env topicId tt
        = (Ok ps, tt, [Fetch (GetTopicPosts topicId)])
        /\ map id ps = map (fun p => field p "id") (List.filter is_js_object l)
        /\ map likes ps
           = map (fun p => likes_by_rule (field p "likes"))
                 (List.filter is_js_object l))
  /\ (fetchJsonWithAuth env (GetTopicPosts topicId) = Ok Samples.posts_payload ->
      exists r1 r2,
        getTopicPosts env topicId tt
        = (Ok [r1; r2], tt, [Fetch (GetTopicPosts topicId)])
        /\ id r1 = JStr "p1" /\ likes r1 = JNum 0
        /\ id r2 = JStr "p2" /\ likes r2 = JNum 0
        /\ r1 = defaults_only env 0 (JStr "p1")
        /\ r2 = defaults_only env 2 (JStr "p2")).
Proof.
  intros Ht. split.
  - intros resp l Hf Hshape.
    rewrite (getTopicPosts_list topicId resp l Ht Hf Hshape).
    eexists. split; [reflexivity|]. apply normalize_posts_from_fields.
  - intros Hf.
    rewrite (getTopicPosts_list topicId Samples.posts_payload
               [Samples.obj [("id", JStr "p1")]; JStr "bad";
                Samples.obj [("id", JStr "p2"); ("likes", JStr "3")]] Ht Hf);
      [|right; split; reflexivity].
    exists (defaults_only env 0 (JStr "p1")), (defaults_only env 2 (JStr "p2")).
    split; [|repeat split; reflexivity].
    vm_compute. reflexivity.
Qed.

(** C5: with a falsy [postId] (missing, empty string, [null], ...)
    togglePostLike throws "postId required" at once: nothing is sent. *)
Theorem togglePostLike_requires_postId (postId : JsVal) :
  truthy postId = false ->
  togglePostLike env postId tt = (Throw InvalidArgument_postId, tt, []).
Proof.
  intros H. unfold togglePostLike. rewrite H. reflexivity.
Qed.

(** C2, at the response [null]: reading [resp.posts] fails before the guard
    meant for it ([resp && typeof resp === "object" ? [resp] : []]) is
    reached, and getTopicPosts throws instead of returning an empty
    sequence. *)
Theorem getTopicPosts_null_response (topicId : JsVal) :
  truthy topicId = true ->
  fetchJsonWithAuth env (GetTopicPosts topicId) = Ok JNull ->
  getTopicPosts env topicId tt
  = (Throw (Error "GET /api/topics/:id/posts failed: Cannot read properties of null (reading 'posts')"),
     tt, [Fetch (GetTopicPosts topicId)]).
Proof.
  intros Ht Hf.
  unfold getTopicPosts, Eff.try_catch, Eff.bind, Eff.emit, Eff.lift.
  rewrite Ht, Hf. reflexivity.
Qed.

(** For every other response getTopicPosts returns: it never throws once
    the request has been answered with a value other than [null]. *)
Lemma getTopicPosts_returns (topicId resp : JsVal) :
  truthy topicId = true ->
  fetchJsonWithAuth env (GetTopicPosts topicId) = Ok resp ->
  resp <> JNull -> resp <> JUndefined ->
  exists posts,
    getTopicPosts env topicId tt
    = (Ok (normalize_posts env posts), tt, [Fetch (GetTopicPosts topicId)]).
Proof.
  intros Ht Hf Hn Hu.
  destruct (normalize_response_returns resp Hn Hu) as [posts Hp].
  exists posts.
  unfold getTopicPosts, Eff.try_catch, Eff.bind, Eff.emit, Eff.lift.
  rewrite Ht, Hf. simpl. rewrite Hp. reflexivity.
Qed.

(** C6, as the code has it: the one POST is sent; a response that is not
    of type object ([null], nothing, a boolean, a number, a string) makes
    the call fail with "Invalid response from server"; for every other
    response, JSON object or JSON array, the record returned has [liked]
    true exactly when the [liked] field is the boolean [true], and [likes]
    equal to the [likes] field when that is a number and to 0 otherwise. *)
Theorem togglePostLike_response (postId resp : JsVal) :
  truthy postId = true ->
  postJsonWithAuth env (PostLike postId) = Ok resp ->
  (is_js_object resp = false ->
     togglePostLike env postId tt
     = (Throw InvalidResponse, tt, [Fetch (PostLike postId)]))
  /\ (is_js_object resp = true ->
      exists r,
        togglePostLike env postId tt = (Ok r, tt, [Fetch (PostLike postId)])
        /\ (liked r = true <-> field resp "liked" = JBool true)
        /\ (forall n, field resp "likes" = JNum n -> like_count r = JNum n)
        /\ ((forall n, field resp "likes" <> JNum n) -> like_count r = JNum 0)).
Proof.
  intros Ht Hp.
  unfold togglePostLike, Eff.try_catch, Eff.bind, Eff.emit, Eff.lift.
  rewrite Ht, Hp. simpl. rewrite js_object_spec.
  split; intros Hobj; rewrite Hobj; simpl; [reflexivity|].
  eexists; split; [reflexivity|]. simpl. repeat split.
  - destruct (field resp "liked") as [| |[]| | | |]; simpl; congruence.
  - intros ->. reflexivity.
  - intros n ->. reflexivity.
  - intros Hnot.
    destruct (String.eqb (typeof (field resp "likes")) "number") eqn:E; [|done].
    apply typeof_number in E as [n E]. by destruct (Hnot n).
Qed.
End TopicsClientFacts.

Lemma getTopicPosts_sample_witness :
  (exists ps,
     TopicsClient.getTopicPosts
       (Samples.topics_env
          (Ok (JArr [Samples.obj [("id", JStr "p7"); ("likes", JNum 5)];
                     JNum 1;
                     Samples.obj [("id", JStr "p8"); ("likes", JBool true)]])))
       (JStr "t1") tt
     = (Ok ps, tt, [TopicsClient.Fetch (GetTopicPosts (JStr "t1"))])
     /\ map TopicsClient.id ps = [JStr "p7"; JStr "p8"]
     /\ map TopicsClient.likes ps = [JNum 5; JNum 0])
  /\ exists r1 r2,
       TopicsClient.getTopicPosts (Samples.topics_env (Ok Samples.posts_payload))
         (JStr "t1") tt
       = (Ok [r1; r2], tt, [TopicsClient.Fetch (GetTopicPosts (JStr "t1"))])
       /\ TopicsClient.id r1 = JStr "p1" /\ TopicsClient.likes r1 = JNum 0
       /\ TopicsClient.id r2 = JStr "p2" /\ TopicsClient.likes r2 = JNum 0
       /\ TopicsClient.created_at r1 = JStr "2025-01-01T00:00:00.000Z"
       /\ TopicsClient.created r2 = JStr "2025-01-01T00:00:00.003Z".
Proof.
  split.
  - destruct (getTopicPosts_sample
                (Samples.topics_env
                   (Ok (JArr [Samples.obj [("id", JStr "p7"); ("likes", JNum 5)];
                              JNum 1;
                              Samples.obj [("id", JStr "p8");
                                           ("likes", JBool true)]])))
                (JStr "t1") eq_refl) as [Hrule _].
    destruct (Hrule _ _ eq_refl (or_introl eq_refl)) as (ps & Hrun & Hids & Hlikes).
    exists ps. split; [exact Hrun|]. split; [exact Hids|exact Hlikes].
  - destruct (getTopicPosts_sample (Samples.topics_env (Ok Samples.posts_payload))
                (JStr "t1") eq_refl) as [_ Hsample].
    destruct (Hsample eq_refl)
      as (r1 & r2 & Hrun & Hid1 & Hl1 & Hid2 & Hl2 & Hr1 & Hr2).
    exists r1, r2. split; [exact Hrun|].
    split; [exact Hid1|]. split; [exact Hl1|].
    split; [exact Hid2|]. split; [exact Hl2|].
    split; [rewrite Hr1|rewrite Hr2]; reflexivity.
Defined.

Lemma togglePostLike_requires_postId_witness :
  TopicsClient.togglePostLike (Samples.topics_env (Ok JNull)) (JStr "") tt
  = (Throw InvalidArgument_postId, tt, [])
  /\ TopicsClient.togglePostLike (Samples.topics_env (Ok JNull)) JUndefined tt
  = (Throw InvalidArgument_postId, tt, []).
Proof.
  split.
  - apply (togglePostLike_requires_postId (Samples.topics_env (Ok JNull))
             (JStr "")); reflexivity.
  - apply (togglePostLike_requires_postId (Samples.topics_env (Ok JNull))
             JUndefined); reflexivity.
Defined.

Lemma getTopicPosts_null_response_witness :
  TopicsClient.getTopicPosts (Samples.topics_env (Ok JNull)) (JStr "t1") tt
  = (Throw (Error "GET /api/topics/:id/posts failed: Cannot read properties of null (reading 'posts')"),
     tt, [TopicsClient.Fetch (GetTopicPosts (JStr "t1"))]).
Proof.
  apply (getTopicPosts_null_response (Samples.topics_env (Ok JNull)) (JStr "t1"));
    reflexivity.
Defined.

(** C6 as stated fails on an array: [[]] is not a JSON object, yet the call
    does not fail and reports [liked = false], [likes = 0]. *)
Lemma togglePostLike_array_response :
  is_json_object (JArr []) = false
  /\ TopicsClient.togglePostLike (Samples.topics_env (Ok (JArr []))) (JStr "p1") tt
     = (Ok {| TopicsClient.liked := false;
              TopicsClient.like_count := JNum 0;
              TopicsClient.post_id := JStr "p1" |},
        tt, [TopicsClient.Fetch (PostLike (JStr "p1"))])
  /\ ~ (exists e,
          fst (fst (TopicsClient.togglePostLike
                      (Samples.topics_env (Ok (JArr []))) (JStr "p1") tt))
          = Throw e).
Proof.
  split; [reflexivity|]. split; [reflexivity|].
  intros [e He]. vm_compute in He. discriminate.
Qed.

Lemma togglePostLike_response_witness :
  TopicsClient.togglePostLike (Samples.topics_env (Ok (JStr "ok"))) (JStr "p1") tt
  = (Throw InvalidResponse, tt, [TopicsClient.Fetch (PostLike (JStr "p1"))])
  /\ exists r,
       TopicsClient.togglePostLike
         (Samples.topics_env
            (Ok (Samples.obj [("liked", JBool true); ("likes", JNum 4)])))
         (JStr "p1") tt
       = (Ok r, tt, [TopicsClient.Fetch (PostLike (JStr "p1"))])
       /\ TopicsClient.liked r = true /\ TopicsClient.like_count r = JNum 4.
Proof.
  split.
  - apply (togglePostLike_response (Samples.topics_env (Ok (JStr "ok")))
             (JStr "p1") (JStr "ok")); reflexivity.
  - destruct (togglePostLike_response
                (Samples.topics_env
                   (Ok (Samples.obj [("liked", JBool true); ("likes", JNum 4)])))
                (JStr "p1")
                (Samples.obj [("liked", JBool true); ("likes", JNum 4)])
                eq_refl eq_refl) as [_ H].
    destruct (H eq_refl) as (r & Hr & Hl & Hn & _).
    exists r. split; [exact Hr|]. split.
    + apply Hl. reflexivity.
    + apply Hn. reflexivity.
Defined.


(** ** room-manager.js *)

(** *** The steps of a load *)

Section RoomManagerFacts.
Import RoomManager.
Context (env : Env).
Implicit Types st : State.

Lemma user_field_silent {A} (k : string) (f : User -> A) :
  silent (user_field env k f).
Proof.
  unfold user_field. destruct (currentUser env); [apply silent_ret|apply silent_throw].
Qed.

Lemma participant_photo_silent (uid_ info : JsVal) :
  silent (participant_photo env uid_ info).
Proof.
  unfold participant_photo.
  destruct (strict_equals uid_ (currentUid env)).
  - apply silent_bind; [apply user_field_silent|]. intros purl.
    apply silent_bind; [apply user_field_silent|]. intros ph.
    apply silent_ret.
  - destruct (truthy (js_or (field info "photo") JNull)); [apply silent_ret|].
    apply silent_try_catch; [|intros; apply silent_ret].
    apply silent_bind; [apply silent_lift|]. intros [data|]; [|apply silent_ret].
    apply silent_bind; [apply silent_lift|]. intros ph. apply silent_ret.
Qed.

Lemma participant_of_silent (infosMap : JsVal -> JsVal) (creator uid_ : JsVal) :
  silent (participant_of env infosMap creator uid_).
Proof.
  unfold participant_of. apply silent_try_catch.
  - apply silent_bind.
    { destruct (truthy (infosMap uid_)); [apply silent_ret|].
      apply silent_bind; [apply silent_lift|]. intros u.
      apply silent_bind; [apply silent_lift|]. intros dn. apply silent_ret. }
    intros info. apply silent_bind; [apply participant_photo_silent|].
    intros ph. apply silent_bind.
    { destruct (truthy (field info "displayName"));
        [apply silent_ret|apply silent_lift]. }
    intros nm. apply silent_ret.
  - intros e. apply silent_bind; [apply silent_lift|]. intros nm.
    apply silent_ret.
Qed.

(** Every entry built for a user id carries that id, and is the host
    exactly when the id is the creator's. *)
Lemma participant_of_returns (infosMap : JsVal -> JsVal) (creator uid_ : JsVal) :
  returns (participant_of env infosMap creator uid_)
    (fun p => id p = uid_ /\ isHost p = strict_equals creator uid_).
Proof.
  unfold participant_of. apply returns_try_catch.
  - apply returns_bind. intros info. apply returns_bind. intros ph.
    apply returns_bind. intros nm. apply returns_ret. done.
  - intros e. apply returns_bind. intros nm. apply returns_ret. done.
Qed.

(** A lookup that fails for one user never fails the entry of a user whose
    id is a string: the fallback record is built instead. *)
Lemma participant_of_total (infosMap : JsVal -> JsVal) (creator : JsVal)
    (s : string) :
  total (participant_of env infosMap creator (JStr s)).
Proof.
  unfold participant_of. apply total_try_catch. intros e.
  apply total_bind; [|intros; apply total_ret].
  intros st. eexists _, _, _. reflexivity.
Qed.

Lemma mapM_participants (infosMap : JsVal -> JsVal) (creator : JsVal)
    (uids : list JsVal) st :
  exists r,
    Eff.mapM (participant_of env infosMap creator) uids st = (r, st, [])
    /\ forall ps, r = Ok ps ->
         map id ps = uids
         /\ Forall (fun p => isHost p = strict_equals creator (id p)) ps.
Proof.
  destruct (silent_mapM (participant_of env infosMap creator) uids
              (participant_of_silent infosMap creator) st) as [r Hr].
  exists r. split; [exact Hr|]. intros ps ->.
  pose proof (mapM_ok (participant_of env infosMap creator)
                (fun u p => id p = u /\ isHost p = strict_equals creator u)
                (fun x st0 y st' t H =>
                   participant_of_returns infosMap creator x st0 y st' t H)
                uids st ps st [] Hr) as H2.
  clear Hr. induction H2 as [|u p us ps' [Hid Hh] _ [IH1 IH2]]; simpl.
  - split; constructor.
  - split; [by rewrite Hid, IH1|]. constructor; [by rewrite Hid|done].
Qed.

Lemma mapM_participants_strings (infosMap : JsVal -> JsVal) (creator : JsVal)
    (uids : list JsVal) st :
  Forall (fun u => exists s, u = JStr s) uids ->
  exists ps, Eff.mapM (participant_of env infosMap creator) uids st = (Ok ps, st, []).
Proof.
  intros Hs. induction Hs as [|u us [s ->] _ [ps IH]]; simpl.
  - eexists; reflexivity.
  - unfold Eff.bind.
    destruct (participant_of_total infosMap creator s st) as (p & st' & t & Hp).
    destruct (participant_of_silent infosMap creator (JStr s) st) as [r Hr].
    rewrite Hr in Hp. injection Hp as -> <- <-.
    rewrite Hr, IH. simpl. eexists; reflexivity.
Qed.

(** Rendering the list changes nothing in the view-model and sends
    nothing. *)
Lemma updateParticipantsList_run st :
  exists r t,
    updateParticipantsList env st = (r, st, t)
    /\ Forall (fun ev => is_fetch ev = false) t.
Proof.
  unfold updateParticipantsList.
  destruct (document_has env "participantsList"); simpl;
    [|eexists _, _; split; [reflexivity|constructor]].
  unfold Eff.bind at 1. unfold Eff.gets at 1. unfold Eff.bind at 1.
  destruct (silent_mapM (fun _ : Participant => user_field env "uid" uid)
              (participants st) (fun _ => user_field_silent "uid" uid) st)
    as [[us|e] ->]; simpl;
    [|eexists _, _; split; [reflexivity|constructor]].
  unfold Eff.bind, Eff.emit, Eff.ret.
  destruct (document_has env "participantCount"); simpl;
    eexists _, _; (split; [reflexivity|]); repeat constructor.
Qed.

Lemma swallowed (m : M unit) st (Q : State -> list Event -> Prop) :
  (exists r st' t, m st = (r, st', t) /\ Q st' t) ->
  exists st' t, Eff.try_catch m (fun _ => Eff.ret tt) st = (Ok tt, st', t) /\ Q st' t.
Proof.
  intros (r & st' & t & Hm & HQ). rewrite try_swallow, Hm. eauto.
Qed.

Lemma enriched_none st : enriched env st (set_participants [] st) [].
Proof. exists []. repeat split; constructor. Qed.

Ltac enrichment_abandoned :=
  eexists _, _, _; split; [reflexivity|apply enriched_none].

Lemma loadParticipantsInfo_run st :
  exists st' t,
    loadParticipantsInfo env st = (Ok tt, st', t) /\ enriched env st st' t.
Proof.
  unfold loadParticipantsInfo. apply swallowed.
  unfold Eff.bind at 1. unfold Eff.modify at 1. unfold Eff.bind at 1.
  unfold Eff.gets at 1. cbn [currentRoomData set_participants].
  destruct (room_participants (currentRoomData st)) as [| | | | |[|x l]|];
    try (unfold Eff.bind, Eff.lift, Eff.gets, Eff.modify;
         destruct (getUserDisplayInfo env (currentUid env)) as [selfInfo|e];
           [|enrichment_abandoned];
         destruct (get_prop selfInfo "displayName") as [dn|e];
           [|enrichment_abandoned];
         destruct (get_prop selfInfo "avatar") as [av|e];
           [|enrichment_abandoned];
         unfold user_field; destruct (currentUser env) as [u|];
           [|enrichment_abandoned];
         cbn [Eff.ret isOwner set_participants];
         match goal with
         | |- context [updateParticipantsList env ?s] =>
             destruct (updateParticipantsList_run s) as (r & t & -> & Ht)
         end;
         cbn [app];
         eexists _, _, _; (split; [reflexivity|]);
         eexists; (split; [reflexivity|]); (split; [exact Ht|]);
         (split; [simpl; split; [constructor|done]|]);
         intros Ho; constructor; [exact Ho|constructor]).
  set (uids := set_from [] (List.filter truthy (x :: l))).
  unfold Eff.bind, Eff.lift.
  destruct (getUserDisplayInfos env uids) as [[|infosMap]|e];
    try enrichment_abandoned.
  destruct (mapM_participants infosMap
              (field (raw (currentRoomData st)) "creator") uids
              (set_participants [] st))
    as (r & -> & Hr).
  destruct r as [ps|e];
    [|enrichment_abandoned].
  destruct (Hr ps eq_refl) as [Hids Hhost].
  unfold Eff.modify.
  match goal with
  | |- context [updateParticipantsList env ?s] =>
      destruct (updateParticipantsList_run s) as (r & t & -> & Ht)
  end.
  cbn [app].
  eexists _, _, _. split; [reflexivity|].
  exists ps. split; [reflexivity|]. split; [exact Ht|].
  split; [|intros _; exact Hhost].
  rewrite Hids. apply set_from_distinct. exact I.
Qed.
End RoomManagerFacts.

(** *** A load, end to end *)

Section LoadFacts.
Import RoomManager.
Context (env : Env).
Implicit Types st : State.

Lemma room_participants_fetched data u st l :
  field data "participants" = JArr l ->
  room_participants (currentRoomData (fetched data u st)) = JArr l
  /\ exists m, data = JObj m.
Proof.
  intros H. unfold room_participants. simpl.
  destruct data; simpl in *; try discriminate. eauto.
Qed.

(** A member is not joined again. *)
Lemma autoJoinRoom_member st l :
  room_participants (currentRoomData st) = JArr l ->
  existsb (strict_equals (currentUid env)) l = true ->
  autoJoinRoom env st = (Ok tt, st, []).
Proof.
  intros Hl Hin. unfold autoJoinRoom. rewrite try_swallow.
  unfold Eff.bind, Eff.gets, Eff.lift. rewrite Hl. simpl. rewrite Hin.
  reflexivity.
Qed.

(** Somebody who is not a member yet is joined with one request; whatever
    comes of it, the step completes, and the fetched record is kept as it
    was when the request fails. *)
Lemma autoJoinRoom_stranger st l m :
  raw (currentRoomData st) = JObj m ->
  room_participants (currentRoomData st) = JArr l ->
  existsb (strict_equals (currentUid env)) l = false ->
  exists st',
    autoJoinRoom env st = (Ok tt, st', [Fetch (join_request (JObj m))])
    /\ raw (currentRoomData st') = JObj m
    /\ isOwner st' = isOwner st
    /\ participants st' = participants st
    /\ isLoading st' = isLoading st
    /\ (forall e, postJsonWithAuth env (join_request (JObj m)) = Throw e ->
        st' = st).
Proof.
  intros Hraw Hl Hin. unfold autoJoinRoom. rewrite try_swallow.
  unfold Eff.bind, Eff.gets, Eff.lift, Eff.emit. rewrite Hl. simpl.
  rewrite Hin, Hraw. simpl. unfold join_request. simpl.
  destruct (postJsonWithAuth env _) as [resp|e] eqn:Ep; simpl.
  - destruct (get_prop resp "participantCount"); simpl.
    + unfold write_participants. rewrite Hraw. simpl.
      eexists. split; [reflexivity|]. simpl. repeat split; try done.
    + eexists. split; [reflexivity|]. repeat split; try done.
  - eexists. split; [reflexivity|]. repeat split; try done.
Qed.

(** The auto-join step never aborts a load: it always completes, and
    touches nothing but the membership list of the room record. *)
Lemma autoJoinRoom_run st :
  exists st' t,
    autoJoinRoom env st = (Ok tt, st', t)
    /\ raw (currentRoomData st') = raw (currentRoomData st)
    /\ isOwner st' = isOwner st
    /\ participants st' = participants st
    /\ isLoading st' = isLoading st.
Proof.
  unfold autoJoinRoom. rewrite try_swallow.
  unfold Eff.bind, Eff.gets, Eff.lift, Eff.emit, Eff.modify.
  destruct (includes _ _) as [[|]|e]; simpl;
    try (eexists _, _; split; [reflexivity|done]).
  destruct (get_prop (raw (currentRoomData st)) "_id") as [i|e]; simpl;
    try (eexists _, _; split; [reflexivity|done]).
  destruct (postJsonWithAuth env _) as [resp|e]; simpl;
    try (eexists _, _; split; [reflexivity|done]).
  destruct (get_prop resp "participantCount") as [c|e]; simpl;
    try (eexists _, _; split; [reflexivity|done]).
  destruct (spread _) as [l|e]; simpl;
    try (eexists _, _; split; [reflexivity|done]).
  destruct (write_participants _ _) as [d'|e] eqn:Ew; simpl;
    try (eexists _, _; split; [reflexivity|done]).
  eexists _, _; split; [reflexivity|]. simpl. repeat split.
  unfold write_participants in Ew.
  destruct (raw (currentRoomData st)); simpl in Ew; try discriminate;
    by injection Ew as <-.
Qed.

(** A load whose fetch brought a record runs the auto-join step, then the
    enrichment step, and returns the record. *)
Lemma loadRoomData_fetched (roomId : string) (data : JsVal) (u : User) st :
  url_room env = Some roomId -> roomId <> "" ->
  fetchJsonWithAuth env (GetRoom roomId) = Ok data ->
  truthy data = true ->
  currentUser env = Some u ->
  exists st2 t2 st3 t3,
    autoJoinRoom env (fetched data u st) = (Ok tt, st2, t2)
    /\ loadParticipantsInfo env st2 = (Ok tt, st3, t3)
    /\ loadRoomData env st
       = (Ok (currentRoomData st3), set_isLoading false st3,
          Fetch (GetRoom roomId) :: t2 ++ t3).
Proof.
  intros Hurl Hne Hfetch Htruthy Huser.
  destruct (autoJoinRoom_run (fetched data u st)) as (st2 & t2 & Hjoin & _).
  destruct (loadParticipantsInfo_run env st2) as (st3 & t3 & Hload & _).
  exists st2, t2, st3, t3. split; [exact Hjoin|]. split; [exact Hload|].
  unfold loadRoomData.
  unfold Eff.bind at 1. unfold Eff.modify at 1. unfold Eff.try_catch.
  unfold Eff.bind at 1. rewrite Hurl.
  apply String.eqb_neq in Hne. rewrite Hne.
  unfold Eff.ret at 1. unfold Eff.bind at 1. unfold Eff.emit at 1.
  unfold Eff.bind at 1. unfold Eff.lift at 1. rewrite Hfetch, Htruthy.
  cbn [negb]. unfold Eff.bind at 1. unfold Eff.modify at 1.
  unfold Eff.bind at 1. unfold user_field. rewrite Huser.
  unfold Eff.ret at 1. unfold Eff.bind at 1. unfold Eff.modify at 1.
  unfold Eff.bind at 1. fold (fetched data u st). rewrite Hjoin.
  unfold Eff.bind at 1. rewrite Hload.
  unfold Eff.bind, Eff.modify, Eff.gets. simpl.
  by rewrite app_nil_r.
Qed.

Lemma filter_no_fetch (t : list Event) :
  Forall (fun ev => is_fetch ev = false) t -> List.filter is_fetch t = [].
Proof.
  induction 1 as [|ev t Hev _ IH]; simpl; [done|]. by rewrite Hev.
Qed.

(** C7: when the fetched room record lists the current user among its
    participants, the load sends its GET and nothing else: no join
    request is made. *)
Theorem loadRoomData_member_not_joined
    (roomId : string) (data : JsVal) (u : User) (l : list JsVal) st :
  url_room env = Some roomId -> roomId <> "" ->
  fetchJsonWithAuth env (GetRoom roomId) = Ok data ->
  currentUser env = Some u ->
  field data "participants" = JArr l ->
  In (JStr (uid u)) l ->
  exists st' t,
    loadRoomData env st
    = (Ok {| raw := data; participants_written := None |}, st', t)
    /\ List.filter is_fetch t = [Fetch (GetRoom roomId)]
    /\ List.filter is_join t = [].
Proof.
  intros Hurl Hne Hfetch Huser Hl Hin.
  destruct (room_participants_fetched data u st l Hl) as [Hps [m ->]].
  destruct (loadRoomData_fetched roomId (JObj m) u st Hurl Hne Hfetch eq_refl Huser)
    as (st2 & t2 & st3 & t3 & Hjoin & Hload & Hrun).
  rewrite (autoJoinRoom_member _ l Hps) in Hjoin.
  2: { unfold currentUid. rewrite Huser. by apply in_strict_equals. }
  injection Hjoin as <- <-.
  destruct (loadParticipantsInfo_run env (fetched (JObj m) u st))
    as (st3' & t3' & Hload' & ps & -> & Hquiet & _).
  rewrite Hload in Hload'. injection Hload' as -> ->.
  eexists _, _. split; [exact Hrun|].
  simpl. rewrite (filter_no_fetch _ Hquiet). split; [reflexivity|].
  clear -Hquiet. induction Hquiet as [|ev t Hev _ IH]; simpl; [done|].
  destruct ev as [req| | | | |]; try done.
Qed.

(** C8: when a load fails for want of a room id in the URL, or because the
    fetch failed or brought nothing, the loading flag is cleared, the
    failure is shown through [window.showToast], a redirect to
    [study-rooms.html] is scheduled 2000 ms later, and the error is thrown
    again to the caller; the rest of the view-model is untouched. *)
Theorem loadRoomData_failure (err : JsError) (sent : list Event) st :
  LoadFailure env err sent ->
  loadRoomData env st
  = (Throw err, set_isLoading false st,
     sent
     ++ notification env ("Failed to load room: " +:+ message err) "error"
     ++ [SetTimeout (Redirect "study-rooms.html") 2000])
  /\ isLoading (set_isLoading false st) = false.
Proof.
  intros Hfail. split; [|reflexivity].
  unfold loadRoomData, notification, showToast.
  unfold Eff.bind at 1. unfold Eff.modify at 1. unfold Eff.try_catch.
  destruct Hfail as [Hurl|Hurl|roomId e Hurl Hne Hfetch
                    |roomId data Hurl Hne Hfetch Hdata].
  - unfold Eff.bind at 1. rewrite Hurl.
    unfold Eff.throw at 1. unfold Eff.bind, Eff.modify, Eff.emit, Eff.throw.
    destruct (showToast_defined env); reflexivity.
  - unfold Eff.bind at 1. rewrite Hurl. simpl String.eqb. cbn iota.
    unfold Eff.throw at 1. unfold Eff.bind, Eff.modify, Eff.emit, Eff.throw.
    destruct (showToast_defined env); reflexivity.
  - unfold Eff.bind at 1. rewrite Hurl.
    apply String.eqb_neq in Hne. rewrite Hne.
    unfold Eff.ret at 1. unfold Eff.bind at 1. unfold Eff.emit at 1.
    unfold Eff.bind at 1. unfold Eff.lift at 1. rewrite Hfetch.
    unfold Eff.bind, Eff.modify, Eff.emit, Eff.throw.
    destruct (showToast_defined env); reflexivity.
  - unfold Eff.bind at 1. rewrite Hurl.
    apply String.eqb_neq in Hne. rewrite Hne.
    unfold Eff.ret at 1. unfold Eff.bind at 1. unfold Eff.emit at 1.
    unfold Eff.bind at 1. unfold Eff.lift at 1. rewrite Hfetch, Hdata.
    cbn [negb]. unfold Eff.throw at 1.
    unfold Eff.bind, Eff.modify, Eff.emit, Eff.throw.
    destruct (showToast_defined env); reflexivity.
Qed.

(** C4, as the code has it: asked by somebody who is not the owner,
    kickParticipant does nothing, whatever the participant id: it asks no
    confirmation, sends no request and leaves the participant sequence and
    the rest of the view-model as they were.  It does not reject: the call
    returns normally and nothing is raised; the refusal is only shown, as
    the error notification "Only the room owner can remove participants.",
    and only on a page that defines [window.showToast]. *)
Theorem kickParticipant_not_owner (userId : JsVal) st :
  isOwner st = false ->
  exists t,
    kickParticipant env userId st = (Ok tt, st, t)
    /\ t = (if showToast_defined env
            then [Toast "Only the room owner can remove participants." "error"]
            else [])
    /\ List.filter is_fetch t = []
    /\ ~ In (Confirm confirm_kick) t.
Proof.
  intros Ho. unfold kickParticipant, showToast.
  unfold Eff.bind, Eff.gets. rewrite Ho. simpl.
  destruct (showToast_defined env); eexists; repeat split; try reflexivity.
  - intros [H|[]]. discriminate.
  - intros [].
Qed.

Lemma swallowed_run (m : M unit) st st' (t : list Event) (r : Result unit) :
  m st = (r, st', t) ->
  Eff.try_catch m (fun _ => Eff.ret tt) st = (Ok tt, st', t).
Proof. intros Hm. rewrite try_swallow, Hm. reflexivity. Qed.

(** A load that returns has found a room id, fetched a record and a
    signed-in user. *)
Lemma loadRoomData_ok_inv (r : RoomData) st st' (t : list Event) :
  loadRoomData env st = (Ok r, st', t) ->
  exists roomId data u,
    url_room env = Some roomId /\ roomId <> ""
    /\ fetchJsonWithAuth env (GetRoom roomId) = Ok data
    /\ truthy data = true
    /\ currentUser env = Some u.
Proof.
  unfold loadRoomData.
  unfold Eff.bind at 1. unfold Eff.modify at 1. unfold Eff.try_catch.
  assert (Hhandler : forall e s,
    (Eff.modify (set_isLoading false) ;;;
     showToast env ("Failed to load room: " +:+ message e) "error" ;;;
     Eff.emit (SetTimeout (Redirect "study-rooms.html") 2000) ;;;
     Eff.throw (A := RoomData) e)%eff s
    = (Throw e, set_isLoading false s,
       notification env ("Failed to load room: " +:+ message e) "error"
       ++ [SetTimeout (Redirect "study-rooms.html") 2000])).
  { intros e s. unfold showToast, notification, Eff.bind, Eff.modify,
      Eff.emit, Eff.throw.
    destruct (showToast_defined env); reflexivity. }
  unfold Eff.bind at 1.
  destruct (url_room env) as [roomId|] eqn:Hurl;
    [|unfold Eff.throw at 1; rewrite Hhandler; discriminate].
  destruct (String.eqb roomId "") eqn:Hne;
    [unfold Eff.throw at 1; rewrite Hhandler; discriminate|].
  unfold Eff.ret at 1. unfold Eff.bind at 1. unfold Eff.emit at 1.
  unfold Eff.bind at 1. unfold Eff.lift at 1.
  destruct (fetchJsonWithAuth env (GetRoom roomId)) as [data|e] eqn:Hfetch;
    [|rewrite Hhandler; discriminate].
  destruct (truthy data) eqn:Hdata;
    [|cbn [negb]; unfold Eff.throw at 1; rewrite Hhandler; discriminate].
  cbn [negb]. unfold Eff.bind at 1. unfold Eff.modify at 1.
  unfold Eff.bind at 1. unfold user_field.
  destruct (currentUser env) as [u|] eqn:Huser;
    [|unfold Eff.throw at 1; rewrite Hhandler; discriminate].
  intros _. exists roomId, data, u.
  apply String.eqb_neq in Hne. done.
Qed.

(** When the room record lists participants and the batch lookup answers,
    one entry is built per distinct user id, in order. *)
Lemma loadParticipantsInfo_all st (x : JsVal) (l : list JsVal)
    (infosMap : JsVal -> JsVal) :
  room_participants (currentRoomData st) = JArr (x :: l) ->
  Forall (fun v => exists s, v = JStr s) (x :: l) ->
  getUserDisplayInfos env (set_from [] (List.filter truthy (x :: l)))
  = Ok (Infos infosMap) ->
  exists ps t,
    loadParticipantsInfo env st = (Ok tt, set_participants ps st, t)
    /\ map id ps = set_from [] (List.filter truthy (x :: l))
    /\ Forall (fun p =>
                 isHost p
                 = strict_equals (field (raw (currentRoomData st)) "creator") (id p))
              ps.
Proof.
  intros Hps Hstr Hinfos.
  set (uids := set_from [] (List.filter truthy (x :: l))) in *.
  assert (Huids : Forall (fun v => exists s, v = JStr s) uids).
  { assert (Hsub : forall acc l0,
              Forall (fun v => exists s, v = JStr s) acc ->
              Forall (fun v => exists s, v = JStr s) l0 ->
              Forall (fun v => exists s, v = JStr s) (set_from acc l0)).
    { intros acc l0. revert acc.
      induction l0 as [|y l0 IH]; simpl; intros acc Ha Hl0; [done|].
      apply Forall_cons in Hl0 as [Hy Hl0]. apply IH; [|done].
      destruct (existsb _ acc); [done|].
      apply Forall_app. split; [done|]. by constructor. }
    apply Hsub; [constructor|].
    clear -Hstr. induction Hstr as [|y l0 Hy _ IH]; simpl; [constructor|].
    destruct (truthy y); [by constructor|done]. }
  destruct (mapM_participants_strings env infosMap
              (field (raw (currentRoomData st)) "creator") uids
              (set_participants [] st) Huids) as [ps Hmap].
  destruct (mapM_participants env infosMap
              (field (raw (currentRoomData st)) "creator") uids
              (set_participants [] st)) as (r & Hr & Hprops).
  rewrite Hmap in Hr. injection Hr as <-.
  destruct (Hprops ps eq_refl) as [Hids Hhost].
  destruct (updateParticipantsList_run env
              (set_participants ps (set_participants [] st)))
    as (r & t & Hrender & _).
  exists ps, t. split; [|done].
  unfold loadParticipantsInfo. apply (swallowed_run _ _ _ _ r).
  unfold Eff.bind at 1. unfold Eff.modify at 1. unfold Eff.bind at 1.
  unfold Eff.gets at 1. cbn [currentRoomData set_participants].
  rewrite Hps. unfold Eff.bind at 1. unfold Eff.lift at 1.
  fold uids. rewrite Hinfos.
  unfold Eff.bind at 1. rewrite Hmap.
  unfold Eff.bind at 1. unfold Eff.modify at 1.
  rewrite Hrender. reflexivity.
Qed.

End LoadFacts.

Lemma loadRoomData_member_not_joined_witness :
  exists st' t,
    RoomManager.loadRoomData
      (Samples.room_env (Some "r1") (Ok Samples.room_u1_u2) (Ok JNull) "u1")
      RoomManager.constructed
    = (Ok {| RoomManager.raw := Samples.room_u1_u2;
             RoomManager.participants_written := None |}, st', t)
    /\ List.filter is_fetch t = [RoomManager.Fetch (GetRoom "r1")]
    /\ List.filter is_join t = [].
Proof.
  apply (loadRoomData_member_not_joined
           (Samples.room_env (Some "r1") (Ok Samples.room_u1_u2) (Ok JNull) "u1")
           "r1" Samples.room_u1_u2 (Samples.user "u1") [JStr "u1"; JStr "u2"]
           RoomManager.constructed);
    [reflexivity|discriminate|reflexivity|reflexivity|reflexivity|simpl; auto].
Defined.

Lemma loadRoomData_failure_witness :
  RoomManager.loadRoomData
    (Samples.room_env None (Ok Samples.room_u1_u2) (Ok JNull) "u1")
    RoomManager.constructed
  = (Throw (Error "Room ID not found in URL"),
     RoomManager.set_isLoading false RoomManager.constructed,
     [RoomManager.Toast "Failed to load room: Room ID not found in URL" "error";
      RoomManager.SetTimeout (RoomManager.Redirect "study-rooms.html") 2000])
  /\ RoomManager.loadRoomData
       (Samples.room_env (Some "r1") (Throw (Samples.http_error 404 "Not Found"))
          (Ok JNull) "u1")
       RoomManager.constructed
     = (Throw (Samples.http_error 404 "Not Found"),
        RoomManager.set_isLoading false RoomManager.constructed,
        [RoomManager.Fetch (GetRoom "r1");
         RoomManager.Toast "Failed to load room: Not Found" "error";
         RoomManager.SetTimeout (RoomManager.Redirect "study-rooms.html") 2000]).
Proof.
  split.
  - apply (loadRoomData_failure
             (Samples.room_env None (Ok Samples.room_u1_u2) (Ok JNull) "u1")
             (Error "Room ID not found in URL") [] RoomManager.constructed).
    apply NoRoomParam. reflexivity.
  - apply (loadRoomData_failure
             (Samples.room_env (Some "r1")
                (Throw (Samples.http_error 404 "Not Found")) (Ok JNull) "u1")
             (Samples.http_error 404 "Not Found")
             [RoomManager.Fetch (GetRoom "r1")] RoomManager.constructed).
    apply (FetchFailed _ "r1"); [reflexivity|discriminate|reflexivity].
Defined.

Lemma kickParticipant_not_owner_witness :
  RoomManager.kickParticipant
    (Samples.room_env (Some "r1") (Ok Samples.room_u1_u2) (Ok JNull) "u2")
    (JStr "u1") RoomManager.constructed
  = (Ok tt, RoomManager.constructed,
     [RoomManager.Toast "Only the room owner can remove participants." "error"]).
Proof.
  destruct (kickParticipant_not_owner
              (Samples.room_env (Some "r1") (Ok Samples.room_u1_u2) (Ok JNull) "u2")
              (JStr "u1") RoomManager.constructed eq_refl)
    as (t & Hrun & Ht & _).
  rewrite Hrun, Ht. reflexivity.
Defined.

(** C4 as stated fails: the call of a non-owner is not rejected.  It
    returns normally, and on a page without [window.showToast] it leaves no
    trace at all. *)
Lemma kickParticipant_not_owner_resolves :
  RoomManager.isOwner (MoreSamples.loaded Samples.room_u1_u2 false MoreSamples.u1_u2)
  = false
  /\ RoomManager.kickParticipant (MoreSamples.bare_page "u2") (JStr "u1")
       (MoreSamples.loaded Samples.room_u1_u2 false MoreSamples.u1_u2)
     = (Ok tt, MoreSamples.loaded Samples.room_u1_u2 false MoreSamples.u1_u2, [])
  /\ ~ (exists e,
          fst (fst (RoomManager.kickParticipant (MoreSamples.bare_page "u2")
                      (JStr "u1")
                      (MoreSamples.loaded Samples.room_u1_u2 false
                         MoreSamples.u1_u2)))
          = Throw e).
Proof.
  split; [reflexivity|]. split; [reflexivity|].
  intros [e He]. vm_compute in He. discriminate.
Qed.

(** ** profile.js *)

Section RegexFacts.
Import Profile.

Lemma Matches_nil_nullable (r : Regex) (s : string) :
  Matches r s -> s = "" -> nullable r = true.
Proof.
  induction 1 as [|c|items c Hc|r1 r2 s H IH|r1 r2 s H IH
                 |r1 r2 s1 s2 H1 IH1 H2 IH2|r|r s1 s2 H1 IH1 H2 IH2];
    simpl; intros Hs; try done.
  - by rewrite IH.
  - rewrite IH; [|done]. apply orb_true_r.
  - apply append_eq_nil in Hs as [-> ->]. by rewrite IH1, IH2.
Qed.

Lemma nullable_Matches (r : Regex) : nullable r = true <-> Matches r "".
Proof.
  split; [|intros H; by eapply Matches_nil_nullable].
  induction r as [| |c|items|r1 IH1 r2 IH2|r1 IH1 r2 IH2|r IH]; simpl;
    try discriminate.
  - intros _. constructor.
  - intros [H|H]%orb_true_iff; [apply MAltL|apply MAltR]; auto.
  - intros [H1 H2]%andb_true_iff.
    change "" with ("" +:+ ""). constructor; auto.
  - intros _. constructor.
Qed.

Lemma deriv_sound (c : ascii) (r : Regex) :
  forall s, Matches (deriv c r) s -> Matches r (String c s).
Proof.
  induction r as [| |d|items|r1 IH1 r2 IH2|r1 IH1 r2 IH2|r IH]; simpl; intros s H.
  - inversion H.
  - inversion H.
  - destruct (Ascii.eqb c d) eqn:E; inversion H; subst.
    apply Ascii.eqb_eq in E as ->. constructor.
  - destruct (not_in items c) eqn:E; inversion H; subst. by constructor.
  - inversion H; subst; [apply MAltL|apply MAltR]; auto.
  - destruct (nullable r1) eqn:En.
    + inversion H as [| | |? ? ? H'|? ? ? H'| | |]; subst.
      * inversion H' as [| | | | |? ? s1 s2 Ha Hb| |]; subst.
        change (String c (s1 +:+ s2)) with (String c s1 +:+ s2).
        constructor; auto.
      * change (String c s) with ("" +:+ String c s).
        constructor; [by apply nullable_Matches|auto].
    + inversion H as [| | | | |? ? s1 s2 Ha Hb| |]; subst.
      change (String c (s1 +:+ s2)) with (String c s1 +:+ s2).
      constructor; auto.
  - inversion H as [| | | | |? ? s1 s2 Ha Hb| |]; subst.
    change (String c (s1 +:+ s2)) with (String c s1 +:+ s2).
    apply MStarS; auto.
Qed.

Lemma deriv_complete (r : Regex) (s0 : string) :
  Matches r s0 -> forall c s, s0 = String c s -> Matches (deriv c r) s.
Proof.
  induction 1 as [|d|items d Hd|r1 r2 s0 H IH|r1 r2 s0 H IH
                 |r1 r2 s1 s2 H1 IH1 H2 IH2|r|r s1 s2 H1 IH1 H2 IH2];
    intros c s Hs; simpl.
  - discriminate.
  - injection Hs as -> <-. rewrite Ascii.eqb_refl. constructor.
  - injection Hs as -> <-. rewrite Hd. constructor.
  - apply MAltL. eauto.
  - apply MAltR. eauto.
  - apply append_eq_cons in Hs as [[-> ->]|(s1' & -> & ->)].
    + rewrite (Matches_nil_nullable r1 "" H1 eq_refl). apply MAltR. eauto.
    + destruct (nullable r1); [apply MAltL|]; constructor; eauto.
  - discriminate.
  - apply append_eq_cons in Hs as [[-> ->]|(s1' & -> & ->)].
    + eauto.
    + constructor; eauto.
Qed.

(** The matcher decides the language of the expression. *)
Lemma test_Matches (r : Regex) (s : string) : test r s = true <-> Matches r s.
Proof.
  revert r. induction s as [|c s IH]; intros r; simpl.
  - apply nullable_Matches.
  - rewrite IH. split; [apply deriv_sound|].
    intros H. by eapply deriv_complete.
Qed.
End RegexFacts.

Section EmailFacts.
Import Profile.

Lemma Matches_seq (r1 r2 : Regex) (s : string) :
  Matches (Seq r1 r2) s <->
  exists s1 s2, s = s1 +:+ s2 /\ Matches r1 s1 /\ Matches r2 s2.
Proof.
  split.
  - intros H. inversion H; subst. eauto.
  - intros (s1 & s2 & -> & H1 & H2). by constructor.
Qed.

Lemma Matches_lit (c : ascii) (s : string) :
  Matches (Lit c) s <-> s = String c "".
Proof.
  split.
  - intros H. by inversion H.
  - intros ->. constructor.
Qed.

Lemma Matches_class (items : list ClassItem) (s : string) :
  Matches (NotIn items) s <-> exists c, s = String c "" /\ not_in items c = true.
Proof.
  split.
  - intros H. inversion H; subst. eauto.
  - intros (c & -> & Hc). by constructor.
Qed.

Lemma Matches_star_class (items : list ClassItem) (s : string) :
  Matches (Star (NotIn items)) s <->
  forall ch, In ch (list_ascii_of_string s) -> not_in items ch = true.
Proof.
  split.
  - intros H. remember (Star (NotIn items)) as r eqn:Er.
    induction H as [| | | | | | |r s1 s2 H1 _ H2 IH2]; try discriminate.
    + intros ch [].
    + injection Er as ->. apply Matches_class in H1 as (c & -> & Hc).
      rewrite append_cons. simpl. intros ch [<-|Hin]; [done|].
      by apply IH2.
  - induction s as [|c s IH]; simpl; intros H; [constructor|].
    change (String c s) with (String c "" +:+ s).
    apply MStarS; [|by auto].
    constructor. auto.
Qed.

Lemma not_space_or_at_spec (ch : ascii) :
  not_in [Space; Chr "@"%char] ch = true <->
  is_space ch = false /\ ch <> "@"%char.
Proof.
  unfold not_in. simpl. rewrite orb_false_r, negb_true_iff, orb_false_iff.
  by rewrite Ascii.eqb_neq.
Qed.

Lemma Matches_plain (s : string) :
  Matches (Plus not_space_or_at) s <-> plain_part s.
Proof.
  unfold Plus, not_space_or_at, plain_part. rewrite Matches_seq. split.
  - intros (s1 & s2 & -> & (c & -> & Hc)%Matches_class & H2).
    rewrite append_cons. split; [discriminate|].
    simpl. intros ch [<-|Hin]; apply not_space_or_at_spec; [done|].
    rewrite Matches_star_class in H2. by apply H2.
  - intros [Hne Hall]. destruct s as [|c s]; [done|].
    exists (String c ""), s. split; [reflexivity|]. split.
    + constructor. apply not_space_or_at_spec, Hall. by left.
    + apply Matches_star_class. intros ch Hin.
      apply not_space_or_at_spec, Hall. by right.
Qed.

(** The expression of [validateEmail] accepts the addresses made of one
    "@" between plain parts, the part after it holding a dot. *)
Lemma email_regex_spec (email : string) :
  test email_regex email = true <-> one_at_dotted_domain email.
Proof.
  rewrite test_Matches. unfold email_regex, one_at_dotted_domain.
  rewrite Matches_seq. split.
  - intros (a & s1 & -> & Ha%Matches_plain & H1).
    apply Matches_seq in H1 as (at_ & s2 & -> & ->%Matches_lit & H2).
    apply Matches_seq in H2 as (b & s3 & -> & Hb%Matches_plain & H3).
    apply Matches_seq in H3 as (dot & c & -> & ->%Matches_lit & Hc%Matches_plain).
    exists a, b, c. done.
  - intros (a & b & c & -> & Ha & Hb & Hc).
    exists a, ("@" +:+ b +:+ "." +:+ c). split; [done|].
    split; [by apply Matches_plain|].
    apply Matches_seq. exists "@", (b +:+ "." +:+ c).
    split; [done|]. split; [constructor|].
    apply Matches_seq. exists b, ("." +:+ c).
    split; [done|]. split; [by apply Matches_plain|].
    apply Matches_seq. exists ".", c.
    split; [done|]. split; [constructor|by apply Matches_plain].
Qed.

Lemma validateEmail_valid (email : string) :
  valid (validateEmail email) = true <->
  test email_regex email = true
  /\ endsWith (toLowerCase email) college_domain = true.
Proof.
  unfold validateEmail.
  destruct (test email_regex email); simpl; [|split; [done|by intros []]].
  destruct (endsWith (toLowerCase email) college_domain); simpl;
    split; try done. by intros [].
Qed.

Lemma validateField_email (doc : Document) (req : bool) (v : string) :
  trim v <> "" ->
  valid (validateEmail (trim v)) = false ->
  fst (validateField doc
         {| field_id := "editEmail"; required := req; value := v |}) = false.
Proof.
  intros Hne Hbad. unfold validateField. cbn [field_id required value].
  apply String.eqb_neq in Hne. rewrite Hne, Hbad, andb_false_r.
  reflexivity.
Qed.

Lemma validate_each_failed (ids : list string) (doc : Document) :
  fst (validate_each doc ids false) = false.
Proof.
  revert doc. induction ids as [|i ids IH]; intros doc; simpl; [done|].
  destruct (getElementById doc i) as [f|]; [|apply IH].
  destruct (validateField doc f) as [v eff]. rewrite andb_false_r.
  match goal with |- context [validate_each ?d ids false] =>
    specialize (IH d); destruct (validate_each d ids false) end.
  exact IH.
Qed.

Lemma validate_each_email (ids : list string) (doc : Document)
    (req ok : bool) (v : string) :
  In "editEmail" ids ->
  inputs doc !! "editEmail" = Some (req, v) ->
  trim v <> "" ->
  valid (validateEmail (trim v)) = false ->
  fst (validate_each doc ids ok) = false.
Proof.
  intros Hin Hdoc Hne Hbad. revert doc ok Hdoc.
  induction ids as [|i ids IH]; intros doc ok Hdoc; [destruct Hin|].
  simpl. destruct (decide (i = "editEmail")) as [->|Hi].
  - unfold getElementById. rewrite Hdoc. simpl.
    pose proof (validateField_email doc req v Hne Hbad) as Hf.
    destruct (validateField doc _) as [b eff]. simpl in Hf. subst b.
    simpl.
    match goal with |- context [validate_each ?d ids false] =>
      pose proof (validate_each_failed ids d) as Hr;
      destruct (validate_each d ids false) end.
    exact Hr.
  - destruct Hin as [Hin|Hin]; [done|].
    destruct (getElementById doc i) as [f|]; [|by apply IH].
    destruct (validateField doc f) as [b eff].
    match goal with |- context [validate_each ?d ids ?o] =>
      specialize (IH Hin d o Hdoc); destruct (validate_each d ids o) end.
    exact IH.
Qed.

(** C10: validateEmail accepts an address exactly when it has the basic
    shape (one "@" between parts free of white space, a dot inside the
    part after it) and, in lower case, ends with
    "@paterostechnologicalcollege.edu.ph"; every other string is refused
    with a message; and a form whose e-mail field holds an address outside
    that domain does not pass validateAllFields. *)
Theorem validateEmail_college_only :
  (forall email : string,
      valid (validateEmail email) = true <->
      one_at_dotted_domain email
      /\ endsWith (toLowerCase email) college_domain = true)
  /\ (forall email : string,
        valid (validateEmail email) = false ->
        message (validateEmail email) <> "")
  /\ (forall (doc : Document) (req : bool) (v : string),
        inputs doc !! "editEmail" = Some (req, v) ->
        trim v <> "" ->
        endsWith (toLowerCase (trim v)) college_domain = false ->
        fst (validateAllFields doc) = false).
Proof.
  split; [|split].
  - intros email. by rewrite validateEmail_valid, email_regex_spec.
  - intros email. unfold validateEmail.
    destruct (test email_regex email); simpl; [|discriminate].
    destruct (endsWith (toLowerCase email) college_domain); simpl; discriminate.
  - intros doc req v Hdoc Hne Hout. unfold validateAllFields.
    apply (validate_each_email requiredFields doc req true v); try done.
    + simpl. auto.
    + destruct (valid (validateEmail (trim v))) eqn:E; [|done].
      apply validateEmail_valid in E as [_ E]. congruence.
Qed.
End EmailFacts.

Lemma validateEmail_college_only_witness :
  Profile.valid (Profile.validateEmail "juan@paterostechnologicalcollege.edu.ph") = true
  /\ Profile.message (Profile.validateEmail "juan@gmail.com") <> ""
  /\ fst (Profile.validateAllFields (Samples.form_with_email " juan@gmail.com ")) = false.
Proof.
  destruct validateEmail_college_only as (Hiff & Hmsg & Hform).
  split; [|split].
  - apply Hiff. split; [|reflexivity].
    exists "juan", "paterostechnologicalcollege.edu", "ph".
    split; [reflexivity|].
    repeat split; try discriminate;
      simpl in *; intuition (subst; try reflexivity; discriminate).
  - apply Hmsg. reflexivity.
  - apply (Hform (Samples.form_with_email " juan@gmail.com ") true " juan@gmail.com ");
      [reflexivity|discriminate|reflexivity].
Defined.

(** * Further properties of the code *)

(** ** topicsClient.js: what getTopicPosts and togglePostLike hand back *)

Section PostsFacts.
Import TopicsClient.
Context (env : Env).

(** The records kept from a list are as many as its entries of type
    object. *)
Lemma normalize_posts_length (l : list JsVal) :
  length (normalize_posts env l) = length (List.filter is_js_object l).
Proof.
  unfold normalize_posts.
  destruct (normalize_posts_from_fields env 0 l) as [Hids _].
  rewrite <- (length_map id), Hids. apply length_map.
Qed.

(** What getTopicPosts does with an answer that is neither [null] nor
    missing. *)
Lemma getTopicPosts_run (topicId resp : JsVal) :
  truthy topicId = true ->
  fetchJsonWithAuth env (GetTopicPosts topicId) = Ok resp ->
  resp <> JNull -> resp <> JUndefined ->
  getTopicPosts env topicId tt
  = (Ok (normalize_posts env
           (posts_array resp
              (if isArray resp then resp else js_or (field resp "posts") resp))),
     tt, [Fetch (GetTopicPosts topicId)]).
Proof.
  intros Ht Hf Hn Hu.
  unfold getTopicPosts, Eff.try_catch, Eff.bind, Eff.emit, Eff.lift.
  rewrite Ht, Hf. simpl.
  unfold normalize_response, extract_posts.
  destruct resp; simpl; try congruence; reflexivity.
Qed.

(** X22: whatever the server sent, a list of posts that getTopicPosts
    returns was obtained with exactly one GET, for a topic id that was
    given, and every record in it has a number as likes; from an answer that
    is a list, or that wraps one as {posts: [...]}, the entries of type
    object are kept, one record each, and the others are dropped. *)
Theorem getTopicPosts_records (topicId : JsVal) (ps : list Post)
    (t : list Event) :
  getTopicPosts env topicId tt = (Ok ps, tt, t) ->
  truthy topicId = true
  /\ t = [Fetch (GetTopicPosts topicId)]
  /\ Forall (fun r => exists n, likes r = JNum n) ps
  /\ (forall resp l,
        fetchJsonWithAuth env (GetTopicPosts topicId) = Ok resp ->
        resp = JArr l \/ (isArray resp = false /\ field resp "posts" = JArr l) ->
        ps = normalize_posts env l
        /\ length ps = length (List.filter is_js_object l)).
Proof.
  unfold getTopicPosts.
  destruct (truthy topicId) eqn:Ht; simpl; [|discriminate].
  unfold Eff.try_catch, Eff.bind, Eff.emit, Eff.lift, Eff.throw. simpl.
  destruct (fetchJsonWithAuth env (GetTopicPosts topicId)) as [resp|e] eqn:Hf;
    simpl; [|discriminate].
  destruct (normalize_response env resp) as [ps'|e] eqn:Hn; simpl; [|discriminate].
  intros [= -> <-]. split; [done|]. split; [done|].
  unfold normalize_response in Hn.
  destruct (extract_posts resp) as [posts|e] eqn:He; [|discriminate].
  injection Hn as <-. split.
  - apply Forall_forall. intros r Hr. apply list_elem_of_In in Hr.
    apply normalize_posts_sound in Hr as (p & k & _ & _ & Hp).
    by destruct (normalize_post_likes env k p r Hp) as [Hnum _].
  - intros resp' l [= <-] Hshape.
    assert (Hl : posts_array resp posts = l).
    { unfold extract_posts in He.
      destruct Hshape as [-> | [Harr Hposts]].
      - simpl in He. by injection He as <-.
      - rewrite Harr in He.
        destruct resp; simpl in *; try discriminate.
        rewrite Hposts in He. by injection He as <-. }
    rewrite Hl. split; [done|]. apply normalize_posts_length.
Qed.

(** X23: an answer that is not a list and wraps none is not refused: a
    single object is taken for the one post of the topic, even when it is
    an envelope whose [posts] field is no list, and a boolean, a number or a
    string gives the empty list. *)
Theorem getTopicPosts_not_a_list (topicId resp : JsVal) :
  truthy topicId = true ->
  fetchJsonWithAuth env (GetTopicPosts topicId) = Ok resp ->
  defined resp ->
  isArray resp = false -> isArray (field resp "posts") = false ->
  (is_json_object resp = true ->
   exists r,
     normalize_post env resp = Some r
     /\ getTopicPosts env topicId tt
        = (Ok [r], tt, [Fetch (GetTopicPosts topicId)]))
  /\ (is_json_object resp = false ->
      getTopicPosts env topicId tt = (Ok [], tt, [Fetch (GetTopicPosts topicId)])).
Proof.
  intros Ht Hf [Hu Hn] Harr Hposts.
  rewrite (getTopicPosts_run topicId resp Ht Hf Hn Hu). rewrite Harr.
  destruct resp as [| |b|n|s|l|m]; simpl in *; try congruence.
  - split; [discriminate|]. intros _. by destruct b.
  - split; [discriminate|]. intros _. by destruct (n =? 0).
  - split; [discriminate|]. intros _. by destruct (String.eqb s "").
  - split; [|discriminate]. intros _.
    set (posts := default JUndefined (m !! "posts")) in *.
    assert (Hwrap : posts_array (JObj m) (js_or posts (JObj m)) = [JObj m]).
    { unfold js_or. destruct (truthy posts); [|reflexivity].
      destruct posts; simpl in *; try reflexivity. discriminate. }
    rewrite Hwrap. unfold normalize_posts.
    change (normalize_posts_from env 0 [JObj m])
      with (match normalize_post env (JObj m) with Some r => [r] | None => [] end).
    destruct (normalize_post env (JObj m)) as [r|] eqn:Hr.
    + exists r. by split.
    + pose proof (normalize_post_kept env 0 (JObj m)) as [_ Hkept].
      destruct (Hkept eq_refl) as [r' Hr']. unfold normalize_post in Hr.
      congruence.
Qed.

(** X24: a request that fails makes both functions throw an error whose
    message is the message of the failure behind the prefix of the
    function; togglePostLike hands on the HTTP status of the failure,
    getTopicPosts drops it; neither sends a second request. *)
Theorem topics_failures_prefixed (i : JsVal) (e : JsError) :
  truthy i = true ->
  (fetchJsonWithAuth env (GetTopicPosts i) = Throw e ->
   getTopicPosts env i tt
   = (Throw (MkError ("GET /api/topics/:id/posts failed: " +:+ message e) None),
      tt, [Fetch (GetTopicPosts i)]))
  /\ (postJsonWithAuth env (PostLike i) = Throw e ->
      (forall code, status e = Some code -> code <> 0 ->
         togglePostLike env i tt
         = (Throw (MkError ("Toggle like failed: " +:+ message e) (Some code)),
            tt, [Fetch (PostLike i)]))
      /\ (status e = None ->
          togglePostLike env i tt
          = (Throw (MkError ("Toggle like failed: " +:+ message e) None),
             tt, [Fetch (PostLike i)]))).
Proof.
  intros Ht. split.
  - intros Hf.
    unfold getTopicPosts, Eff.try_catch, Eff.bind, Eff.emit, Eff.lift, Eff.throw.
    rewrite Ht, Hf. reflexivity.
  - intros Hp.
    unfold togglePostLike, Eff.try_catch, Eff.bind, Eff.emit, Eff.lift, Eff.throw.
    rewrite Ht, Hp. simpl. split.
    + intros code -> Hcode.
      destruct (code =? 0) eqn:E; [apply Z.eqb_eq in E; contradiction|reflexivity].
    + intros ->. reflexivity.
Qed.
End PostsFacts.

Lemma getTopicPosts_records_witness :
  Forall (fun r => exists n, TopicsClient.likes r = JNum n)
    [defaults_only (Samples.topics_env (Ok Samples.posts_payload)) 0 (JStr "p1");
     defaults_only (Samples.topics_env (Ok Samples.posts_payload)) 2 (JStr "p2")]
  /\ length
       [defaults_only (Samples.topics_env (Ok Samples.posts_payload)) 0 (JStr "p1");
        defaults_only (Samples.topics_env (Ok Samples.posts_payload)) 2 (JStr "p2")]
     = length
         (List.filter is_js_object
            [Samples.obj [("id", JStr "p1")]; JStr "bad";
             Samples.obj [("id", JStr "p2"); ("likes", JStr "3")]]).
Proof.
  destruct (getTopicPosts_records (Samples.topics_env (Ok Samples.posts_payload))
              (JStr "t1")
              [defaults_only (Samples.topics_env (Ok Samples.posts_payload)) 0 (JStr "p1");
               defaults_only (Samples.topics_env (Ok Samples.posts_payload)) 2 (JStr "p2")]
              [TopicsClient.Fetch (GetTopicPosts (JStr "t1"))] eq_refl)
    as (_ & _ & Hlikes & Hkept).
  split; [exact Hlikes|].
  destruct (Hkept Samples.posts_payload
              [Samples.obj [("id", JStr "p1")]; JStr "bad";
               Samples.obj [("id", JStr "p2"); ("likes", JStr "3")]]
              eq_refl (or_intror (conj eq_refl eq_refl))) as [_ Hlen].
  exact Hlen.
Defined.

Lemma getTopicPosts_not_a_list_witness :
  (exists r,
     TopicsClient.getTopicPosts
       (Samples.topics_env
          (Ok (Samples.obj [("id", JStr "p1"); ("posts", JStr "none")])))
       (JStr "t1") tt
     = (Ok [r], tt, [TopicsClient.Fetch (GetTopicPosts (JStr "t1"))]))
  /\ TopicsClient.getTopicPosts (Samples.topics_env (Ok (JStr "ok"))) (JStr "t1") tt
     = (Ok [], tt, [TopicsClient.Fetch (GetTopicPosts (JStr "t1"))]).
Proof.
  split.
  - destruct (getTopicPosts_not_a_list
                (Samples.topics_env
                   (Ok (Samples.obj [("id", JStr "p1"); ("posts", JStr "none")])))
                (JStr "t1")
                (Samples.obj [("id", JStr "p1"); ("posts", JStr "none")])
                eq_refl eq_refl ltac:(split; discriminate) eq_refl eq_refl)
      as [Hobject _].
    destruct (Hobject eq_refl) as (r & _ & Hrun).
    exists r. exact Hrun.
  - destruct (getTopicPosts_not_a_list (Samples.topics_env (Ok (JStr "ok")))
                (JStr "t1") (JStr "ok")
                eq_refl eq_refl ltac:(split; discriminate) eq_refl eq_refl)
      as [_ Hprimitive].
    apply Hprimitive. reflexivity.
Defined.

Lemma topics_failures_prefixed_witness :
  TopicsClient.getTopicPosts
    (Samples.topics_env (Throw (Samples.http_error 403 "Forbidden"))) (JStr "t1") tt
  = (Throw (MkError "GET /api/topics/:id/posts failed: Forbidden" None), tt,
     [TopicsClient.Fetch (GetTopicPosts (JStr "t1"))])
  /\ TopicsClient.togglePostLike
       (Samples.topics_env (Throw (Samples.http_error 403 "Forbidden")))
       (JStr "t1") tt
     = (Throw (MkError "Toggle like failed: Forbidden" (Some 403)), tt,
        [TopicsClient.Fetch (PostLike (JStr "t1"))]).
Proof.
  destruct (topics_failures_prefixed
              (Samples.topics_env (Throw (Samples.http_error 403 "Forbidden")))
              (JStr "t1") (Samples.http_error 403 "Forbidden") eq_refl)
    as [Hposts Hlike].
  split.
  - etransitivity; [apply Hposts; reflexivity|reflexivity].
  - destruct (Hlike eq_refl) as [Hstatus _].
    etransitivity; [apply (Hstatus 403); [reflexivity|discriminate]|reflexivity].
Defined.

(** ** room-manager.js: removing a participant *)

Section KickFacts.
Import RoomManager.
Context (env : Env).
Implicit Types st : State.

(** X1: kickParticipant never raises to its caller and sends at most one
    request; the view-model is left exactly as it was unless the caller is
    the owner, confirmed, and the DELETE succeeded, in which case only the
    entries with that id are taken out of the participant sequence. *)
Theorem kickParticipant_safe (userId : JsVal) st :
  exists st' t,
    kickParticipant env userId st = (Ok tt, st', t)
    /\ (length (List.filter is_fetch t) <= 1)%nat
    /\ (st' = st
        \/ (isOwner st = true
            /\ confirm env confirm_kick = true
            /\ (exists roomId v,
                  fetchJsonWithAuth env (DeleteParticipant roomId userId) = Ok v)
            /\ st' = set_participants (without userId (participants st)) st)).
Proof.
  unfold kickParticipant.
  unfold Eff.bind at 1. unfold Eff.gets at 1.
  destruct (isOwner st) eqn:Ho; cbn [negb].
  - unfold Eff.bind at 1. unfold Eff.emit at 1.
    destruct (confirm env confirm_kick) eqn:Hc; cbn [negb].
    + unfold Eff.try_catch.
      unfold Eff.bind at 1. unfold Eff.gets at 1. unfold Eff.bind at 1.
      unfold Eff.lift at 1.
      destruct (get_prop (raw (currentRoomData st)) "_id") as [i|e].
      * unfold Eff.bind at 1. unfold Eff.emit at 1.
        unfold Eff.bind at 1. unfold Eff.lift at 1.
        destruct (fetchJsonWithAuth env _) as [v|e] eqn:Hf.
        -- unfold Eff.bind at 1. unfold Eff.gets at 1.
           unfold Eff.bind at 1. unfold Eff.modify at 1.
           unfold Eff.bind at 1.
           destruct (updateParticipantsList_run env
                       (set_participants
                          (List.filter
                             (fun p => negb (strict_equals (id p) userId))
                             (participants st)) st))
             as (r & t & Hr & Hq).
           rewrite Hr.
           assert (Hlen : length (List.filter is_fetch t) = 0%nat).
           { clear -Hq. induction Hq as [|ev t Hev _ IH]; simpl; [done|].
             by rewrite Hev. }
           destruct r as [[]|e]; unfold showToast;
             destruct (showToast_defined env); simpl;
             eexists _, _; (split; [reflexivity|]);
             (split; [simpl; rewrite ?app_nil_r, ?List.filter_app, ?length_app, ?Hlen;
                      simpl; lia|]);
             right; eauto 10.
        -- unfold showToast. destruct (showToast_defined env); simpl;
             eexists _, _; (split; [reflexivity|]); (split; [simpl; lia|by left]).
      * unfold showToast. destruct (showToast_defined env); simpl;
          eexists _, _; (split; [reflexivity|]); (split; [simpl; lia|by left]).
    + eexists _, _. split; [reflexivity|]. simpl. split; [lia|by left].
  - unfold showToast. destruct (showToast_defined env); simpl;
      eexists _, _; (split; [reflexivity|]); (split; [simpl; lia|by left]).
Qed.

(** X2: when the owner confirms and the DELETE for the loaded room
    succeeds, kickParticipant has sent that one request and leaves the
    participant sequence without the entries of that id, every other entry
    kept. *)
Theorem kickParticipant_removes (userId v : JsVal) (m : gmap string JsVal) st :
  isOwner st = true ->
  confirm env confirm_kick = true ->
  raw (currentRoomData st) = JObj m ->
  fetchJsonWithAuth env
    (DeleteParticipant (js_or (field (JObj m) "_id") (field (JObj m) "id")) userId)
  = Ok v ->
  exists t,
    kickParticipant env userId st
    = (Ok tt, set_participants (without userId (participants st)) st, t)
    /\ List.filter is_fetch t
       = [Fetch (DeleteParticipant
                   (js_or (field (JObj m) "_id") (field (JObj m) "id")) userId)]
    /\ (forall p, In p (without userId (participants st))
                  <-> In p (participants st)
                      /\ strict_equals (id p) userId = false).
Proof.
  intros Ho Hc Hraw Hf. unfold kickParticipant.
  unfold Eff.bind at 1. unfold Eff.gets at 1. rewrite Ho. cbn [negb].
  unfold Eff.bind at 1. unfold Eff.emit at 1. rewrite Hc. cbn [negb].
  unfold Eff.try_catch.
  unfold Eff.bind at 1. unfold Eff.gets at 1. unfold Eff.bind at 1.
  unfold Eff.lift at 1. rewrite Hraw. cbn [get_prop].
  unfold Eff.bind at 1. unfold Eff.emit at 1.
  unfold Eff.bind at 1. unfold Eff.lift at 1.
  change (default JUndefined (m !! "_id")) with (field (JObj m) "_id").
  rewrite Hf.
  unfold Eff.bind at 1. unfold Eff.gets at 1.
  unfold Eff.bind at 1. unfold Eff.modify at 1.
  unfold Eff.bind at 1.
  destruct (updateParticipantsList_run env
              (set_participants (without userId (participants st)) st))
    as (r & t & Hr & Hq).
  unfold without in Hr |- *. rewrite Hr.
  assert (Hnone : List.filter is_fetch t = []).
  { clear -Hq. induction Hq as [|ev t Hev _ IH]; simpl; [done|].
    by rewrite Hev. }
  assert (Hin : forall p,
             In p (List.filter (fun p => negb (strict_equals (id p) userId))
                               (participants st))
             <-> In p (participants st) /\ strict_equals (id p) userId = false).
  { intros p. rewrite filter_In, negb_true_iff. tauto. }
  destruct r as [[]|e]; unfold showToast;
    destruct (showToast_defined env); simpl;
    eexists; (split; [reflexivity|]);
    (split; [simpl; rewrite ?app_nil_r, ?List.filter_app, ?Hnone; reflexivity
            |exact Hin]).
Qed.

(** X3: when the DELETE fails, kickParticipant changes nothing and reports
    the failure in an error notification that carries the message of the
    error, or "unknown error" when it has none. *)
Theorem kickParticipant_failure (userId : JsVal) (e : JsError)
    (m : gmap string JsVal) st :
  isOwner st = true ->
  confirm env confirm_kick = true ->
  raw (currentRoomData st) = JObj m ->
  fetchJsonWithAuth env
    (DeleteParticipant (js_or (field (JObj m) "_id") (field (JObj m) "id")) userId)
  = Throw e ->
  kickParticipant env userId st
  = (Ok tt, st,
     [Confirm confirm_kick;
      Fetch (DeleteParticipant
               (js_or (field (JObj m) "_id") (field (JObj m) "id")) userId)]
     ++ notification env
          ("Could not remove participant: "
           +:+ (if String.eqb (message e) "" then "unknown error" else message e))
          "error").
Proof.
  intros Ho Hc Hraw Hf. unfold kickParticipant.
  unfold Eff.bind at 1. unfold Eff.gets at 1. rewrite Ho. cbn [negb].
  unfold Eff.bind at 1. unfold Eff.emit at 1. rewrite Hc. cbn [negb].
  unfold Eff.try_catch.
  unfold Eff.bind at 1. unfold Eff.gets at 1. unfold Eff.bind at 1.
  unfold Eff.lift at 1. rewrite Hraw. cbn [get_prop].
  unfold Eff.bind at 1. unfold Eff.emit at 1.
  unfold Eff.bind at 1. unfold Eff.lift at 1.
  change (default JUndefined (m !! "_id")) with (field (JObj m) "_id").
  rewrite Hf. unfold showToast, notification.
  destruct (showToast_defined env); reflexivity.
Qed.
End KickFacts.

Lemma kickParticipant_removes_witness :
  exists t,
    RoomManager.kickParticipant
      (Samples.room_env (Some "r1") (Ok Samples.room_u1_u2) (Ok JNull) "u1")
      (JStr "u2") (MoreSamples.loaded Samples.room_u1_u2 true MoreSamples.u1_u2)
    = (Ok tt,
       MoreSamples.loaded Samples.room_u1_u2 true [MoreSamples.entry "u1" true false],
       t)
    /\ List.filter is_fetch t
       = [RoomManager.Fetch (DeleteParticipant (JStr "r1") (JStr "u2"))].
Proof.
  destruct (kickParticipant_removes
              (Samples.room_env (Some "r1") (Ok Samples.room_u1_u2) (Ok JNull) "u1")
              (JStr "u2") Samples.room_u1_u2
              (list_to_map [("_id", JStr "r1"); ("creator", JStr "u1");
                            ("participants", JArr [JStr "u1"; JStr "u2"])])
              (MoreSamples.loaded Samples.room_u1_u2 true MoreSamples.u1_u2))
    as (t & Hrun & Hsent & _);
    [reflexivity|reflexivity|reflexivity|reflexivity|].
  exists t. split; [exact Hrun|exact Hsent].
Defined.

Lemma kickParticipant_failure_witness :
  RoomManager.kickParticipant
    (Samples.room_env (Some "r1") (Throw (Samples.http_error 403 "Forbidden"))
       (Ok JNull) "u1")
    (JStr "u2") (MoreSamples.loaded Samples.room_u1_u2 true MoreSamples.u1_u2)
  = (Ok tt, MoreSamples.loaded Samples.room_u1_u2 true MoreSamples.u1_u2,
     [RoomManager.Confirm RoomManager.confirm_kick;
      RoomManager.Fetch (DeleteParticipant (JStr "r1") (JStr "u2"));
      RoomManager.Toast "Could not remove participant: Forbidden" "error"]).
Proof.
  etransitivity;
    [apply (kickParticipant_failure
              (Samples.room_env (Some "r1")
                 (Throw (Samples.http_error 403 "Forbidden")) (Ok JNull) "u1")
              (JStr "u2") (Samples.http_error 403 "Forbidden")
              (list_to_map [("_id", JStr "r1"); ("creator", JStr "u1");
                            ("participants", JArr [JStr "u1"; JStr "u2"])])
              (MoreSamples.loaded Samples.room_u1_u2 true MoreSamples.u1_u2));
     reflexivity
    |reflexivity].
Defined.

(** ** room-manager.js: the participant sequence *)

Section EnrichmentFacts.
Import RoomManager.
Context (env : Env).
Implicit Types st : State.

Lemma member_ids_strings (l : list JsVal) :
  Forall is_string l -> Forall is_string (member_ids l).
Proof.
  intros Hl. unfold member_ids.
  assert (Hsub : forall l0 acc,
            Forall is_string acc -> Forall is_string l0 ->
            Forall is_string (set_from acc l0)).
  { induction l0 as [|y l0 IH]; simpl; intros acc Ha Hl0; [done|].
    apply Forall_cons in Hl0 as [Hy Hl0]. apply IH; [|done].
    destruct (existsb _ acc); [done|].
    apply Forall_app. split; [done|]. by constructor. }
  apply Hsub; [constructor|].
  induction Hl as [|y l0 Hy _ IH]; simpl; [constructor|].
  destruct (truthy y); [by constructor|done].
Qed.

Lemma participant_of_fresh (infosMap : JsVal -> JsVal) (creator uid_ : JsVal) :
  returns (participant_of env infosMap creator uid_)
    (fun p => inCall p = false /\ status p = "online").
Proof.
  unfold participant_of. apply returns_try_catch.
  - apply returns_bind. intros info. apply returns_bind. intros ph.
    apply returns_bind. intros nm. apply returns_ret. done.
  - intros e. apply returns_bind. intros nm. apply returns_ret. done.
Qed.

Lemma participant_of_unknown (infosMap : JsVal -> JsVal) (creator : JsVal)
    (s : string) (e : JsError) st :
  truthy (infosMap (JStr s)) = false ->
  getUserDisplayInfo env (JStr s) = Throw e ->
  participant_of env infosMap creator (JStr s) st
  = (Ok (fallback_entry creator s), st, []).
Proof.
  intros Hm Hu. unfold participant_of, Eff.try_catch.
  unfold Eff.bind at 1. rewrite Hm.
  unfold Eff.bind at 1. unfold Eff.lift at 1. rewrite Hu.
  reflexivity.
Qed.

Lemma participant_of_entry (infosMap : JsVal -> JsVal) (creator u : JsVal)
    st (p : Participant) st' (t : list Event) :
  participant_of env infosMap creator u st = (Ok p, st', t) ->
  id p = u
  /\ (inCall p = false /\ status p = "online")
  /\ (forall s e, u = JStr s ->
        truthy (infosMap (JStr s)) = false ->
        getUserDisplayInfo env (JStr s) = Throw e ->
        p = fallback_entry creator s).
Proof.
  intros H. split; [|split].
  - eapply (participant_of_returns env infosMap creator u), H.
  - eapply (participant_of_fresh infosMap creator u), H.
  - intros s e -> Hm Hg.
    rewrite (participant_of_unknown infosMap creator s e st Hm Hg) in H.
    by injection H as <- _ _.
Qed.

(** With member ids that are strings and a batch lookup that answers, the
    enrichment step is one run of the per-user callback over the ids. *)
Lemma loadParticipantsInfo_mapped st (x : JsVal) (l : list JsVal)
    (infosMap : JsVal -> JsVal) :
  room_participants (currentRoomData st) = JArr (x :: l) ->
  Forall is_string (x :: l) ->
  getUserDisplayInfos env (member_ids (x :: l)) = Ok (Infos infosMap) ->
  exists ps t,
    Eff.mapM (participant_of env infosMap
                (field (raw (currentRoomData st)) "creator"))
             (member_ids (x :: l)) (set_participants [] st)
    = (Ok ps, set_participants [] st, [])
    /\ loadParticipantsInfo env st = (Ok tt, set_participants ps st, t)
    /\ List.filter is_fetch t = [].
Proof.
  intros Hps Hstr Hinfos.
  pose proof (member_ids_strings _ Hstr) as Huids.
  destruct (mapM_participants_strings env infosMap
              (field (raw (currentRoomData st)) "creator") (member_ids (x :: l))
              (set_participants [] st) Huids) as [ps Hmap].
  destruct (updateParticipantsList_run env
              (set_participants ps (set_participants [] st)))
    as (r & t & Hrender & Hq).
  exists ps, t. split; [exact Hmap|]. split.
  - unfold loadParticipantsInfo. apply (swallowed_run _ _ _ _ r).
    unfold Eff.bind at 1. unfold Eff.modify at 1. unfold Eff.bind at 1.
    unfold Eff.gets at 1. cbn [currentRoomData set_participants].
    rewrite Hps. unfold Eff.bind at 1. unfold Eff.lift at 1.
    fold (member_ids (x :: l)). rewrite Hinfos.
    unfold Eff.bind at 1. rewrite Hmap.
    unfold Eff.bind at 1. unfold Eff.modify at 1.
    rewrite Hrender. reflexivity.
  - clear -Hq. induction Hq as [|ev t Hev _ IH]; simpl; [done|].
    by rewrite Hev.
Qed.

(** The entries the enrichment step builds when the batch lookup answers:
    one per id of [member_ids], in that order. *)
Lemma loadParticipantsInfo_entries st (x : JsVal) (l : list JsVal)
    (infosMap : JsVal -> JsVal) :
  room_participants (currentRoomData st) = JArr (x :: l) ->
  Forall is_string (x :: l) ->
  getUserDisplayInfos env (member_ids (x :: l)) = Ok (Infos infosMap) ->
  exists ps t,
    loadParticipantsInfo env st = (Ok tt, set_participants ps st, t)
    /\ List.filter is_fetch t = []
    /\ map id ps = member_ids (x :: l)
    /\ Forall (fun p => inCall p = false /\ status p = "online") ps
    /\ (forall p s e,
          In p ps -> id p = JStr s ->
          truthy (infosMap (JStr s)) = false ->
          getUserDisplayInfo env (JStr s) = Throw e ->
          p = fallback_entry (field (raw (currentRoomData st)) "creator") s).
Proof.
  intros Hps Hstr Hinfos.
  destruct (loadParticipantsInfo_mapped st x l infosMap Hps Hstr Hinfos)
    as (ps & t & Hmap & Hrun & Hq).
  exists ps, t. split; [exact Hrun|]. split; [exact Hq|].
  set (creator := field (raw (currentRoomData st)) "creator") in *.
  pose proof (mapM_ok (participant_of env infosMap creator) _
                (participant_of_entry infosMap creator) _ _ _ _ _ Hmap) as Hall.
  clear Hmap Hrun Hps Hstr Hinfos Hq. revert Hall.
  generalize (member_ids (x :: l)). intros us Hall.
  induction Hall as [|u p us ps' (Hid & Hfresh & Hfb) _ IH].
  - repeat split; try constructor. intros p s e [].
  - destruct IH as (IHid & IHfresh & IHfb). split; [|split].
    + simpl. by rewrite Hid, IHid.
    + by constructor.
    + intros q s e [<-|Hin] Hq' Hm Hg.
      * apply (Hfb s e); [by rewrite <- Hid|done|done].
      * by apply (IHfb q s e).
Qed.

(** X4: when the member ids are strings and the batch lookup answers, the
    enrichment step builds one entry per distinct non-empty id, in the order
    of first occurrence, each marked online and not in a call; no lookup
    that fails for one user costs the others their entry, and a user about
    whom every lookup fails gets the fallback entry (the first eight
    characters of the id as name, "U" as avatar, no photo). *)
Theorem loadParticipantsInfo_one_entry_each st (x : JsVal) (l : list JsVal)
    (infosMap : JsVal -> JsVal) :
  room_participants (currentRoomData st) = JArr (x :: l) ->
  Forall is_string (x :: l) ->
  getUserDisplayInfos env (member_ids (x :: l)) = Ok (Infos infosMap) ->
  exists ps t,
    loadParticipantsInfo env st = (Ok tt, set_participants ps st, t)
    /\ map id ps = member_ids (x :: l)
    /\ Forall (fun p => inCall p = false /\ status p = "online") ps
    /\ (forall p s e,
          In p ps -> id p = JStr s ->
          truthy (infosMap (JStr s)) = false ->
          getUserDisplayInfo env (JStr s) = Throw e ->
          p = fallback_entry (field (raw (currentRoomData st)) "creator") s).
Proof.
  intros Hps Hstr Hinfos.
  destruct (loadParticipantsInfo_entries st x l infosMap Hps Hstr Hinfos)
    as (ps & t & Hrun & _ & Hids & Hfresh & Hfallback).
  exists ps, t. split; [exact Hrun|]. split; [exact Hids|].
  split; [exact Hfresh|exact Hfallback].
Qed.

(** A batch lookup that fails, or resolves to nothing, empties the
    sequence. *)
Lemma loadParticipantsInfo_abandoned st (x : JsVal) (l : list JsVal) :
  room_participants (currentRoomData st) = JArr (x :: l) ->
  (exists e, getUserDisplayInfos env (member_ids (x :: l)) = Throw e)
  \/ getUserDisplayInfos env (member_ids (x :: l)) = Ok InfosNullish ->
  loadParticipantsInfo env st = (Ok tt, set_participants [] st, []).
Proof.
  intros Hps Hfail. unfold loadParticipantsInfo.
  destruct Hfail as [[e He]|He].
  - apply (swallowed_run _ _ _ _ (Throw e)).
    unfold Eff.bind at 1. unfold Eff.modify at 1. unfold Eff.bind at 1.
    unfold Eff.gets at 1. cbn [currentRoomData set_participants].
    rewrite Hps. unfold Eff.bind at 1. unfold Eff.lift at 1.
    fold (member_ids (x :: l)). rewrite He. reflexivity.
  - apply (swallowed_run _ _ _ _
             (Throw (Error "Cannot convert undefined or null to object"))).
    unfold Eff.bind at 1. unfold Eff.modify at 1. unfold Eff.bind at 1.
    unfold Eff.gets at 1. cbn [currentRoomData set_participants].
    rewrite Hps. unfold Eff.bind at 1. unfold Eff.lift at 1.
    fold (member_ids (x :: l)). rewrite He. reflexivity.
Qed.

(** Whatever the lookups answer, the entries built for a record that lists
    members are one per id of [member_ids], in that order, or none at all
    when the step was abandoned. *)
Lemma loadParticipantsInfo_members st (x : JsVal) (l : list JsVal) :
  room_participants (currentRoomData st) = JArr (x :: l) ->
  exists ps t,
    loadParticipantsInfo env st = (Ok tt, set_participants ps st, t)
    /\ (ps = [] \/ map id ps = member_ids (x :: l)).
Proof.
  intros Hps.
  destruct (getUserDisplayInfos env (member_ids (x :: l)))
    as [[|infosMap]|e] eqn:Hinfos.
  - exists [], []. split; [|by left].
    apply (loadParticipantsInfo_abandoned st x l Hps). by right.
  - destruct (mapM_participants env infosMap
                (field (raw (currentRoomData st)) "creator") (member_ids (x :: l))
                (set_participants [] st))
      as (r & Hmap & Hr).
    destruct r as [ps|e].
    + destruct (Hr ps eq_refl) as [Hids _].
      destruct (updateParticipantsList_run env
                  (set_participants ps (set_participants [] st)))
        as (r & t & Hrender & _).
      exists ps, t. split; [|by right].
      unfold loadParticipantsInfo. apply (swallowed_run _ _ _ _ r).
      unfold Eff.bind at 1. unfold Eff.modify at 1. unfold Eff.bind at 1.
      unfold Eff.gets at 1. cbn [currentRoomData set_participants].
      rewrite Hps. unfold Eff.bind at 1. unfold Eff.lift at 1.
      fold (member_ids (x :: l)). rewrite Hinfos.
      unfold Eff.bind at 1. rewrite Hmap.
      unfold Eff.bind at 1. unfold Eff.modify at 1.
      rewrite Hrender. reflexivity.
    + exists [], []. split; [|by left].
      unfold loadParticipantsInfo. apply (swallowed_run _ _ _ _ (Throw e)).
      unfold Eff.bind at 1. unfold Eff.modify at 1. unfold Eff.bind at 1.
      unfold Eff.gets at 1. cbn [currentRoomData set_participants].
      rewrite Hps. unfold Eff.bind at 1. unfold Eff.lift at 1.
      fold (member_ids (x :: l)). rewrite Hinfos.
      unfold Eff.bind at 1. rewrite Hmap. reflexivity.
  - exists [], []. split; [|by left].
    apply (loadParticipantsInfo_abandoned st x l Hps). left. by exists e.
Qed.

(** X5: when the batch lookup fails, or resolves to nothing, the
    enrichment step gives up without raising: the participant sequence is
    left empty and nothing is drawn, although the room lists members. *)
Theorem loadParticipantsInfo_batch_failure st (x : JsVal) (l : list JsVal) :
  room_participants (currentRoomData st) = JArr (x :: l) ->
  (exists e, getUserDisplayInfos env (member_ids (x :: l)) = Throw e)
  \/ getUserDisplayInfos env (member_ids (x :: l)) = Ok InfosNullish ->
  loadParticipantsInfo env st = (Ok tt, set_participants [] st, []).
Proof.
  apply loadParticipantsInfo_abandoned.
Qed.
End EnrichmentFacts.

Lemma loadParticipantsInfo_one_entry_each_witness :
  exists ps t,
    RoomManager.loadParticipantsInfo
      (Samples.room_env (Some "r1") (Ok Samples.room_u1_u2) (Ok JNull) "u1")
      (MoreSamples.loaded Samples.room_u1_u2 true [])
    = (Ok tt, MoreSamples.loaded Samples.room_u1_u2 true ps, t)
    /\ map RoomManager.id ps = [JStr "u1"; JStr "u2"]
    /\ Forall (fun p => RoomManager.inCall p = false
                        /\ RoomManager.status p = "online") ps.
Proof.
  destruct (loadParticipantsInfo_one_entry_each
              (Samples.room_env (Some "r1") (Ok Samples.room_u1_u2) (Ok JNull) "u1")
              (MoreSamples.loaded Samples.room_u1_u2 true [])
              (JStr "u1") [JStr "u2"] (fun _ => JUndefined))
    as (ps & t & Hrun & Hids & Hall & _);
    [reflexivity|repeat constructor; eexists; reflexivity|reflexivity|].
  exists ps, t. split; [exact Hrun|]. split; [exact Hids|exact Hall].
Defined.

Lemma loadParticipantsInfo_batch_failure_witness :
  RoomManager.loadParticipantsInfo
    (MoreSamples.directory_env (Throw (Samples.http_error 500 "Server Error")) "u1")
    (MoreSamples.loaded Samples.room_u1_u2 true MoreSamples.u1_u2)
  = (Ok tt, MoreSamples.loaded Samples.room_u1_u2 true [], [])
  /\ RoomManager.loadParticipantsInfo
       (MoreSamples.directory_env (Ok RoomManager.InfosNullish) "u1")
       (MoreSamples.loaded Samples.room_u1_u2 true MoreSamples.u1_u2)
     = (Ok tt, MoreSamples.loaded Samples.room_u1_u2 true [], []).
Proof.
  split.
  - apply (loadParticipantsInfo_batch_failure
             (MoreSamples.directory_env
                (Throw (Samples.http_error 500 "Server Error")) "u1")
             (MoreSamples.loaded Samples.room_u1_u2 true MoreSamples.u1_u2)
             (JStr "u1") [JStr "u2"]);
      [reflexivity|left; eexists; reflexivity].
  - apply (loadParticipantsInfo_batch_failure
             (MoreSamples.directory_env (Ok RoomManager.InfosNullish) "u1")
             (MoreSamples.loaded Samples.room_u1_u2 true MoreSamples.u1_u2)
             (JStr "u1") [JStr "u2"]);
      [reflexivity|right; reflexivity].
Defined.

Section AloneFacts.
Import RoomManager.
Context (env : Env).
Implicit Types st : State.

(** The enrichment step in a room whose record lists nobody. *)
Lemma loadParticipantsInfo_self st (u : User) :
  no_members (currentRoomData st) ->
  currentUser env = Some u ->
  (forall info,
      getUserDisplayInfo env (JStr (uid u)) = Ok info -> ~ nullish info ->
      exists t,
        loadParticipantsInfo env st
        = (Ok tt, set_participants [self_entry u info (isOwner st)] st, t)
        /\ List.filter is_fetch t = [])
  /\ (forall e,
        getUserDisplayInfo env (JStr (uid u)) = Throw e ->
        loadParticipantsInfo env st = (Ok tt, set_participants [] st, [])).
Proof.
  intros Hnone Huser. unfold no_members in Hnone.
  assert (Hcur : currentUid env = JStr (uid u)).
  { unfold currentUid. by rewrite Huser. }
  split.
  - intros info Hinfo Hnn.
    destruct (updateParticipantsList_run env
                (set_participants [self_entry u info (isOwner st)]
                   (set_participants [] st)))
      as (r & t & Hrender & Hq).
    exists t. split.
    + unfold loadParticipantsInfo. apply (swallowed_run _ _ _ _ r).
      unfold Eff.bind at 1. unfold Eff.modify at 1. unfold Eff.bind at 1.
      unfold Eff.gets at 1. cbn [currentRoomData set_participants].
      assert (Hdn : get_prop info "displayName" = Ok (field info "displayName")).
      { destruct info; try reflexivity; exfalso; apply Hnn; [by right|by left]. }
      assert (Hav : get_prop info "avatar" = Ok (field info "avatar")).
      { destruct info; try reflexivity; exfalso; apply Hnn; [by right|by left]. }
      destruct (room_participants (currentRoomData st)) as [| | | | |[|x l]|];
        try done;
        unfold Eff.bind, Eff.lift, Eff.gets, Eff.modify, user_field;
        rewrite Hcur, Hinfo, Hdn, Hav, Huser;
        cbn [Eff.ret isOwner set_participants];
        unfold self_entry in Hrender; rewrite Hrender; reflexivity.
    + clear -Hq. induction Hq as [|ev t Hev _ IH]; simpl; [done|].
      by rewrite Hev.
  - intros e He.
    unfold loadParticipantsInfo. apply (swallowed_run _ _ _ _ (Throw e)).
    unfold Eff.bind at 1. unfold Eff.modify at 1. unfold Eff.bind at 1.
    unfold Eff.gets at 1. cbn [currentRoomData set_participants].
    destruct (room_participants (currentRoomData st)) as [| | | | |[|x l]|];
      try done;
      unfold Eff.bind, Eff.lift; rewrite Hcur, He; reflexivity.
Qed.

(** X6: in a room whose record lists nobody (no participants, not an array,
    or an empty one) the enrichment step shows the current user alone,
    marked host exactly when the ownership flag is set; if the display
    record of that user cannot be fetched, the sequence is left empty. *)
Theorem loadParticipantsInfo_alone st (u : User) :
  no_members (currentRoomData st) ->
  currentUser env = Some u ->
  (forall info,
      getUserDisplayInfo env (JStr (uid u)) = Ok info -> ~ nullish info ->
      exists t,
        loadParticipantsInfo env st
        = (Ok tt, set_participants [self_entry u info (isOwner st)] st, t)
        /\ List.filter is_fetch t = [])
  /\ (forall e,
        getUserDisplayInfo env (JStr (uid u)) = Throw e ->
        loadParticipantsInfo env st = (Ok tt, set_participants [] st, [])).
Proof.
  apply loadParticipantsInfo_self.
Qed.
End AloneFacts.

(** ** room-manager.js: joining *)

Section JoinFacts.
Import RoomManager.
Context (env : Env).
Implicit Types st : State.

Lemma set_from_keeps_string (s : string) (l acc : list JsVal) :
  In (JStr s) acc \/ In (JStr s) l -> In (JStr s) (set_from acc l).
Proof.
  revert acc. induction l as [|x l IH]; simpl; intros acc H.
  - destruct H as [H|[]]. exact H.
  - apply IH. destruct H as [H|[->|H]]; [| |by right].
    + left. destruct (existsb _ acc); [done|]. apply in_or_app. by left.
    + left. destruct (existsb (strict_equals (JStr s)) acc) eqn:E.
      * by apply in_strict_equals.
      * apply in_or_app. right. by left.
Qed.

(** The join went through: the current user is appended to the membership
    list of the record, and nothing else changes. *)
Lemma autoJoinRoom_joined st (l : list JsVal) (m : gmap string JsVal)
    (u : User) (resp : JsVal) :
  currentUser env = Some u ->
  raw (currentRoomData st) = JObj m ->
  room_participants (currentRoomData st) = JArr l ->
  ~ In (JStr (uid u)) l ->
  postJsonWithAuth env (join_request (JObj m)) = Ok resp ->
  ~ nullish resp ->
  autoJoinRoom env st
  = (Ok tt, set_currentRoomData (joined (JObj m) l u) st,
     [Fetch (join_request (JObj m))]).
Proof.
  intros Huser Hraw Hl Hin Hpost Hnn.
  unfold autoJoinRoom. apply (swallowed_run _ _ _ _ (Ok tt)).
  unfold Eff.bind, Eff.gets, Eff.lift, Eff.emit, Eff.modify.
  rewrite Hl. cbn [js_or truthy].
  assert (Hcur : currentUid env = JStr (uid u)).
  { unfold currentUid. by rewrite Huser. }
  rewrite Hcur. cbn [includes].
  destruct (existsb (strict_equals (JStr (uid u))) l) eqn:E.
  { by apply in_strict_equals in E. }
  rewrite Hraw. cbn [get_prop].
  change (default JUndefined (m !! "_id")) with (field (JObj m) "_id").
  fold (join_request (JObj m)). rewrite Hpost.
  assert (Hc : exists c, get_prop resp "participantCount" = Ok c).
  { destruct resp; try (eexists; reflexivity); exfalso; apply Hnn;
      [by right|by left]. }
  destruct Hc as [c ->]. cbn [spread].
  unfold write_participants. rewrite Hraw. reflexivity.
Qed.

(** X7: a join that is answered without a body ([null], or nothing) is
    treated like one that failed: the request has been sent, but reading
    [participantCount] off the answer fails, so the membership list of the
    record is not updated. *)
Theorem autoJoinRoom_empty_answer st (l : list JsVal) (m : gmap string JsVal)
    (u : User) (resp : JsVal) :
  currentUser env = Some u ->
  raw (currentRoomData st) = JObj m ->
  room_participants (currentRoomData st) = JArr l ->
  ~ In (JStr (uid u)) l ->
  postJsonWithAuth env (join_request (JObj m)) = Ok resp ->
  nullish resp ->
  autoJoinRoom env st = (Ok tt, st, [Fetch (join_request (JObj m))]).
Proof.
  intros Huser Hraw Hl Hin Hpost Hnull.
  unfold autoJoinRoom.
  apply (swallowed_run _ _ _ _ (Throw (TypeError_read resp "participantCount"))).
  unfold Eff.bind, Eff.gets, Eff.lift, Eff.emit, Eff.modify.
  rewrite Hl. cbn [js_or truthy].
  assert (Hcur : currentUid env = JStr (uid u)).
  { unfold currentUid. by rewrite Huser. }
  rewrite Hcur. cbn [includes].
  destruct (existsb (strict_equals (JStr (uid u))) l) eqn:E.
  { by apply in_strict_equals in E. }
  rewrite Hraw. cbn [get_prop].
  change (default JUndefined (m !! "_id")) with (field (JObj m) "_id").
  fold (join_request (JObj m)). rewrite Hpost.
  destruct Hnull as [-> | ->]; reflexivity.
Qed.

(** X8: a load that joins the current user (the join answered with a body,
    the member ids strings, the batch lookup answering) returns the record
    with the user appended to its membership list, and the participant
    sequence then holds an entry for the current user, no id twice. *)
Theorem loadRoomData_joined_user_listed
    (roomId : string) (data resp : JsVal) (u : User) (l : list JsVal)
    (infosMap : JsVal -> JsVal) st :
  url_room env = Some roomId -> roomId <> "" ->
  fetchJsonWithAuth env (GetRoom roomId) = Ok data ->
  currentUser env = Some u -> uid u <> "" ->
  field data "participants" = JArr l ->
  ~ In (JStr (uid u)) l ->
  Forall is_string l ->
  postJsonWithAuth env (join_request data) = Ok resp ->
  ~ nullish resp ->
  getUserDisplayInfos env (member_ids (l ++ [JStr (uid u)])) = Ok (Infos infosMap) ->
  exists st' t,
    loadRoomData env st = (Ok (joined data l u), st', t)
    /\ List.filter is_fetch t
       = [Fetch (GetRoom roomId); Fetch (join_request data)]
    /\ map id (participants st') = member_ids (l ++ [JStr (uid u)])
    /\ In (JStr (uid u)) (map id (participants st'))
    /\ deduplicated (participants st').
Proof.
  intros Hurl Hne Hfetch Huser Huid Hl Hin Hstr Hpost Hnn Hinfos.
  destruct (room_participants_fetched data u st l Hl) as [Hps [m ->]].
  destruct (loadRoomData_fetched env roomId (JObj m) u st Hurl Hne Hfetch eq_refl Huser)
    as (st2 & t2 & st3 & t3 & Hjoin & Hload & Hrun).
  rewrite (autoJoinRoom_joined (fetched (JObj m) u st) l m u resp
             Huser eq_refl Hps Hin Hpost Hnn) in Hjoin.
  injection Hjoin as <- <-.
  set (st2 := set_currentRoomData (joined (JObj m) l u) (fetched (JObj m) u st)) in *.
  assert (Hnonempty : exists x l', l ++ [JStr (uid u)] = x :: l').
  { destruct l; simpl; eauto. }
  destruct Hnonempty as (x & l' & Hxl).
  assert (Hroom : room_participants (currentRoomData st2) = JArr (x :: l')).
  { unfold room_participants. simpl. by rewrite Hxl. }
  assert (Hstr' : Forall is_string (x :: l')).
  { rewrite <- Hxl. apply Forall_app. split; [done|].
    constructor; [by eexists|constructor]. }
  rewrite Hxl in Hinfos.
  destruct (loadParticipantsInfo_entries env st2 x l' infosMap
              Hroom Hstr' Hinfos)
    as (ps & t & Hload' & Hq & Hids & _).
  rewrite Hload in Hload'. injection Hload' as -> ->.
  eexists _, _. split; [exact Hrun|].
  cbn [participants set_isLoading set_participants].
  rewrite Hxl. split; [|split; [exact Hids|split]].
  - simpl. by rewrite Hq.
  - rewrite Hids, <- Hxl. unfold member_ids. apply set_from_keeps_string.
    right. apply filter_In. split.
    + apply in_or_app. right. by left.
    + simpl. apply negb_true_iff. by apply String.eqb_neq.
  - apply distinct_deduplicated. rewrite Hids.
    unfold member_ids. by apply set_from_distinct.
Qed.
End JoinFacts.

Lemma loadParticipantsInfo_alone_witness :
  exists t,
    RoomManager.loadParticipantsInfo
      (Samples.room_env (Some "r0") (Ok MoreSamples.room_nobody) (Ok JNull) "u1")
      (MoreSamples.loaded MoreSamples.room_nobody true [])
    = (Ok tt,
       MoreSamples.loaded MoreSamples.room_nobody true
         [MoreSamples.entry "u1" true false],
       t)
    /\ List.filter is_fetch t = [].
Proof.
  destruct (loadParticipantsInfo_alone
              (Samples.room_env (Some "r0") (Ok MoreSamples.room_nobody) (Ok JNull) "u1")
              (MoreSamples.loaded MoreSamples.room_nobody true [])
              (Samples.user "u1"))
    as [Hknown _]; [exact I|reflexivity|].
  apply (Hknown (Samples.obj [("displayName", JStr "u1"); ("avatar", JStr "U")]));
    [reflexivity|intros [H|H]; discriminate].
Defined.

Lemma autoJoinRoom_empty_answer_witness :
  RoomManager.autoJoinRoom
    (Samples.room_env (Some "r1") (Ok Samples.room_u1_u2) (Ok JNull) "u3")
    (MoreSamples.loaded Samples.room_u1_u2 false [])
  = (Ok tt, MoreSamples.loaded Samples.room_u1_u2 false [],
     [RoomManager.Fetch (PostJoin (JStr "r1"))]).
Proof.
  etransitivity;
    [apply (autoJoinRoom_empty_answer
              (Samples.room_env (Some "r1") (Ok Samples.room_u1_u2) (Ok JNull) "u3")
              (MoreSamples.loaded Samples.room_u1_u2 false [])
              [JStr "u1"; JStr "u2"]
              (list_to_map [("_id", JStr "r1"); ("creator", JStr "u1");
                            ("participants", JArr [JStr "u1"; JStr "u2"])])
              (Samples.user "u3") JNull);
     [reflexivity|reflexivity|reflexivity
     |simpl; intros [H|[H|[]]]; discriminate|reflexivity|left; reflexivity]
    |reflexivity].
Defined.

Lemma loadRoomData_joined_user_listed_witness :
  exists st' t,
    RoomManager.loadRoomData
      (Samples.room_env (Some "r1") (Ok Samples.room_u1_u2)
         (Ok (Samples.obj [("participantCount", JNum 3)])) "u3")
      RoomManager.constructed
    = (Ok {| RoomManager.raw := Samples.room_u1_u2;
             RoomManager.participants_written :=
               Some [JStr "u1"; JStr "u2"; JStr "u3"] |}, st', t)
    /\ List.filter is_fetch t
       = [RoomManager.Fetch (GetRoom "r1"); RoomManager.Fetch (PostJoin (JStr "r1"))]
    /\ map RoomManager.id (RoomManager.participants st')
       = [JStr "u1"; JStr "u2"; JStr "u3"].
Proof.
  destruct (loadRoomData_joined_user_listed
              (Samples.room_env (Some "r1") (Ok Samples.room_u1_u2)
                 (Ok (Samples.obj [("participantCount", JNum 3)])) "u3")
              "r1" Samples.room_u1_u2 (Samples.obj [("participantCount", JNum 3)])
              (Samples.user "u3") [JStr "u1"; JStr "u2"] (fun _ => JUndefined)
              RoomManager.constructed)
    as (st' & t & Hrun & Hsent & Hids & _);
    [reflexivity|discriminate|reflexivity|reflexivity|discriminate|reflexivity
    |simpl; intros [H|[H|[]]]; discriminate
    |repeat constructor; eexists; reflexivity
    |reflexivity|intros [H|H]; discriminate|reflexivity|].
  exists st', t. split; [exact Hrun|]. split; [exact Hsent|exact Hids].
Defined.

(** ** room-manager.js: a load that joins, and the participants it leaves *)

Section JoinedLoadFacts.
Import RoomManager.
Context (env : Env).
Implicit Types st : State.

Lemma get_prop_truthy (v : JsVal) (k : string) :
  truthy v = true -> get_prop v k = Ok (field v k).
Proof. by destruct v. Qed.

Lemma set_from_subset (l acc : list JsVal) (v : JsVal) :
  In v (set_from acc l) -> In v acc \/ In v l.
Proof.
  revert acc. induction l as [|x l IH]; simpl; intros acc H; [by left|].
  destruct (IH _ H) as [Hacc|Hl]; [|by right; right].
  destruct (existsb (strict_equals x) acc); [by left|].
  apply in_app_or in Hacc as [Hacc|[<-|[]]]; [by left|by right; left].
Qed.

(** The ids the enrichment step works on are ids of the list. *)
Lemma member_ids_subset (l : list JsVal) (v : JsVal) :
  In v (member_ids l) -> In v l.
Proof.
  unfold member_ids. intros H.
  apply set_from_subset in H as [[]|H].
  by apply filter_In in H as [H _].
Qed.

(** The list the auto-join step and the enrichment step read off the
    record as fetched. *)
Lemma membership_fetched (data : JsVal) (u : User) (l : list JsVal) st :
  membership data l ->
  room_participants (currentRoomData (fetched data u st)) = field data "participants"
  /\ js_or (field data "participants") (JArr []) = JArr l.
Proof.
  intros [Hdata Hshape]. split.
  - unfold room_participants. simpl. by destruct data.
  - destruct Hshape as [-> | [Hfalsy ->]]; [reflexivity|].
    unfold js_or. by rewrite Hfalsy.
Qed.

(** Somebody the record does not list is joined with one request, whatever
    the record looks like; the state is as before when the request
    fails. *)
Lemma autoJoinRoom_not_listed st (l : list JsVal) :
  truthy (raw (currentRoomData st)) = true ->
  js_or (room_participants (currentRoomData st)) (JArr []) = JArr l ->
  existsb (strict_equals (currentUid env)) l = false ->
  exists st',
    autoJoinRoom env st
    = (Ok tt, st', [Fetch (join_request (raw (currentRoomData st)))])
    /\ (forall e,
          postJsonWithAuth env (join_request (raw (currentRoomData st))) = Throw e ->
          st' = st).
Proof.
  intros Hraw Hl Hin. unfold autoJoinRoom. rewrite try_swallow.
  unfold Eff.bind, Eff.gets, Eff.lift, Eff.emit. rewrite Hl. simpl.
  rewrite Hin, (get_prop_truthy _ "_id" Hraw). simpl. unfold join_request.
  destruct (postJsonWithAuth env _) as [resp|e] eqn:Ep; simpl.
  - destruct (get_prop resp "participantCount") as [c|e1]; simpl.
    + destruct (write_participants _ _) as [d'|e2]; simpl;
        eexists; (split; [reflexivity|]); intros e3 He; discriminate.
    + eexists. split; [reflexivity|]. intros e3 He. discriminate.
  - eexists. split; [reflexivity|]. done.
Qed.

(** C3: when the fetched room record does not list the current user (its
    membership list does not hold the id, or it has no such list), the load
    sends exactly one join request after its GET and completes whatever the
    answer.  If the join fails, the record is returned, and kept, as it was
    fetched, and the enrichment step works on the membership list of before
    the join: for a record that lists members it builds one entry per
    member id of that list (or none, when it is abandoned), never one for
    the current user; for a record that lists nobody it shows the current
    user alone. *)
Theorem loadRoomData_joins_once
    (roomId : string) (data : JsVal) (u : User) (l : list JsVal) st :
  url_room env = Some roomId -> roomId <> "" ->
  fetchJsonWithAuth env (GetRoom roomId) = Ok data ->
  currentUser env = Some u ->
  membership data l ->
  ~ In (JStr (uid u)) l ->
  exists r st' t,
    loadRoomData env st = (Ok r, st', t)
    /\ List.filter is_fetch t
       = [Fetch (GetRoom roomId); Fetch (join_request data)]
    /\ length (List.filter is_join t) = 1%nat
    /\ (forall e,
          postJsonWithAuth env (join_request data) = Throw e ->
          r = {| raw := data; participants_written := None |}
          /\ currentRoomData st' = r
          /\ (l <> [] ->
              (participants st' = []
               \/ map id (participants st') = member_ids l)
              /\ ~ In (JStr (uid u)) (map id (participants st'))
              /\ (forall infosMap,
                    Forall is_string l ->
                    getUserDisplayInfos env (member_ids l) = Ok (Infos infosMap) ->
                    map id (participants st') = member_ids l))
          /\ (l = [] ->
              forall info,
                getUserDisplayInfo env (JStr (uid u)) = Ok info ->
                ~ nullish info ->
                participants st'
                = [self_entry u info
                     (strict_equals (field data "creator") (JStr (uid u)))])).
Proof.
  intros Hurl Hne Hfetch Huser Hmem Hin.
  pose proof Hmem as [Hdata Hshape].
  destruct (membership_fetched data u l st Hmem) as [Hroom Hlist].
  destruct (loadRoomData_fetched env roomId data u st Hurl Hne Hfetch Hdata Huser)
    as (st2 & t2 & st3 & t3 & Hjoin & Hload & Hrun).
  destruct (autoJoinRoom_not_listed (fetched data u st) l)
    as (st2' & Hjoin' & Hkept).
  { exact Hdata. }
  { by rewrite Hroom. }
  { unfold currentUid. rewrite Huser.
    destruct (existsb _ l) eqn:E; [|done].
    by apply in_strict_equals in E. }
  cbn [fetched raw currentRoomData set_isOwner set_currentRoomData] in Hjoin', Hkept.
  rewrite Hjoin in Hjoin'. injection Hjoin' as -> ->.
  destruct (loadParticipantsInfo_run env st2')
    as (st3' & t3' & Hload' & ps & _ & Hquiet & _).
  rewrite Hload in Hload'. injection Hload' as -> ->.
  eexists _, _, _. split; [exact Hrun|].
  assert (Hnojoin : List.filter is_join t3' = []).
  { clear -Hquiet. induction Hquiet as [|ev t Hev _ IH]; simpl; [done|].
    destruct ev as [req| | | | |]; try done. }
  simpl. rewrite (filter_no_fetch _ Hquiet), Hnojoin.
  split; [reflexivity|]. split; [reflexivity|].
  intros e He. specialize (Hkept e He). subst st2'.
  destruct l as [|x l'].
  - (* nobody listed *)
    assert (Hnone : no_members (currentRoomData (fetched data u st))).
    { unfold no_members. rewrite Hroom.
      destruct Hshape as [-> | [Hfalsy _]]; [exact I|].
      by destruct (field data "participants") as [| | | | |[|]|]. }
    destruct (loadParticipantsInfo_self env (fetched data u st) u Hnone Huser)
      as [Hself Hnoself].
    destruct (loadParticipantsInfo_run env (fetched data u st))
      as (st4 & t4 & Hload4 & ps4 & -> & _).
    rewrite Hload in Hload4. injection Hload4 as -> _.
    split; [reflexivity|]. split; [reflexivity|]. split; [done|].
    intros _ info Hinfo Hnn.
    destruct (Hself info Hinfo Hnn) as (t & Hrun' & _).
    rewrite Hload in Hrun'. by injection Hrun' as -> _.
  - (* members listed *)
    assert (Hfield : field data "participants" = JArr (x :: l')).
    { by destruct Hshape as [H | [_ H]]. }
    rewrite Hfield in Hroom.
    destruct (loadParticipantsInfo_members env (fetched data u st) x l' Hroom)
      as (ps' & t' & Hload' & Hids).
    rewrite Hload in Hload'. injection Hload' as -> _.
    split; [reflexivity|]. split; [reflexivity|]. split; [|done].
    intros _. cbn [participants set_isLoading set_participants].
    split; [exact Hids|]. split.
    + intros Hme. destruct Hids as [-> | Hids]; [done|].
      rewrite Hids in Hme. by apply member_ids_subset in Hme.
    + intros infosMap Hstr Hinfos.
      destruct (loadParticipantsInfo_entries env (fetched data u st) x l' infosMap
                  Hroom Hstr Hinfos) as (ps'' & t'' & Hload'' & _ & Hids'' & _).
      rewrite Hload in Hload''. by injection Hload'' as -> _.
Qed.

(** C9, as the code has it: after a load that returns, the participant
    sequence is deduplicated by id, and an entry is marked host exactly
    when its id is the creator id of the fetched room record.  Loading a
    room with participants ["u1","u2"] and creator "u1" as user "u1" always
    returns and sets the ownership flag; it leaves two entries, "u1" marked
    host and "u2" not, when the batch lookup of the display records
    answers, and no entry at all when that lookup fails or resolves to
    nothing. *)
Theorem loadRoomData_participants :
  (forall (r : RoomData) st st' (t : list Event),
      loadRoomData env st = (Ok r, st', t) ->
      deduplicated (participants st')
      /\ (forall p, In p (participants st') ->
            (isHost p = true
             <-> strict_equals (field (raw r) "creator") (id p) = true))
      /\ (forall p c, In p (participants st') ->
            field (raw r) "creator" = JStr c ->
            (isHost p = true <-> id p = JStr c)))
  /\ (forall (roomId : string) (m : gmap string JsVal) (u : User) st,
        url_room env = Some roomId -> roomId <> "" ->
        fetchJsonWithAuth env (GetRoom roomId) = Ok (JObj m) ->
        m !! "creator" = Some (JStr "u1") ->
        m !! "participants" = Some (JArr [JStr "u1"; JStr "u2"]) ->
        currentUser env = Some u -> uid u = "u1" ->
        exists r st' t,
          loadRoomData env st = (Ok r, st', t)
          /\ isOwner st' = true
          /\ (forall infosMap,
                getUserDisplayInfos env [JStr "u1"; JStr "u2"] = Ok (Infos infosMap) ->
                map (fun p => (id p, isHost p)) (participants st')
                = [(JStr "u1", true); (JStr "u2", false)])
          /\ ((exists e, getUserDisplayInfos env [JStr "u1"; JStr "u2"] = Throw e)
              \/ getUserDisplayInfos env [JStr "u1"; JStr "u2"] = Ok InfosNullish ->
              participants st' = [])).
Proof.
  split.
  - intros r st st' t Hrun.
    destruct (loadRoomData_ok_inv env r st st' t Hrun)
      as (roomId & data & u & Hurl & Hne & Hfetch & Hdata & Huser).
    destruct (loadRoomData_fetched env roomId data u st Hurl Hne Hfetch Hdata Huser)
      as (st2 & t2 & st3 & t3 & Hjoin & Hload & Hrun').
    rewrite Hrun' in Hrun. injection Hrun as <- <- <-.
    destruct (autoJoinRoom_run env (fetched data u st))
      as (st2' & t2' & Hjoin' & Hraw & Hown & _).
    rewrite Hjoin in Hjoin'. injection Hjoin' as <- <-.
    destruct (loadParticipantsInfo_run env st2)
      as (st3' & t3' & Hload' & ps & -> & _ & Hdist & Hhost).
    rewrite Hload in Hload'. injection Hload' as -> ->.
    cbn [participants set_isLoading set_participants currentRoomData].
    rewrite Hraw in *. cbn [fetched raw currentRoomData set_isOwner
                            set_currentRoomData set_isLoading] in *.
    assert (Hh : Forall (fun p => isHost p
                                  = strict_equals (field data "creator") (id p)) ps).
    { apply Hhost. rewrite Hown. unfold currentUid. rewrite Huser. reflexivity. }
    rewrite Forall_forall in Hh.
    split; [by apply distinct_deduplicated|]. split.
    + intros p Hp. rewrite (Hh p); [done|]. by apply list_elem_of_In.
    + intros p c Hp Hc. rewrite (Hh p), Hc; [|by apply list_elem_of_In].
      apply strict_equals_string.
  - intros roomId m u st Hurl Hne Hfetch Hcreator Hps Huser Huid.
    destruct (loadRoomData_fetched env roomId (JObj m) u st Hurl Hne Hfetch
                eq_refl Huser)
      as (st2 & t2 & st3 & t3 & Hjoin & Hload & Hrun).
    assert (Hfield : field (JObj m) "participants" = JArr [JStr "u1"; JStr "u2"]).
    { simpl. by rewrite Hps. }
    destruct (room_participants_fetched (JObj m) u st _ Hfield) as [Hroom _].
    rewrite (autoJoinRoom_member env _ _ Hroom) in Hjoin.
    2: { unfold currentUid. rewrite Huser, Huid. reflexivity. }
    injection Hjoin as <- <-.
    assert (Hc : field (JObj m) "creator" = JStr "u1") by (simpl; by rewrite Hcreator).
    destruct (loadParticipantsInfo_run env (fetched (JObj m) u st))
      as (st4 & t4 & Hload4 & ps4 & -> & _).
    rewrite Hload in Hload4. injection Hload4 as -> _.
    eexists _, _, _. split; [exact Hrun|].
    cbn [participants set_isLoading set_participants isOwner fetched
         set_isOwner set_currentRoomData currentRoomData raw].
    rewrite Hc, Huid. split; [reflexivity|]. split.
    + intros infosMap Hinfos.
      destruct (loadParticipantsInfo_all env (fetched (JObj m) u st)
                  (JStr "u1") [JStr "u2"] infosMap Hroom)
        as (ps & t & Hload' & Hids & Hhost).
      { repeat constructor; eexists; reflexivity. }
      { exact Hinfos. }
      rewrite Hload in Hload'. injection Hload' as -> _.
      cbn [fetched set_isOwner set_currentRoomData currentRoomData raw] in Hhost.
      rewrite Hc in Hhost.
      change (set_from [] (List.filter truthy [JStr "u1"; JStr "u2"]))
        with [JStr "u1"; JStr "u2"] in Hids.
      destruct ps as [|p1 [|p2 [|p3 ps]]]; simpl in Hids; try discriminate.
      injection Hids as Hid1 Hid2.
      apply Forall_cons in Hhost as [Hh1 Hhost].
      apply Forall_cons in Hhost as [Hh2 _].
      simpl. rewrite Hh1, Hh2, Hid1, Hid2. reflexivity.
    + intros Hdown.
      pose proof (loadParticipantsInfo_abandoned env (fetched (JObj m) u st)
                    (JStr "u1") [JStr "u2"] Hroom Hdown) as Hload'.
      rewrite Hload in Hload'. by injection Hload' as -> _.
Qed.
End JoinedLoadFacts.

Lemma loadRoomData_joins_once_witness :
  (exists r st' t,
     RoomManager.loadRoomData
       (Samples.room_env (Some "r1") (Ok Samples.room_u1_u2)
          (Throw (Samples.http_error 403 "Forbidden")) "u3")
       RoomManager.constructed
     = (Ok r, st', t)
     /\ List.filter is_fetch t
        = [RoomManager.Fetch (GetRoom "r1");
           RoomManager.Fetch (PostJoin (JStr "r1"))]
     /\ length (List.filter is_join t) = 1%nat
     /\ r = {| RoomManager.raw := Samples.room_u1_u2;
               RoomManager.participants_written := None |}
     /\ map RoomManager.id (RoomManager.participants st') = [JStr "u1"; JStr "u2"])
  /\ (exists r st' t,
        RoomManager.loadRoomData
          (Samples.room_env (Some "r2") (Ok MoreSamples.room_no_list)
             (Throw (Samples.http_error 403 "Forbidden")) "u3")
          RoomManager.constructed
        = (Ok r, st', t)
        /\ List.filter is_fetch t
           = [RoomManager.Fetch (GetRoom "r2");
              RoomManager.Fetch (PostJoin (JStr "r2"))]
        /\ RoomManager.participants st' = [MoreSamples.entry "u3" false false]).
Proof.
  split.
  - destruct (loadRoomData_joins_once
                (Samples.room_env (Some "r1") (Ok Samples.room_u1_u2)
                   (Throw (Samples.http_error 403 "Forbidden")) "u3")
                "r1" Samples.room_u1_u2 (Samples.user "u3") [JStr "u1"; JStr "u2"]
                RoomManager.constructed)
      as (r & st' & t & Hrun & Hsent & Hone & Hfail);
      [reflexivity|discriminate|reflexivity|reflexivity
      |split; [reflexivity|left; reflexivity]
      |simpl; intros [H|[H|[]]]; discriminate|].
    destruct (Hfail (Samples.http_error 403 "Forbidden") eq_refl)
      as (Hr & _ & Hlisted & _).
    destruct (Hlisted ltac:(discriminate)) as (_ & _ & Hids).
    exists r, st', t. split; [exact Hrun|]. split; [exact Hsent|].
    split; [exact Hone|]. split; [exact Hr|].
    apply (Hids (fun _ => JUndefined)); [|reflexivity].
    repeat constructor; eexists; reflexivity.
  - destruct (loadRoomData_joins_once
                (Samples.room_env (Some "r2") (Ok MoreSamples.room_no_list)
                   (Throw (Samples.http_error 403 "Forbidden")) "u3")
                "r2" MoreSamples.room_no_list (Samples.user "u3") []
                RoomManager.constructed)
      as (r & st' & t & Hrun & Hsent & _ & Hfail);
      [reflexivity|discriminate|reflexivity|reflexivity
      |split; [reflexivity|right; split; reflexivity]
      |intros []|].
    destruct (Hfail (Samples.http_error 403 "Forbidden") eq_refl)
      as (_ & _ & _ & Halone).
    exists r, st', t. split; [exact Hrun|]. split; [exact Hsent|].
    etransitivity;
      [apply (Halone eq_refl
                (Samples.obj [("displayName", JStr "u3"); ("avatar", JStr "U")]));
       [reflexivity|intros [H|H]; discriminate]
      |reflexivity].
Defined.

Lemma loadRoomData_participants_witness :
  exists r st' t,
    RoomManager.loadRoomData
      (Samples.room_env (Some "r1") (Ok Samples.room_u1_u2) (Ok JNull) "u1")
      RoomManager.constructed
    = (Ok r, st', t)
    /\ RoomManager.isOwner st' = true
    /\ map (fun p => (RoomManager.id p, RoomManager.isHost p))
           (RoomManager.participants st')
       = [(JStr "u1", true); (JStr "u2", false)]
    /\ deduplicated (RoomManager.participants st').
Proof.
  destruct (loadRoomData_participants
              (Samples.room_env (Some "r1") (Ok Samples.room_u1_u2) (Ok JNull) "u1"))
    as [Hall Hsample].
  destruct (Hsample "r1"
              (list_to_map [("_id", JStr "r1"); ("creator", JStr "u1");
                            ("participants", JArr [JStr "u1"; JStr "u2"])])
              (Samples.user "u1") RoomManager.constructed)
    as (r & st' & t & Hrun & Hown & Hps & _);
    [reflexivity|discriminate|reflexivity|reflexivity|reflexivity|reflexivity
    |reflexivity|].
  exists r, st', t. split; [exact Hrun|]. split; [exact Hown|].
  split; [exact (Hps (fun _ => JUndefined) eq_refl)|].
  apply (Hall r RoomManager.constructed st' t Hrun).
Defined.

(** C9 as stated fails when the batch lookup of the display records is
    down: the load of the room with participants ["u1","u2"] by its creator
    "u1" still returns and sets the ownership flag, but it leaves no
    participant record at all, where the specification has two. *)
Lemma loadRoomData_participants_lookup_down :
  fst (fst (RoomManager.loadRoomData
              (MoreSamples.directory_env
                 (Throw (Samples.http_error 500 "Server Error")) "u1")
              RoomManager.constructed))
  = Ok {| RoomManager.raw := Samples.room_u1_u2;
          RoomManager.participants_written := None |}
  /\ RoomManager.isOwner
       (snd (fst (RoomManager.loadRoomData
                    (MoreSamples.directory_env
                       (Throw (Samples.http_error 500 "Server Error")) "u1")
                    RoomManager.constructed)))
     = true
  /\ RoomManager.participants
       (snd (fst (RoomManager.loadRoomData
                    (MoreSamples.directory_env
                       (Throw (Samples.http_error 500 "Server Error")) "u1")
                    RoomManager.constructed)))
     = []
  /\ map (fun p => (RoomManager.id p, RoomManager.isHost p))
         (RoomManager.participants
            (snd (fst (RoomManager.loadRoomData
                         (MoreSamples.directory_env
                            (Throw (Samples.http_error 500 "Server Error")) "u1")
                         RoomManager.constructed))))
     <> [(JStr "u1", true); (JStr "u2", false)].
Proof.
  split; [reflexivity|]. split; [reflexivity|]. split; [reflexivity|].
  vm_compute. discriminate.
Qed.

(** ** room-manager.js: call status *)

Section CallStatusFacts.
Import RoomManager RoomManagerMore.
Context (env : Env).
Implicit Types st : State.

Lemma mark_first_none (userId : JsVal) (b : bool) (ps : list Participant) :
  (forall p, In p ps -> strict_equals (id p) userId = false) ->
  mark_first userId b ps = None.
Proof.
  induction ps as [|p ps IH]; simpl; intros H; [done|].
  rewrite (H p); [|by left]. rewrite IH; [done|]. intros q Hq. apply H. by right.
Qed.

Lemma mark_first_at (userId : JsVal) (b : bool) (ps : list Participant)
    (i : nat) (p : Participant) :
  ps !! i = Some p ->
  strict_equals (id p) userId = true ->
  (forall j q, (j < i)%nat -> ps !! j = Some q ->
               strict_equals (id q) userId = false) ->
  mark_first userId b ps = Some (<[i := with_inCall b p]> ps).
Proof.
  revert i. induction ps as [|q ps IH]; intros i Hi Hp Hbefore; [done|].
  destruct i as [|i]; simpl in *.
  - injection Hi as ->. rewrite Hp. reflexivity.
  - rewrite (Hbefore 0%nat q); [|lia|done].
    rewrite (IH i Hi Hp); [done|].
    intros j r Hj Hr. apply (Hbefore (S j) r); [lia|done].
Qed.

(** X9: updateParticipantCallStatus touches nothing when no participant
    has the id; otherwise it sets the call status of the first entry with
    that id and of no other, leaves every id, host mark and the length of
    the sequence as they were, and sends nothing. *)
Theorem updateParticipantCallStatus_effect (userId : JsVal) (b : bool) st :
  ((forall p, In p (participants st) -> strict_equals (id p) userId = false) ->
   updateParticipantCallStatus env userId b st = (Ok tt, st, []))
  /\ (forall (i : nat) (p : Participant),
        participants st !! i = Some p ->
        strict_equals (id p) userId = true ->
        (forall j q, (j < i)%nat -> participants st !! j = Some q ->
                     strict_equals (id q) userId = false) ->
        exists r t,
          updateParticipantCallStatus env userId b st
          = (r, set_participants (<[i := with_inCall b p]> (participants st)) st, t)
          /\ List.filter is_fetch t = []
          /\ map id (<[i := with_inCall b p]> (participants st))
             = map id (participants st)
          /\ map isHost (<[i := with_inCall b p]> (participants st))
             = map isHost (participants st)
          /\ length (<[i := with_inCall b p]> (participants st))
             = length (participants st)).
Proof.
  split.
  - intros Hnone. unfold updateParticipantCallStatus, Eff.bind, Eff.gets.
    by rewrite (mark_first_none userId b _ Hnone).
  - intros i p Hi Hp Hbefore.
    unfold updateParticipantCallStatus.
    unfold Eff.bind at 1. unfold Eff.gets at 1.
    rewrite (mark_first_at userId b _ i p Hi Hp Hbefore).
    unfold Eff.bind, Eff.modify.
    destruct (updateParticipantsList_run env
                (set_participants (<[i := with_inCall b p]> (participants st)) st))
      as (r & t & -> & Hq).
    exists r, t. split; [reflexivity|]. split.
    { clear -Hq. induction Hq as [|ev t Hev _ IH]; simpl; [done|].
      by rewrite Hev. }
    split; [|split].
    + change (map id) with (fmap (M := list) id).
      rewrite list_fmap_insert. simpl. apply list_insert_id.
      by rewrite list_lookup_fmap, Hi.
    + change (map isHost) with (fmap (M := list) isHost).
      rewrite list_fmap_insert. simpl. apply list_insert_id.
      by rewrite list_lookup_fmap, Hi.
    + apply length_insert.
Qed.

(** Setting the same status twice is the same as setting it once. *)
Lemma mark_first_twice (userId : JsVal) (b : bool) (ps ps' : list Participant) :
  mark_first userId b ps = Some ps' ->
  mark_first userId b ps' = Some ps'.
Proof.
  revert ps'. induction ps as [|p ps IH]; simpl; intros ps' H; [done|].
  destruct (strict_equals (id p) userId) eqn:E.
  - injection H as <-. simpl. by rewrite E.
  - destruct (mark_first userId b ps) as [qs|]; [|done].
    injection H as <-. simpl. rewrite E. by rewrite (IH qs eq_refl).
Qed.
End CallStatusFacts.

Lemma updateParticipantCallStatus_effect_witness :
  RoomManagerMore.updateParticipantCallStatus
    (Samples.room_env (Some "r1") (Ok Samples.room_u1_u2) (Ok JNull) "u1")
    (JStr "u9") true (MoreSamples.loaded Samples.room_u1_u2 true MoreSamples.u1_u2)
  = (Ok tt, MoreSamples.loaded Samples.room_u1_u2 true MoreSamples.u1_u2, [])
  /\ exists r t,
       RoomManagerMore.updateParticipantCallStatus
         (Samples.room_env (Some "r1") (Ok Samples.room_u1_u2) (Ok JNull) "u1")
         (JStr "u2") true
         (MoreSamples.loaded Samples.room_u1_u2 true MoreSamples.u1_u2)
       = (r,
          MoreSamples.loaded Samples.room_u1_u2 true
            [MoreSamples.entry "u1" true false; MoreSamples.entry "u2" false true],
          t).
Proof.
  split.
  - destruct (updateParticipantCallStatus_effect
                (Samples.room_env (Some "r1") (Ok Samples.room_u1_u2) (Ok JNull) "u1")
                (JStr "u9") true
                (MoreSamples.loaded Samples.room_u1_u2 true MoreSamples.u1_u2))
      as [Habsent _].
    apply Habsent. simpl. intros p [<-|[<-|[]]]; reflexivity.
  - destruct (updateParticipantCallStatus_effect
                (Samples.room_env (Some "r1") (Ok Samples.room_u1_u2) (Ok JNull) "u1")
                (JStr "u2") true
                (MoreSamples.loaded Samples.room_u1_u2 true MoreSamples.u1_u2))
      as [_ Hfound].
    destruct (Hfound 1%nat (MoreSamples.entry "u2" false false))
      as (r & t & Hrun & _); [reflexivity|reflexivity| |].
    + intros [|j] q Hj Hq; [|lia]. injection Hq as <-. reflexivity.
    + exists r, t. exact Hrun.
Defined.

(** ** room-manager.js: saveRoomSettings and deleteRoom *)

Section RoomSettingsFacts.
Import RoomSettings.
Context (env : Env).
Implicit Types st : State.

(** X10: deleteRoom never raises and never changes the view-model; a
    DELETE is sent only for the owner and after the confirmation, at most
    once; and the redirect to the room list is scheduled exactly when that
    DELETE was sent and succeeded. *)
Theorem deleteRoom_guarded st :
  exists t,
    deleteRoom env st = (Ok tt, st, t)
    /\ (forall call, In (Api call) t ->
          RoomManager.isOwner (view st) = true
          /\ RoomManager.confirm (page env) confirm_delete = true
          /\ exists roomId, call = DeleteRoom roomId
             /\ List.filter (fun ev => match ev with Api _ => true | _ => false end) t
                = [Api (DeleteRoom roomId)])
    /\ (In redirect_after_delete t
        <-> exists roomId v,
              In (Api (DeleteRoom roomId)) t
              /\ api env (DeleteRoom roomId) = Done v).
Proof.
  unfold deleteRoom, redirect_after_delete.
  unfold Eff.bind at 1. unfold Eff.gets at 1.
  destruct (RoomManager.isOwner (view st)) eqn:Ho; cbn [negb].
  2: { unfold showToast. destruct (RoomManager.showToast_defined (page env));
         simpl; eexists; (split; [reflexivity|]);
         (split; [intros c [H|[]] || intros c []; discriminate|]);
         (split; [intros [H|[]] || intros []; discriminate
                 |intros (r & v & [H|[]] & _) || intros (r & v & [] & _);
                  discriminate]). }
  unfold Eff.bind at 1. unfold Eff.emit at 1.
  destruct (RoomManager.confirm (page env) confirm_delete) eqn:Hc; cbn [negb].
  2: { simpl. eexists; (split; [reflexivity|]).
       split; [intros c [H|[]]; discriminate|].
       split; [intros [H|[]]; discriminate
              |intros (r & v & [H|[]] & _); discriminate]. }
  unfold Eff.try_catch.
  unfold Eff.bind at 1. unfold Eff.gets at 1. unfold Eff.bind at 1.
  unfold Eff.lift at 1.
  destruct (get_prop _ "_id") as [i|e].
  2: { unfold showToast. destruct (RoomManager.showToast_defined (page env));
         simpl; eexists; (split; [reflexivity|]);
         (split; [intros c [H|[H|[]]] || intros c [H|[]]; discriminate|]);
         (split; [intros [H|[H|[]]] || intros [H|[]]; discriminate
                 |intros (r & v & [H|[H|[]]] & _) || intros (r & v & [H|[]] & _);
                  discriminate]). }
  unfold Eff.bind at 1. unfold Eff.emit at 1.
  set (roomId := js_or i _).
  destruct (api env (DeleteRoom roomId)) as [v|f] eqn:Ha.
  - unfold showToast, hide_settings_modal.
    destruct (RoomManager.showToast_defined (page env));
      destruct (settingsModal env); simpl;
      eexists; (split; [reflexivity|]);
      (split;
       [intros c Hin; repeat split; try done;
        exists roomId; split; [|reflexivity];
        simpl in Hin; intuition congruence
       |split; [intros _; exists roomId, v; split; [simpl; tauto|done]
               |intros _; simpl; tauto]]).
  - unfold Eff.throw, showToast.
    destruct (RoomManager.showToast_defined (page env)); simpl;
      eexists; (split; [reflexivity|]);
      (split;
       [intros c Hin; repeat split; try done;
        exists roomId; split; [|reflexivity];
        simpl in Hin; intuition congruence
       |split; [simpl; intuition discriminate
               |intros (r & v & Hin & Hv); simpl in Hin;
                assert (r = roomId) by (intuition congruence); subst r; congruence]]).
Qed.

Ltac one_put roomId v :=
  let c := fresh "c" in
  let Hin := fresh "Hin" in
  intros c Hin; simpl in Hin;
  assert (c = PutRoom roomId (Profile.trim v) (description_sent env))
    by (intuition congruence);
  subst c; exists roomId, v; split; [done|]; split; [done|]; split; reflexivity.

(** X11: saveRoomSettings never raises; it sends at most one PUT, and that
    PUT carries the trimmed, non-empty value of the name input and the
    trimmed description; the settings held locally change only after a PUT
    that succeeded, to exactly those two values. *)
Theorem saveRoomSettings_safe st :
  exists st' t,
    saveRoomSettings env st = (Ok tt, st', t)
    /\ (forall call, In (Api call) t ->
          exists roomId v,
            roomNameInput env = Some v /\ Profile.trim v <> ""
            /\ call = PutRoom roomId (Profile.trim v) (description_sent env)
            /\ List.filter (fun ev => match ev with Api _ => true | _ => false end) t
               = [Api call])
    /\ (st' = st
        \/ exists roomId v r,
             roomNameInput env = Some v
             /\ api env (PutRoom roomId (Profile.trim v) (description_sent env)) = Done r
             /\ st' = {| view := view st;
                         name_written := Some (Profile.trim v);
                         description_written := Some (description_sent env) |}).
Proof.
  unfold saveRoomSettings.
  unfold Eff.bind at 1. unfold Eff.gets at 1.
  destruct (truthy _) eqn:Hloaded; cbn [negb].
  2: { unfold showToast. destruct (RoomManager.showToast_defined (page env));
         simpl; eexists _, _; (split; [reflexivity|]);
         (split; [intros c [H|[]] || intros c []; discriminate|by left]). }
  unfold Eff.try_catch.
  destruct (roomNameInput env) as [v|] eqn:Hname.
  2: { unfold Eff.throw, save_failed, showToast_detail, failure_detail. simpl.
       destruct (RoomManager.showToast_defined (page env));
         simpl; eexists _, _; (split; [reflexivity|]);
         (split; [intros c [H|[]] || intros c []; discriminate|by left]). }
  fold (description_sent env).
  destruct (String.eqb (Profile.trim v) "") eqn:Hblank.
  { unfold showToast. destruct (RoomManager.showToast_defined (page env));
      simpl; eexists _, _; (split; [reflexivity|]);
      (split; [intros c [H|[]] || intros c []; discriminate|by left]). }
  apply String.eqb_neq in Hblank.
  unfold Eff.bind at 1. unfold Eff.emit at 1.
  set (roomId := js_or _ _).
  destruct (api env (PutRoom roomId (Profile.trim v) (description_sent env)))
    as [r|f] eqn:Ha.
  - unfold Eff.bind at 1. unfold write_settings at 1.
    destruct (RoomManager.raw (RoomManager.currentRoomData (view st))) eqn:Hraw;
      try discriminate;
      try (unfold save_failed, showToast_detail;
           destruct (RoomManager.showToast_defined (page env)); simpl;
           eexists _, _; (split; [reflexivity|]);
           (split; [one_put roomId v|by left]));
      unfold showToast, hide_settings_modal;
      destruct (RoomManager.showToast_defined (page env));
      destruct (settingsModal env); simpl;
      eexists _, _; (split; [reflexivity|]);
      (split; [one_put roomId v|right; exists roomId, v, r; done]).
  - unfold save_failed, showToast_detail.
    destruct (RoomManager.showToast_defined (page env));
      [destruct (failure_detail (error f) (body f))|]; simpl;
      eexists _, _; (split; [reflexivity|]);
      (split; [one_put roomId v|by left]).
Qed.

Lemma blind_ret {A} (a : A) : ownership_blind (Eff.ret a : M A).
Proof. intros b st. reflexivity. Qed.

Lemma blind_throw {A} (e : JsError) : ownership_blind (Eff.throw e : M A).
Proof. intros b st. reflexivity. Qed.

Lemma blind_emit (ev : Event) : ownership_blind (Eff.emit ev : M unit).
Proof. intros b st. reflexivity. Qed.

Lemma blind_bind {A B} (m : M A) (k : A -> M B) :
  ownership_blind m -> (forall a, ownership_blind (k a)) ->
  ownership_blind (Eff.bind m k).
Proof.
  intros Hm Hk b st. unfold Eff.bind. rewrite (Hm b st).
  destruct (m st) as [[[a|e] s1] t1]; simpl; [|reflexivity].
  rewrite (Hk a b s1). by destruct (k a s1) as [[r s2] t2].
Qed.

Lemma blind_bind_gets {A B} (f : State -> A) (k : A -> M B) :
  (forall b st, f (with_owner b st) = f st) ->
  (forall a, ownership_blind (k a)) ->
  ownership_blind (Eff.bind (Eff.gets f) k).
Proof.
  intros Hf Hk b st. unfold Eff.bind, Eff.gets. rewrite Hf.
  rewrite (Hk (f st) b st). by destruct (k (f st) st) as [[r s2] t2].
Qed.

Lemma blind_try_catch {A} (m : M A) (h : JsError -> M A) :
  ownership_blind m -> (forall e, ownership_blind (h e)) ->
  ownership_blind (Eff.try_catch m h).
Proof.
  intros Hm Hh b st. unfold Eff.try_catch. rewrite (Hm b st).
  destruct (m st) as [[[a|e] s1] t1]; simpl; [reflexivity|].
  rewrite (Hh e b s1). by destruct (h e s1) as [[r s2] t2].
Qed.

Lemma blind_showToast (msg kind : string) : ownership_blind (showToast env msg kind).
Proof.
  unfold showToast. destruct (RoomManager.showToast_defined (page env));
    [apply blind_emit|apply blind_ret].
Qed.

Lemma blind_save_failed (e : JsError) (b : JsVal) :
  ownership_blind (save_failed env e b).
Proof.
  unfold save_failed, showToast_detail.
  destruct (RoomManager.showToast_defined (page env)); [|apply blind_ret].
  destruct (failure_detail e b); apply blind_emit.
Qed.

Lemma blind_write_settings (n d : string) : ownership_blind (write_settings n d).
Proof.
  intros b st. unfold write_settings.
  cbn [with_owner view RoomManager.set_isOwner RoomManager.currentRoomData].
  by destruct (RoomManager.raw (RoomManager.currentRoomData (view st))).
Qed.

(** X12: saveRoomSettings never looks at the ownership flag: run by
    somebody who is not the owner it sends the same PUT, writes the same
    settings, shows the same notifications and starts the same redraw as
    for the owner (what updateRoomDisplay then draws is outside this
    model). *)
Theorem saveRoomSettings_ignores_ownership :
  ownership_blind (saveRoomSettings env).
Proof.
  unfold saveRoomSettings. apply blind_bind_gets; [reflexivity|]. intros d.
  destruct (truthy (RoomManager.raw d)); cbn [negb]; [|apply blind_showToast].
  apply blind_try_catch; [|intros e; apply blind_save_failed].
  destruct (roomNameInput env) as [v|]; [|apply blind_throw].
  destruct (String.eqb (Profile.trim v) ""); [apply blind_showToast|].
  apply blind_bind; [apply blind_emit|]. intros _.
  destruct (api env _) as [r|f]; [|apply blind_save_failed].
  apply blind_bind; [apply blind_write_settings|]. intros _.
  apply blind_bind; [apply blind_emit|]. intros _.
  apply blind_bind; [|intros _; apply blind_showToast].
  unfold hide_settings_modal. destruct (settingsModal env);
    [apply blind_ret|apply blind_ret|apply blind_emit].
Qed.
End RoomSettingsFacts.

(** ** topicsClient.js: the other exports *)

Section TopicsClientMoreFacts.
Import TopicsClientMore.
Context (env : Env).

Lemma js_or_defined (a b : JsVal) : defined b -> defined (js_or a b).
Proof.
  intros Hb. unfold js_or. destruct (truthy a) eqn:E; [|exact Hb].
  split; intros ->; discriminate.
Qed.

Lemma js_or_not_undefined (a b : JsVal) : b <> JUndefined -> js_or a b <> JUndefined.
Proof.
  intros Hb. unfold js_or. destruct (truthy a) eqn:E; [|exact Hb].
  intros ->. discriminate.
Qed.

Lemma get_prop_defined (v : JsVal) (k : string) :
  defined v -> get_prop v k = Ok (field v k).
Proof. intros [Hu Hn]. by destruct v. Qed.

(** X13: whatever the server sent, the record postTopic builds for a
    topic has a value in every field but the id: no field is [undefined],
    only authorId, userId and updated may be [null]; a topic that carries a
    creation date but no activity date of its own gets that creation date as
    latest activity; a topic that carries neither gets two readings of the
    clock, the one for [created] made first, which need not be equal. *)
Theorem normalize_topic_filled (topicData : JsVal) :
  topic_filled (normalize_topic env topicData)
  /\ (truthy (field topicData "latestActivity") = false ->
      truthy (field topicData "created") = true ->
      created (normalize_topic env topicData) = field topicData "created"
      /\ latestActivity (normalize_topic env topicData)
         = field topicData "created")
  /\ (truthy (field topicData "latestActivity") = false ->
      truthy (field topicData "created") = false ->
      created (normalize_topic env topicData) = JStr (now_iso env 0)
      /\ latestActivity (normalize_topic env topicData) = JStr (now_iso env 1)).
Proof.
  split; [|split].
  - unfold topic_filled, normalize_topic; cbn [title description category tags
      author created postCount viewCount latestActivity authorId userId updated].
    repeat split;
      try (apply js_or_defined; split; discriminate);
      try (eapply proj1, js_or_defined; split; discriminate);
      try (eapply proj2, js_or_defined; split; discriminate);
      apply js_or_not_undefined; discriminate.
  - intros Hla Hcr. unfold normalize_topic; cbn [latestActivity created].
    unfold js_or. by rewrite Hla, Hcr.
  - intros Hla Hcr. unfold normalize_topic; cbn [latestActivity created].
    unfold js_or. by rewrite Hla, Hcr.
Qed.

(** X14: postTopic refuses a title that is missing or blank before
    anything is sent; otherwise it sends the trimmed title once, with the
    content as given and the metadata as given or [null] when it was left
    out, and from an answer that is a topic, bare or wrapped as
    {topic: ...}, it returns the normalized record of that topic; an empty
    answer makes it fail. *)
Theorem postTopic_contract (s : string) (content_ metadata : JsVal) :
  (Profile.trim s = "" ->
   postTopic env (JStr s) content_ metadata tt
   = (Throw (Error "Title is required"), tt, []))
  /\ (Profile.trim s <> "" ->
      forall resp,
        postJsonWithAuth env
          (PostTopic (Profile.trim s) content_ (default_null metadata))
        = Ok resp ->
        (defined resp ->
         postTopic env (JStr s) content_ metadata tt
         = (Ok (normalize_topic env (js_or (field resp "topic") resp)), tt,
            [Sent (PostTopic (Profile.trim s) content_ (default_null metadata))]))
        /\ (nullish resp ->
            exists e,
              postTopic env (JStr s) content_ metadata tt
              = (Throw e, tt,
                 [Sent (PostTopic (Profile.trim s) content_
                          (default_null metadata))]))).
Proof.
  split.
  - intros Hblank. unfold postTopic.
    destruct (truthy (JStr s)); cbn [negb]; [|reflexivity].
    unfold Eff.bind, Eff.lift. cbn [trim_title]. by rewrite Hblank.
  - intros Hne resp Hpost.
    assert (Htruthy : truthy (JStr s) = true).
    { simpl. destruct s; [|reflexivity]. by destruct Hne. }
    apply String.eqb_neq in Hne.
    split.
    + intros Hdef. unfold postTopic. rewrite Htruthy. cbn [negb].
      unfold Eff.bind at 1. unfold Eff.lift at 1. cbn [trim_title]. rewrite Hne.
      unfold Eff.try_catch, Eff.bind, Eff.emit, Eff.lift.
      rewrite Hpost, (get_prop_defined resp "topic" Hdef). reflexivity.
    + intros Hnull. unfold postTopic. rewrite Htruthy. cbn [negb].
      unfold Eff.bind at 1. unfold Eff.lift at 1. cbn [trim_title]. rewrite Hne.
      unfold Eff.try_catch, Eff.bind, Eff.emit, Eff.lift.
      rewrite Hpost. destruct Hnull as [-> | ->]; eexists; reflexivity.
Qed.

(** X15: called with a post id, getPostLikes never fails: it sends one
    GET and always returns a record whose likes are a number; a failed
    request or an empty answer gives the record {likes: 0, userLiked:
    false} for that post, and any other answer is read field by field,
    userLiked being true only for the boolean [true]. *)
Theorem getPostLikes_never_fails (postId : JsVal) :
  truthy postId = true ->
  exists r,
    getPostLikes env postId tt = (Ok r, tt, [Sent (GetPostLikes postId)])
    /\ (exists n, likes r = JNum n)
    /\ ((exists e, fetchJsonWithAuth env (GetPostLikes postId) = Throw e)
        \/ (exists resp, fetchJsonWithAuth env (GetPostLikes postId) = Ok resp
                         /\ nullish resp) ->
        r = no_likes postId)
    /\ (forall resp,
          fetchJsonWithAuth env (GetPostLikes postId) = Ok resp ->
          defined resp ->
          (userLiked r = true <-> field resp "userLiked" = JBool true)
          /\ (forall n, field resp "likes" = JNum n -> likes r = JNum n)
          /\ post_id r = js_or (field resp "post_id") postId).
Proof.
  intros Hid. unfold getPostLikes. rewrite Hid. cbn [negb].
  unfold Eff.try_catch, Eff.bind, Eff.emit, Eff.lift.
  destruct (fetchJsonWithAuth env (GetPostLikes postId)) as [resp|e] eqn:Hf.
  - destruct (get_prop resp "likes") as [c|e] eqn:Hc.
    + assert (Hdef : defined resp).
      { destruct resp; try discriminate; split; discriminate. }
      rewrite (get_prop_defined resp "likes" Hdef) in Hc. injection Hc as <-.
      eexists. split; [reflexivity|]. cbn [likes userLiked post_id].
      split; [|split].
      * destruct (String.eqb (typeof (field resp "likes")) "number") eqn:E;
          [|eauto]. by apply typeof_number in E.
      * intros [[e He]|(resp' & [= <-] & [-> | ->])];
          [discriminate|destruct Hdef as [_ H]; by destruct H
          |destruct Hdef as [H _]; by destruct H].
      * intros resp' [= <-] _. split; [|split; [|reflexivity]].
        -- destruct (field resp "userLiked") as [| |[]| | | |]; simpl;
             split; congruence.
        -- intros n ->. reflexivity.
    + eexists. split; [reflexivity|]. cbn [likes userLiked post_id].
      split; [eauto|]. split; [reflexivity|].
      intros resp' [= <-] Hdef.
      rewrite (get_prop_defined resp "likes" Hdef) in Hc. discriminate.
  - eexists. split; [reflexivity|]. cbn [likes userLiked post_id].
    split; [eauto|]. split; [reflexivity|]. intros resp' H. discriminate.
Qed.

(** X16: editPost and deletePostApi send nothing without both ids, hand
    back the answer of the server untouched, and on failure throw an error
    that keeps the HTTP status of the failure next to the prefixed message;
    getTopic and postReply prefix the message too but drop the status. *)
Theorem edit_and_delete_keep_status (topicId postId payload : JsVal) :
  (truthy topicId = false \/ truthy postId = false ->
   editPost env topicId postId payload tt
   = (Throw (Error "topicId and postId required"), tt, [])
   /\ deletePostApi env topicId postId tt
      = (Throw (Error "topicId and postId required"), tt, []))
  /\ (truthy topicId = true -> truthy postId = true ->
      (forall v,
          fetchJsonWithAuth env (EditPost topicId postId payload) = Ok v ->
          editPost env topicId postId payload tt
          = (Ok v, tt, [Sent (EditPost topicId postId payload)]))
      /\ (forall v,
            fetchJsonWithAuth env (DeletePost topicId postId) = Ok v ->
            deletePostApi env topicId postId tt
            = (Ok v, tt, [Sent (DeletePost topicId postId)]))
      /\ (forall e code,
            fetchJsonWithAuth env (EditPost topicId postId payload) = Throw e ->
            status e = Some code -> code <> 0 ->
            editPost env topicId postId payload tt
            = (Throw (MkError ("Edit post failed: " +:+ message e) (Some code)),
               tt, [Sent (EditPost topicId postId payload)]))
      /\ (forall e code,
            fetchJsonWithAuth env (DeletePost topicId postId) = Throw e ->
            status e = Some code -> code <> 0 ->
            deletePostApi env topicId postId tt
            = (Throw (MkError ("Delete post failed: " +:+ message e) (Some code)),
               tt, [Sent (DeletePost topicId postId)]))
      /\ (forall e,
            fetchJsonWithAuth env (GetTopic topicId) = Throw e ->
            getTopic env topicId tt
            = (Throw (MkError ("GET /api/topics/:id failed: " +:+ message e) None),
               tt, [Sent (GetTopic topicId)]))
      /\ (forall e,
            postJsonWithAuth env (PostReply topicId (default_object payload)) = Throw e ->
            postReply env topicId payload tt
            = (Throw (MkError ("POST /api/topics/:id/posts failed: " +:+ message e) None),
               tt, [Sent (PostReply topicId (default_object payload))]))).
Proof.
  split.
  - intros H. unfold editPost, deletePostApi.
    destruct H as [-> | ->]; cbn [negb orb]; [done|].
    rewrite orb_true_r. done.
  - intros Ht Hp. unfold editPost, deletePostApi, getTopic, postReply.
    rewrite Ht, Hp. cbn [negb orb].
    unfold Eff.try_catch, Eff.bind, Eff.emit, Eff.lift, Eff.throw, with_status.
    repeat split.
    + intros v ->. reflexivity.
    + intros v ->. reflexivity.
    + intros e code -> -> Hc. apply Z.eqb_neq in Hc. by rewrite Hc.
    + intros e code -> -> Hc. apply Z.eqb_neq in Hc. by rewrite Hc.
    + intros e ->. reflexivity.
    + intros e ->. reflexivity.
Qed.
End TopicsClientMoreFacts.

Lemma normalize_topic_filled_witness :
  TopicsClientMore.latestActivity
    (TopicsClientMore.normalize_topic (MoreSamples.topics_env (Ok JNull) (Ok JNull))
       MoreSamples.topic_t1)
  = JStr "2024-12-24T08:00:00.000Z"
  /\ TopicsClientMore.created
       (TopicsClientMore.normalize_topic (MoreSamples.topics_env (Ok JNull) (Ok JNull))
          (Samples.obj [("id", JStr "t2")]))
     = JStr "2025-01-01T00:00:00.000Z"
  /\ TopicsClientMore.latestActivity
       (TopicsClientMore.normalize_topic (MoreSamples.topics_env (Ok JNull) (Ok JNull))
          (Samples.obj [("id", JStr "t2")]))
     = JStr "2025-01-01T00:00:00.001Z".
Proof.
  split.
  - destruct (normalize_topic_filled (MoreSamples.topics_env (Ok JNull) (Ok JNull))
                MoreSamples.topic_t1) as (_ & Hdated & _).
    destruct (Hdated eq_refl eq_refl) as [_ Hlatest].
    etransitivity; [exact Hlatest|reflexivity].
  - destruct (normalize_topic_filled (MoreSamples.topics_env (Ok JNull) (Ok JNull))
                (Samples.obj [("id", JStr "t2")])) as (_ & _ & Hundated).
    destruct (Hundated eq_refl eq_refl) as [Hcreated Hlatest].
    split; (etransitivity; [eassumption|reflexivity]).
Defined.

Lemma postTopic_contract_witness :
  TopicsClientMore.postTopic
    (MoreSamples.topics_env (Ok JNull)
       (Ok (Samples.obj [("topic", MoreSamples.topic_t1)])))
    (JStr "   ") (JStr "When is it?") JNull tt
  = (Throw (Error "Title is required"), tt, [])
  /\ exists r,
       TopicsClientMore.postTopic
         (MoreSamples.topics_env (Ok JNull)
            (Ok (Samples.obj [("topic", MoreSamples.topic_t1)])))
         (JStr " Exam ") (JStr "When is it?") JUndefined tt
       = (Ok r, tt,
          [TopicsClientMore.Sent
             (TopicsClientMore.PostTopic "Exam" (JStr "When is it?") JNull)])
       /\ TopicsClientMore.id r = JStr "t1"
       /\ TopicsClientMore.author r = JStr "system".
Proof.
  split.
  - destruct (postTopic_contract
                (MoreSamples.topics_env (Ok JNull)
                   (Ok (Samples.obj [("topic", MoreSamples.topic_t1)])))
                "   " (JStr "When is it?") JNull) as [Hblank _].
    apply Hblank. reflexivity.
  - destruct (postTopic_contract
                (MoreSamples.topics_env (Ok JNull)
                   (Ok (Samples.obj [("topic", MoreSamples.topic_t1)])))
                " Exam " (JStr "When is it?") JUndefined) as [_ Hsent].
    destruct (Hsent ltac:(vm_compute; discriminate)
                (Samples.obj [("topic", MoreSamples.topic_t1)]) eq_refl)
      as [Htopic _].
    eexists. split; [|split].
    + etransitivity; [apply Htopic; split; discriminate|reflexivity].
    + reflexivity.
    + reflexivity.
Defined.

Lemma getPostLikes_never_fails_witness :
  TopicsClientMore.getPostLikes
    (MoreSamples.topics_env (Throw (Samples.http_error 500 "Server Error")) (Ok JNull))
    (JStr "p1") tt
  = (Ok (no_likes (JStr "p1")), tt,
     [TopicsClientMore.Sent (TopicsClientMore.GetPostLikes (JStr "p1"))]).
Proof.
  destruct (getPostLikes_never_fails
              (MoreSamples.topics_env (Throw (Samples.http_error 500 "Server Error"))
                 (Ok JNull))
              (JStr "p1") eq_refl) as (r & Hrun & _ & Hfailed & _).
  rewrite Hrun.
  rewrite (Hfailed (or_introl (ex_intro _ (Samples.http_error 500 "Server Error")
                                 eq_refl))).
  reflexivity.
Defined.

Lemma edit_and_delete_keep_status_witness :
  TopicsClientMore.editPost
    (MoreSamples.topics_env (Throw (Samples.http_error 409 "Conflict")) (Ok JNull))
    (JStr "t1") (JStr "") (JObj ∅) tt
  = (Throw (Error "topicId and postId required"), tt, [])
  /\ TopicsClientMore.editPost
       (MoreSamples.topics_env (Throw (Samples.http_error 409 "Conflict")) (Ok JNull))
       (JStr "t1") (JStr "p1") (JObj ∅) tt
     = (Throw (MkError "Edit post failed: Conflict" (Some 409)), tt,
        [TopicsClientMore.Sent
           (TopicsClientMore.EditPost (JStr "t1") (JStr "p1") (JObj ∅))])
  /\ TopicsClientMore.getTopic
       (MoreSamples.topics_env (Throw (Samples.http_error 409 "Conflict")) (Ok JNull))
       (JStr "t1") tt
     = (Throw (MkError "GET /api/topics/:id failed: Conflict" None), tt,
        [TopicsClientMore.Sent (TopicsClientMore.GetTopic (JStr "t1"))]).
Proof.
  split; [|split].
  - destruct (edit_and_delete_keep_status
                (MoreSamples.topics_env (Throw (Samples.http_error 409 "Conflict"))
                   (Ok JNull))
                (JStr "t1") (JStr "") (JObj ∅)) as [Hmissing _].
    destruct (Hmissing (or_intror eq_refl)) as [Hedit _]. exact Hedit.
  - destruct (edit_and_delete_keep_status
                (MoreSamples.topics_env (Throw (Samples.http_error 409 "Conflict"))
                   (Ok JNull))
                (JStr "t1") (JStr "p1") (JObj ∅)) as [_ Hgiven].
    destruct (Hgiven eq_refl eq_refl) as (_ & _ & Hedit & _).
    etransitivity;
      [apply (Hedit (Samples.http_error 409 "Conflict") 409);
       [reflexivity|reflexivity|discriminate]
      |reflexivity].
  - destruct (edit_and_delete_keep_status
                (MoreSamples.topics_env (Throw (Samples.http_error 409 "Conflict"))
                   (Ok JNull))
                (JStr "t1") (JStr "p1") (JObj ∅)) as [_ Hgiven].
    destruct (Hgiven eq_refl eq_refl) as (_ & _ & _ & _ & Hget & _).
    etransitivity;
      [apply (Hget (Samples.http_error 409 "Conflict")); reflexivity
      |reflexivity].
Defined.

(** ** profile.js: the edit form *)

Section FormFacts.
Import Profile.

Lemma validateField_accepts (doc : Document) (f : Field) :
  fst (validateField doc f) = true <-> field_accepted f.
Proof.
  unfold validateField, field_accepted.
  destruct (required f); cbn [andb].
  - destruct (String.eqb (trim (value f)) "") eqn:Eb.
    + apply String.eqb_eq in Eb. simpl. split; [done|]. intros [H _]. by destruct H.
    + apply String.eqb_neq in Eb. cbn [negb andb].
      destruct (String.eqb (field_id f) "editEmail") eqn:Ei; cbn [andb].
      * apply String.eqb_eq in Ei.
        destruct (valid (validateEmail (trim (value f)))) eqn:Ev; simpl.
        -- split; [|done]. intros _. split; [done|]. intros _ _. reflexivity.
        -- split; [done|]. intros [_ H]. specialize (H Ei Eb). discriminate.
      * apply String.eqb_neq in Ei. simpl. split; [|done]. intros _.
        split; [done|]. intros H. by destruct Ei.
  - destruct (String.eqb (field_id f) "editEmail") eqn:Ei; cbn [andb].
    + apply String.eqb_eq in Ei.
      destruct (String.eqb (trim (value f)) "") eqn:Eb; cbn [negb andb].
      * apply String.eqb_eq in Eb. simpl. split; [|done]. intros _.
        split; [done|]. intros _ H. by destruct H.
      * apply String.eqb_neq in Eb.
        destruct (valid (validateEmail (trim (value f)))) eqn:Ev; simpl.
        -- split; [|done]. intros _. split; [done|]. intros _ _. reflexivity.
        -- split; [done|]. intros [_ H]. specialize (H Ei Eb). discriminate.
    + apply String.eqb_neq in Ei. simpl. split; [|done]. intros _.
      split; [done|]. intros H. by destruct Ei.
Qed.

Lemma validateField_same_verdict (doc doc' : Document) (f : Field) :
  fst (validateField doc f) = fst (validateField doc' f).
Proof.
  destruct (fst (validateField doc f)) eqn:E.
  - symmetry. apply validateField_accepts. by apply (validateField_accepts doc).
  - destruct (fst (validateField doc' f)) eqn:E'; [|done].
    apply validateField_accepts in E'. apply (validateField_accepts doc) in E'.
    congruence.
Qed.

Lemma validateField_refused (doc : Document) (f : Field) :
  fst (validateField doc f) = false ->
  exists msg,
    msg <> ""
    /\ In (AppendError (field_id f +:+ "Error") msg) (snd (validateField doc f)).
Proof.
  unfold validateField.
  destruct (required f && String.eqb (trim (value f)) "").
  - intros _. exists "This field is required". split; [discriminate|].
    simpl. apply in_or_app. right. simpl. auto.
  - destruct (String.eqb (field_id f) "editEmail"
              && negb (String.eqb (trim (value f)) "")
              && negb (valid (validateEmail (trim (value f))))) eqn:E; [|discriminate].
    intros _. exists (message (validateEmail (trim (value f)))). split.
    + apply andb_true_iff in E as [_ E]. apply negb_true_iff in E.
      revert E. unfold validateEmail.
      destruct (test email_regex _); simpl; [|discriminate].
      destruct (endsWith _ _); simpl; discriminate.
    + simpl. apply in_or_app. right. simpl. auto.
Qed.

Lemma validate_each_verdict (ids : list string) (doc : Document) (ok : bool) :
  fst (validate_each doc ids ok) = true <->
  ok = true
  /\ forall i f, In i ids -> getElementById doc i = Some f -> field_accepted f.
Proof.
  revert doc ok. induction ids as [|i ids IH]; intros doc ok; simpl.
  - split; [intros ->; split; [done|intros ? ? []]|by intros [-> _]].
  - destruct (getElementById doc i) as [f|] eqn:Hf.
    + destruct (validateField doc f) as [v eff] eqn:Hv.
      match goal with |- context [validate_each ?d ids ?o] =>
        specialize (IH d o); destruct (validate_each d ids o) as [v' eff'] end.
      cbn [fst] in *. rewrite IH. clear IH.
      assert (Hacc : v = true <-> field_accepted f).
      { rewrite <- (validateField_accepts doc f). by rewrite Hv. }
      unfold getElementById in *. cbn [inputs] in *. rewrite andb_true_iff. split.
      * intros [[Hv' ->] Hrest]. split; [done|].
        intros j g [<-|Hj] Hg; [|by eapply Hrest].
        rewrite Hf in Hg. injection Hg as <-. by apply Hacc.
      * intros [-> Hall]. split; [split; [|done]|].
        -- apply Hacc. apply (Hall i f); [by left|done].
        -- intros j g Hj Hg. apply (Hall j g); [by right|done].
    + rewrite IH. split; intros [-> Hall]; (split; [done|]).
      * intros j g [<-|Hj] Hg; [congruence|by eapply Hall].
      * intros j g Hj Hg. apply (Hall j g); [by right|done].
Qed.

Lemma validate_each_reports (ids : list string) (doc : Document) (ok : bool)
    (i : string) (f : Field) :
  In i ids -> getElementById doc i = Some f -> ~ field_accepted f ->
  exists msg,
    msg <> ""
    /\ In (AppendError (i +:+ "Error") msg) (snd (validate_each doc ids ok)).
Proof.
  revert doc ok. induction ids as [|j ids IH]; intros doc ok Hin Hf Hbad;
    [destruct Hin|].
  simpl. destruct (decide (j = i)) as [->|Hji].
  - rewrite Hf.
    assert (Hv : fst (validateField doc f) = false).
    { destruct (fst (validateField doc f)) eqn:E; [|done].
      by apply validateField_accepts in E. }
    destruct (validateField_refused doc f Hv) as (msg & Hmsg & Hmsgin).
    assert (Hid : field_id f = i).
    { unfold getElementById in Hf.
      destruct (inputs doc !! i); [|done]. by injection Hf as <-. }
    destruct (validateField doc f) as [v eff].
    match goal with |- context [validate_each ?d ids ?o] =>
      destruct (validate_each d ids o) as [v' eff'] end.
    exists msg. split; [done|]. cbn [snd] in *.
    apply in_or_app. left. by rewrite <- Hid.
  - destruct Hin as [Hin|Hin]; [done|].
    destruct (getElementById doc j) as [g|] eqn:Hg; [|by apply IH].
    destruct (validateField doc g) as [v eff].
    match goal with |- context [validate_each ?d ids ?o] =>
      specialize (IH d o Hin); destruct (validate_each d ids o) as [v' eff'] end.
    destruct IH as (msg & Hmsg & Hmsgin); [exact Hf|exact Hbad|].
    exists msg. split; [done|]. cbn [snd] in *.
    apply in_or_app. by right.
Qed.

(** X17: validateAllFields passes exactly when each of the four fields it
    checks (name, e-mail, student number, program), if it is on the page, is
    not blank when required and, for a non-blank e-mail, holds an address
    validateEmail accepts; and it never stops at the first problem: every
    such field that fails gets its own non-empty error message appended. *)
Theorem validateAllFields_verdict (doc : Document) :
  (fst (validateAllFields doc) = true <->
   forall i f, In i requiredFields -> getElementById doc i = Some f ->
               field_accepted f)
  /\ (forall i f,
        In i requiredFields -> getElementById doc i = Some f ->
        ~ field_accepted f ->
        exists msg,
          msg <> ""
          /\ In (AppendError (i +:+ "Error") msg) (snd (validateAllFields doc))).
Proof.
  unfold validateAllFields. split.
  - rewrite validate_each_verdict. split; [by intros [_ H]|by split].
  - intros i f. apply validate_each_reports.
Qed.
End FormFacts.

Lemma validateAllFields_verdict_witness :
  field_accepted
    {| Profile.field_id := "editEmail"; Profile.required := true;
       Profile.value := "juan@paterostechnologicalcollege.edu.ph" |}
  /\ exists msg,
       msg <> ""
       /\ In (Profile.AppendError "editEmailError" msg)
             (snd (Profile.validateAllFields (MoreSamples.form "juan@gmail.com"))).
Proof.
  split.
  - destruct (validateAllFields_verdict
                (MoreSamples.form "juan@paterostechnologicalcollege.edu.ph"))
      as [[Hpass _] _].
    apply (Hpass eq_refl "editEmail"); [simpl; auto|reflexivity].
  - destruct (validateAllFields_verdict (MoreSamples.form "juan@gmail.com"))
      as [_ Hreport].
    apply (Hreport "editEmail"
             {| Profile.field_id := "editEmail"; Profile.required := true;
                Profile.value := "juan@gmail.com" |});
      [simpl; auto|reflexivity|].
    intros [_ Hemail]. specialize (Hemail eq_refl).
    assert (H : Profile.valid (Profile.validateEmail "juan@gmail.com") = true).
    { apply Hemail. vm_compute. discriminate. }
    vm_compute in H. discriminate.
Defined.

(** ** config/appConfig.js *)

Section AppConfigFacts.
Import AppConfig.

Lemma strip_app_slash (b : string) :
  strip_trailing_slashes (b +:+ "/") = strip_trailing_slashes b.
Proof.
  induction b as [|c b IH]; [reflexivity|].
  rewrite append_cons. simpl. by rewrite IH.
Qed.

Lemma strip_no_trailing_slash (b : string) :
  ~ ends_with_slash (strip_trailing_slashes b).
Proof.
  induction b as [|c b IH]; simpl; intros [s' Hs'].
  - destruct s'; discriminate.
  - destruct (Ascii.eqb c "/" && String.eqb (strip_trailing_slashes b) "") eqn:E.
    + destruct s'; discriminate.
    + destruct s' as [|a s'].
      * injection Hs' as -> Ht. rewrite Ht in E. discriminate.
      * rewrite append_cons in Hs'. injection Hs' as _ Ht.
        apply IH. by exists s'.
Qed.

(** X18: for a path that is not empty, apiUrl joins base and path with
    exactly one slash where the path brings at most one: trailing slashes
    of the base are dropped, a missing leading slash of the path is added,
    so that a base given with or without a final slash, and a path given
    with or without its leading slash, give the same URL; the empty path
    gives the base untouched. *)
Theorem apiUrl_joins (base path : string) :
  apiUrl base "" = base
  /\ (path <> "" ->
      apiUrl base path
      = strip_trailing_slashes base +:+ "/" +:+ without_leading_slash path
      /\ ~ ends_with_slash (strip_trailing_slashes base)
      /\ apiUrl (base +:+ "/") path = apiUrl base path
      /\ (starts_with_slash path = false ->
          apiUrl base ("/" +:+ path) = apiUrl base path)).
Proof.
  split; [reflexivity|]. intros Hne.
  apply String.eqb_neq in Hne.
  split; [|split; [apply strip_no_trailing_slash|split]].
  - unfold apiUrl. rewrite Hne.
    destruct path as [|c rest]; [done|]. simpl.
    destruct (Ascii.eqb c "/") eqn:E; [|reflexivity].
    apply Ascii.eqb_eq in E as ->. reflexivity.
  - unfold apiUrl. rewrite Hne. by rewrite strip_app_slash.
  - intros Hs. unfold apiUrl. rewrite Hne, Hs. reflexivity.
Qed.
End AppConfigFacts.

(** ** profile.js: uploading a photo and saving *)

Section ProfilePageFacts.
Import Profile ProfilePage.
Context (env : Env).
Implicit Types st : State.

Lemma Matches_literal (s t : string) : Matches (literal s) t <-> t = s.
Proof.
  revert t. induction s as [|c s IH]; intros t; simpl.
  - split; [intros H; by inversion H|intros ->; constructor].
  - rewrite Matches_seq. split.
    + intros (s1 & s2 & Ht & H1 & H2).
      apply Matches_lit in H1. apply IH in H2. by subst.
    + intros ->. exists (String c ""), s. split; [reflexivity|].
      split; [constructor|by apply IH].
Qed.

Lemma Matches_alt (r1 r2 : Regex) (t : string) :
  Matches (Alt r1 r2) t <-> Matches r1 t \/ Matches r2 t.
Proof.
  split.
  - intros H. inversion H; subst; auto.
  - intros [H|H]; [by apply MAltL|by apply MAltR].
Qed.

(** The expression of uploadProfilePhoto accepts four MIME types and
    nothing else. *)
Lemma image_type_regex_spec (t : string) :
  test image_type_regex t = true <-> In t photo_types.
Proof.
  rewrite test_Matches. unfold image_type_regex, photo_types.
  rewrite Matches_seq. split.
  - intros (s1 & s2 & Ht & H1 & H).
    apply Matches_literal in H1. subst.
    rewrite !Matches_alt, !Matches_literal in H. simpl.
    destruct H as [-> | [-> | [-> | ->]]]; auto.
  - intros H. simpl in H.
    destruct H as [<- | [<- | [<- | [<- | []]]]];
      [exists "image/", "jpeg"|exists "image/", "jpg"
      |exists "image/", "png"|exists "image/", "gif"];
      (split; [reflexivity|]); (split; [by apply Matches_literal|]);
      rewrite !Matches_alt, !Matches_literal; auto.
Qed.

(** X19: uploadProfilePhoto sends the file, once, to the upload endpoint
    under the API base with a 60 s timeout, and hands back what the server
    answers, exactly when a file is given, it is at most 10 MiB large and
    its type is image/jpeg, image/jpg, image/png or image/gif; every other
    call fails before anything is sent. *)
Theorem uploadProfilePhoto_checks (f : File) st :
  uploadProfilePhoto env None st = (Throw (Error "No file provided"), st, [])
  /\ (size f <= 10485760 -> In (type f) photo_types ->
      uploadProfilePhoto env (Some f) st
      = (postFormWithAuth env
           (AppConfig.strip_trailing_slashes (api_base env)
            +:+ "/api/uploads/profile-photo") f 60000,
         st,
         [Upload (AppConfig.strip_trailing_slashes (api_base env)
                  +:+ "/api/uploads/profile-photo") f 60000]))
  /\ (10485760 < size f \/ ~ In (type f) photo_types ->
      exists e, uploadProfilePhoto env (Some f) st = (Throw e, st, [])).
Proof.
  split; [reflexivity|]. split.
  - intros Hsize Htype. unfold uploadProfilePhoto.
    assert (Hs : (max_photo_bytes <? size f) = false).
    { apply Z.ltb_ge. unfold max_photo_bytes. lia. }
    rewrite Hs. apply image_type_regex_spec in Htype. rewrite Htype. cbn [negb].
    unfold Eff.bind, Eff.emit, Eff.lift.
    change (AppConfig.apiUrl (api_base env) "/api/uploads/profile-photo")
      with (AppConfig.strip_trailing_slashes (api_base env)
            +:+ "/api/uploads/profile-photo").
    by destruct (postFormWithAuth env _ f 60000).
  - intros Hbad. unfold uploadProfilePhoto.
    destruct (max_photo_bytes <? size f) eqn:Hs; [eexists; reflexivity|].
    destruct (test image_type_regex (type f)) eqn:Ht; [|eexists; reflexivity].
    exfalso. apply Z.ltb_ge in Hs. unfold max_photo_bytes in Hs.
    apply image_type_regex_spec in Ht.
    destruct Hbad as [Hbad|Hbad]; [lia|done].
Qed.
End ProfilePageFacts.

Lemma apiUrl_joins_witness :
  AppConfig.apiUrl "http://localhost:5000//" "api/topics"
  = "http://localhost:5000/api/topics"
  /\ AppConfig.apiUrl "http://localhost:5000" "/api/topics"
     = AppConfig.apiUrl "http://localhost:5000" "api/topics".
Proof.
  split.
  - destruct (apiUrl_joins "http://localhost:5000//" "api/topics") as [_ Hjoin].
    destruct (Hjoin ltac:(discriminate)) as (Hurl & _).
    etransitivity; [exact Hurl|reflexivity].
  - destruct (apiUrl_joins "http://localhost:5000" "api/topics") as [_ Hjoin].
    destruct (Hjoin ltac:(discriminate)) as (_ & _ & _ & Hslash).
    apply Hslash. reflexivity.
Defined.

Lemma uploadProfilePhoto_checks_witness :
  ProfilePage.uploadProfilePhoto
    (MoreSamples.profile_env "" (Ok (Samples.obj [("url", JStr "/p/me.png")])))
    (Some (MoreSamples.photo 2048 "image/png")) MoreSamples.idle
  = (Ok (Samples.obj [("url", JStr "/p/me.png")]), MoreSamples.idle,
     [ProfilePage.Upload "http://localhost:5000/api/uploads/profile-photo"
        (MoreSamples.photo 2048 "image/png") 60000])
  /\ (exists e,
        ProfilePage.uploadProfilePhoto
          (MoreSamples.profile_env "" (Ok (Samples.obj [("url", JStr "/p/me.png")])))
          (Some (MoreSamples.photo 2048 "application/pdf")) MoreSamples.idle
        = (Throw e, MoreSamples.idle, []))
  /\ (exists e,
        ProfilePage.uploadProfilePhoto
          (MoreSamples.profile_env "" (Ok (Samples.obj [("url", JStr "/p/me.png")])))
          (Some (MoreSamples.photo 10485761 "image/png")) MoreSamples.idle
        = (Throw e, MoreSamples.idle, [])).
Proof.
  split; [|split].
  - destruct (uploadProfilePhoto_checks
                (MoreSamples.profile_env ""
                   (Ok (Samples.obj [("url", JStr "/p/me.png")])))
                (MoreSamples.photo 2048 "image/png") MoreSamples.idle)
      as (_ & Hsent & _).
    etransitivity;
      [apply Hsent; [simpl; lia|simpl; auto]|reflexivity].
  - destruct (uploadProfilePhoto_checks
                (MoreSamples.profile_env ""
                   (Ok (Samples.obj [("url", JStr "/p/me.png")])))
                (MoreSamples.photo 2048 "application/pdf") MoreSamples.idle)
      as (_ & _ & Hrefused).
    apply Hrefused. right. simpl. intros [H|[H|[H|[H|[]]]]]; discriminate.
  - destruct (uploadProfilePhoto_checks
                (MoreSamples.profile_env ""
                   (Ok (Samples.obj [("url", JStr "/p/me.png")])))
                (MoreSamples.photo 10485761 "image/png") MoreSamples.idle)
      as (_ & _ & Hrefused).
    apply Hrefused. left. simpl. lia.
Defined.

Section SaveProfileFacts.
Import Profile ProfilePage.
Context (env : Env).
Implicit Types st : State.

(** The e-mail saveProfile would send is blank or passes validateEmail, as
    soon as the form validates. *)
Lemma getVal_email_checked :
  fst (validateAllFields (document env)) = true ->
  getVal env "editEmail" = ""
  \/ valid (validateEmail (getVal env "editEmail")) = true.
Proof.
  intros Hok. unfold getVal.
  destruct (getElementById (document env) "editEmail") as [f|] eqn:Hf; [|by left].
  destruct (String.eqb (trim (value f)) "") eqn:Hb.
  - left. by apply String.eqb_eq.
  - right. apply String.eqb_neq in Hb.
    apply validate_each_verdict in Hok as [_ Hok].
    destruct (Hok "editEmail" f) as [_ Hemail]; [simpl; auto|done|].
    apply Hemail; [|done].
    unfold getElementById in Hf.
    destruct (inputs (document env) !! "editEmail"); [|done].
    by injection Hf as <-.
Qed.

(** What saveProfile does once the form has validated and somebody is
    signed in. *)
Lemma saveProfile_request st :
  isLoading st = false ->
  fst (validateAllFields (document env)) = true ->
  signed_in env = true ->
  exists d st' t,
    saveProfile env st
    = (Ok tt, st',
       Validation (snd (validateAllFields (document env)))
       :: (if has_saveBtn env then [LoadingUI true] else [])
       ++ PutProfile d :: t)
    /\ p_email d = getVal env "editEmail"
    /\ isLoading st' = false
    /\ Forall (fun ev => is_put ev = false /\ ev <> CloseEditModal) t.
Proof.
  intros Hl Hok Hin. unfold saveProfile.
  unfold Eff.bind at 1. unfold Eff.gets at 1. rewrite Hl.
  destruct (validateAllFields (document env)) as [ok effects]. cbn [fst snd] in *.
  subst ok. cbn [negb]. rewrite Hin. cbn [negb].
  unfold setLoading, closeEditModal, updateProfileUI.
  unfold Eff.try_catch, Eff.bind, Eff.emit, Eff.get, Eff.gets, Eff.modify,
    Eff.lift, Eff.ret.
  cbn [set_loading isLoading currentPhotoURL currentPhotoFilename].
  destruct (has_saveBtn env); cbn;
    (match goal with |- context [putProfile env ?d] =>
       destruct (putProfile env d) as [updated|e] end;
     [destruct (get_prop updated "photo") as [ph|e']|]);
    cbn; eexists _, _, _; (split; [reflexivity|]);
    (split; [reflexivity|]); (split; [reflexivity|]);
    repeat constructor; discriminate.
Qed.

(** What it does otherwise. *)
Lemma saveProfile_no_request st :
  isLoading st = true
  \/ fst (validateAllFields (document env)) = false
  \/ signed_in env = false ->
  exists st' t,
    saveProfile env st = (Ok tt, st', t)
    /\ (isLoading st = true -> st' = st /\ t = [])
    /\ (isLoading st = false -> isLoading st' = false)
    /\ Forall (fun ev => is_put ev = false /\ ev <> CloseEditModal) t.
Proof.
  intros Hcase. unfold saveProfile.
  unfold Eff.bind at 1. unfold Eff.gets at 1.
  destruct (isLoading st) eqn:Hl.
  { eexists _, _. split; [reflexivity|]. by repeat split. }
  destruct (validateAllFields (document env)) as [ok effects]. cbn [fst snd] in *.
  destruct ok; cbn [negb].
  - destruct (signed_in env) eqn:Hin; [intuition discriminate|]. cbn [negb].
    unfold setLoading, Eff.bind, Eff.emit, Eff.modify, Eff.ret.
    destruct (has_saveBtn env); cbn;
      eexists _, _; (split; [reflexivity|]);
      (split; [done|]); (split; [done|]); repeat constructor; discriminate.
  - unfold Eff.bind, Eff.emit. cbn.
    eexists _, _. split; [reflexivity|]. split; [done|]. split; [done|].
    repeat constructor; discriminate.
Qed.

(** X20: saveProfile never raises, and once past its guard it always ends
    with the loading flag cleared, whether the request succeeded or not; a
    call made while a save is in progress does nothing at all; and it never
    closes the edit modal: when it calls closeEditModal, after a successful
    save, the loading flag is still set and closeEditModal returns at
    once. *)
Theorem saveProfile_loading_flag st :
  exists st' t,
    saveProfile env st = (Ok tt, st', t)
    /\ (isLoading st = true -> st' = st /\ t = [])
    /\ (isLoading st = false -> isLoading st' = false)
    /\ ~ In CloseEditModal t.
Proof.
  destruct (isLoading st) eqn:Hl;
    [|destruct (fst (validateAllFields (document env))) eqn:Hok;
      [destruct (signed_in env) eqn:Hin|]].
  2: { destruct (saveProfile_request st Hl Hok Hin)
         as (d & st' & t & Hrun & _ & Hflag & Hq).
       eexists _, _. split; [exact Hrun|]. split; [done|]. split; [done|].
       intros [H|H]; [discriminate|].
       apply in_app_or in H as [H|H]; [|destruct H as [H|H]; [discriminate|]].
       - destruct (has_saveBtn env); [destruct H as [H|[]]; discriminate|destruct H].
       - rewrite Forall_forall in Hq. apply list_elem_of_In in H.
         by destruct (Hq _ H). }
  all: destruct (saveProfile_no_request st) as (st' & t & Hrun & Hbusy & Hflag & Hq);
    [rewrite ?Hl; auto|];
    eexists _, _; (split; [exact Hrun|]);
    (split; [by rewrite Hl in Hbusy|]); (split; [by rewrite Hl in Hflag|]);
    intros H; rewrite Forall_forall in Hq; apply list_elem_of_In in H;
    by destruct (Hq _ H).
Qed.

(** X21: saveProfile sends the profile only when no save is in progress,
    the form validates and somebody is signed in, and then once; the e-mail
    it sends is blank or an address validateEmail accepts, so that no
    address outside the college domain ever leaves the page. *)
Theorem saveProfile_sends_checked_email st (d : ProfileData) :
  In (PutProfile d) (snd (saveProfile env st)) ->
  isLoading st = false
  /\ fst (validateAllFields (document env)) = true
  /\ signed_in env = true
  /\ List.filter is_put (snd (saveProfile env st)) = [PutProfile d]
  /\ (p_email d = "" \/ valid (validateEmail (p_email d)) = true).
Proof.
  intros Hsent.
  destruct (isLoading st) eqn:Hl;
    [|destruct (fst (validateAllFields (document env))) eqn:Hok;
      [destruct (signed_in env) eqn:Hin|]].
  2: { destruct (saveProfile_request st Hl Hok Hin)
         as (d' & st' & t & Hrun & Hemail & _ & Hq).
       rewrite Hrun in Hsent |- *. cbn [snd] in *.
       assert (Hf : List.filter is_put t = []).
       { clear -Hq. induction Hq as [|ev t [Hev _] _ IH]; simpl; [done|].
         by rewrite Hev. }
       assert (d = d').
       { destruct Hsent as [H|H]; [discriminate|].
         apply in_app_or in H as [H|H]; [|destruct H as [H|H]].
         - destruct (has_saveBtn env); [destruct H as [H|[]]; discriminate|destruct H].
         - by injection H.
         - rewrite Forall_forall in Hq. apply list_elem_of_In in H.
           by destruct (Hq _ H). }
       subst d'. repeat split; try done.
       - simpl. rewrite List.filter_app. simpl. rewrite Hf.
         by destruct (has_saveBtn env).
       - rewrite Hemail. by apply getVal_email_checked. }
  all: exfalso;
    destruct (saveProfile_no_request st) as (st' & t & Hrun & _ & _ & Hq);
    [rewrite ?Hl; auto|];
    rewrite Hrun in Hsent; cbn [snd] in Hsent;
    rewrite Forall_forall in Hq; apply list_elem_of_In in Hsent;
    by destruct (Hq _ Hsent).
Qed.
End SaveProfileFacts.

Lemma saveProfile_loading_flag_witness :
  ProfilePage.saveProfile
    (MoreSamples.profile_env "juan@paterostechnologicalcollege.edu.ph"
       (Ok (Samples.obj [("name", JStr "Juan dela Cruz")])))
    (ProfilePage.set_loading true MoreSamples.idle)
  = (Ok tt, ProfilePage.set_loading true MoreSamples.idle, [])
  /\ exists st' t,
       ProfilePage.saveProfile
         (MoreSamples.profile_env "juan@paterostechnologicalcollege.edu.ph"
            (Ok (Samples.obj [("name", JStr "Juan dela Cruz")])))
         MoreSamples.idle
       = (Ok tt, st', t)
       /\ ProfilePage.isLoading st' = false
       /\ ~ In ProfilePage.CloseEditModal t.
Proof.
  split.
  - destruct (saveProfile_loading_flag
                (MoreSamples.profile_env "juan@paterostechnologicalcollege.edu.ph"
                   (Ok (Samples.obj [("name", JStr "Juan dela Cruz")])))
                (ProfilePage.set_loading true MoreSamples.idle))
      as (st' & t & Hrun & Hbusy & _).
    destruct (Hbusy eq_refl) as [-> ->]. exact Hrun.
  - destruct (saveProfile_loading_flag
                (MoreSamples.profile_env "juan@paterostechnologicalcollege.edu.ph"
                   (Ok (Samples.obj [("name", JStr "Juan dela Cruz")])))
                MoreSamples.idle)
      as (st' & t & Hrun & _ & Hflag & Hopen).
    exists st', t. split; [exact Hrun|]. split; [exact (Hflag eq_refl)|exact Hopen].
Defined.

Lemma saveProfile_sends_checked_email_witness :
  Profile.valid (Profile.validateEmail "juan@paterostechnologicalcollege.edu.ph")
  = true
  /\ List.filter is_put
       (snd (ProfilePage.saveProfile
               (MoreSamples.profile_env "juan@paterostechnologicalcollege.edu.ph"
                  (Ok (Samples.obj [("name", JStr "Juan dela Cruz")])))
               MoreSamples.idle))
     = [ProfilePage.PutProfile
          {| ProfilePage.p_name := "Juan dela Cruz";
             ProfilePage.p_email := "juan@paterostechnologicalcollege.edu.ph";
             ProfilePage.p_studentNumber := "2021-0001";
             ProfilePage.p_program := "BSIT";
             ProfilePage.p_institution := "";
             ProfilePage.p_yearLevel := "";
             ProfilePage.p_specialization := "";
             ProfilePage.p_graduation := "";
             ProfilePage.p_bio := "";
             ProfilePage.p_photo := JNull;
             ProfilePage.p_photoFilename := JNull |}].
Proof.
  destruct (saveProfile_sends_checked_email
              (MoreSamples.profile_env "juan@paterostechnologicalcollege.edu.ph"
                 (Ok (Samples.obj [("name", JStr "Juan dela Cruz")])))
              MoreSamples.idle
              {| ProfilePage.p_name := "Juan dela Cruz";
                 ProfilePage.p_email := "juan@paterostechnologicalcollege.edu.ph";
                 ProfilePage.p_studentNumber := "2021-0001";
                 ProfilePage.p_program := "BSIT";
                 ProfilePage.p_institution := "";
                 ProfilePage.p_yearLevel := "";
                 ProfilePage.p_specialization := "";
                 ProfilePage.p_graduation := "";
                 ProfilePage.p_bio := "";
                 ProfilePage.p_photo := JNull;
                 ProfilePage.p_photoFilename := JNull |})
    as (_ & _ & _ & Honce & Hemail).
  - vm_compute. right. right. left. reflexivity.
  - split; [|exact Honce].
    destruct Hemail as [H|H]; [discriminate H|exact H].
Defined.
